(* ===== verification/_CoqProject ===== *)
-Q . S2P
Prelude.v
PyRuntime.v
PyString.v
Services.v
Template.v
Session.v
Env.v
SessionRuns.v
LoopSpec.v
Indexer.v
Retrieval.v
Answerer.v
EndToEnd.v
