(* ===== verification/Prelude.v ===== *)
(** * RepoReader: a verification development

    RepoReader ([src/main.py]) is a console script that answers questions
    about a GitHub repository.  It asks for a URL, clones the repository
    into a temporary directory, indexes its files, then loops: read a
    question, normalise it, retrieve the relevant documents, render a
    prompt, call a hosted model, print the answer, append the pair to a
    conversation history.  [main.py] is the only file under [src/]; the
    modules it imports ([file_processing], [questions], [utils],
    [config]) are not, and are modelled from [spec.md] (marked
    [spec_modelled] in PROJECT.json).

    ** Parts of the program and the files that model them

    - [Prelude] (this file): shared notations ([rr_scope]), the hint
      databases [rr] and [rr_rw], the tactics, and generic lemmas on
      strings and lists (append, membership, suffixes, substrings and a
      decision procedure for them).
    - [PyRuntime] (Module [Py]): the Python effects [main.py] relies on,
      as a state and exception monad [Py] over a [World] (remaining
      standard input, the trace of observable events, the state of the
      external services).  Exceptions carry their class, so
      [except Exception] catches [EOFError] and the services' errors but
      not [KeyboardInterrupt] or [SystemExit].  [input], [print],
      [exit()] and the [with tempfile.TemporaryDirectory()] block are
      operations of the monad; the block's clean-up runs on every exit
      path.  Generic lemmas ([frame], [total], [trace_inv], [ext_rely])
      say what each operation does to standard input, the trace and the
      services' state.
    - [PyString] (Module [Str]): [str.split] with a one-character
      separator and [[-1]] (line 17), [str.lower] on ASCII and the
      exit-sentinel test (line 65).
    - [Services] (Modules [Svc], [Cfg]): the interface between [main.py]
      and the modules it imports, a [Record] of operations
      ([clone_github_repo], [load_and_index_files],
      [format_user_question], [ask_question], the [ChatOpenAI]
      constructor, the temporary-directory namer) acting on the
      services' own state; [QuestionContext] with its nine fields in the
      constructor's order; the constants of [config.py].
    - [Template] (Module [Tmpl]): the prompt template of lines 29-45, its
      [input_variables] (lines 47-57), and [str.format] as the template
      engine runs it: parsing into literal text and fields ([{{] and
      [}}] escapes, [ValueError] on a malformed template) and rendering
      ([KeyError] on a missing variable).
    - [Session] (Module [Session], Section [Main] over any services):
      [main()] itself, lines 15-77: URL prompt, repository name, clone
      branch, index check, model and template set-up, and the
      [while True] loop with its [try]/[except Exception].  The loop is a
      [Fixpoint] on fuel.
    - [Env] (Module [Env]): the module's top level, lines 11-15.
      [os.environ] is a stdpp [gmap]; [load_dotenv()] is python-dotenv's
      dict of the [.env] assignments ([dotenv_values], last assignment
      wins, first-assignment order) walked by
      [set_as_environment_variables] without override; [os.getenv] is a
      lookup; [module_init] gives the environment and the key that
      [Session] takes as its parameter [OPENAI_API_KEY]; [script] is the
      whole module, which binds [main] and ends.
    - [SessionRuns]: a scripted environment and the concrete runs of
      [main] and of one loop iteration that instantiate [Session]'s
      theorems.
    - [LoopSpec]: the interactive loop of spec.md 4.4 as an abstract
      machine, an [Inductive] step relation over the answered pairs and
      the session's status, labelled by the input consumed and the calls
      to the answerer, with its paths ([sreach]); a Section over the exit
      test and the question normalisation, so that one machine states
      both the spec (exact sentinel) and the code (line 65).
    - [Indexer] (spec.md 4.2): [load_and_index_files] as a fold over the
      files of the clone, with the extension allow-list, the size
      ceiling, skipped undecodable files, the per-extension dict (its
      items in insertion order) and the file names.
    - [Retrieval] (spec.md 4.2 and 9): the index as a capability
      [Retriever] (a type class with [build] and [query]), the top-K
      contract [TopK], and a reference index that sorts by score.
    - [Answerer] (spec.md 4.3): [questions.ask_question] over any
      [Retriever]: top-K query, numbered document block, rendering of the
      template with Python [repr] of the counts and file names, history
      prefix, model call, answer returned verbatim.
    - [EndToEnd]: concrete services built from [Indexer], [Retrieval]
      and [Answerer] (a clone that copies known repositories, a model
      that records prompts and returns scripted responses,
      [format_user_question] as [str.strip()]), and the scenario of
      spec.md section 8 run through [Session.main] for every repository
      of one qualifying file.

    ** What the theorems show (see PROJECT.json for the list)

    - [Session], for every implementation of the services: termination
      of [main] with enough fuel; the exit sentinel stops the loop
      without calling the answerer; every other line is normalised and
      answered; the local history after [n] answered questions is the
      [n] pairs in order; every call to [ask_question] receives a
      context whose history is [""] (the history is rebound, never
      stored in the context); an exception of class [Exception] prints
      ["An error occurred: ..."] and ends the session normally, while
      [KeyboardInterrupt] propagates; the temporary directory is removed
      after the last service call on every outcome; a clone failure
      performs no indexing and no question, while a clone that raises
      escapes [main] (only the loop has a [try]); an empty index ends the
      session by [SystemExit] before any question; [main] changes the
      services' state only through its calls, [ask_question] always on
      the context of line 61 ([main_rely]), and built from a result of
      the loader ([main_rely_loaded], [main_asks_loaded], which carry
      what the loader promises of its results into the loop).  The
      invariant of spec.md section 3: the loader is called at most
      once, every question comes after it and receives one and the same
      context holding its result ([built_once], by two trace invariants
      of the loop combined with [trace_inv_and] and a case analysis of
      the set-up).  An exception of the loader or of the [ChatOpenAI]
      constructor escapes [main] unreported, like one of the clone, and
      so do the [EOFError] and [KeyboardInterrupt] of the URL prompt.
    - [LoopSpec]: every run of [chat_loop] is a path of the machine with
      the code's tests (a refinement, by induction on fuel over a
      per-iteration step lemma); the pairs of a path's final state are
      its answered calls in order (by rule induction); the loop is not a
      refinement of the machine with the exact sentinel (by inversion of
      the machine's paths on the line ["EXIT()"]).  Bounds: after the
      loop the history's length is its initial length plus
      [20 + |q| + |a|] per answered pair, so it grows without limit.
      Liveness: when the answerer answers, every question before
      ["exit()"] is answered once, in order, and the loop then ends
      normally (induction on the questions, one unit of fuel each).
    - [PyString]: [github_url.split("/")[-1]] never raises and gives the
      longest suffix without ["/"]; the sentinel test accepts exactly
      the 16 case variants of ["exit()"], listed.
    - [Template]: the template parses and its fields are exactly the
      input variables, [conversation_history] not among them; rendering
      with every variable bound never raises and the prompt contains
      each value; printing and parsing segments is a round trip.
    - [Indexer]: the counts add up to the number of documents and the
      file names are the documents' paths; the dict has distinct keys
      and refines the map from extension to number of indexed files;
      the index is [None] exactly when no file qualifies; the result
      does not depend on the order of the walk (documents and names up
      to permutation, counts as a map: a [Proper] instance for [≡ₚ]),
      while the dict's [repr] in the prompt does.
    - [Retrieval]: the reference index meets the top-K contract.
    - [Answerer]: against any index meeting the contract, [ask_question]
      retrieves [min K n] top documents, renders the template without
      error, sends history and prompt to the model and returns its
      result verbatim; the prompt holds the question, the repository
      name and each numbered document.
    - [Env]: the global [OPENAI_API_KEY] is the environment's value,
      else the value of the file's last assignment, else [None]
      ([load_dotenv] does not override; the dict keeps each name's last
      value).  [Env.script] records that the module defines [main()]
      and never calls it (a finding, not a theorem).
    - [EndToEnd]: in every run, each prompt the model receives is the
      template rendered for a context with an empty history: the
      conversation history never reaches the model.  Every context
      passed to the answerer is well formed for it (main's template
      and parameters, empty history, index built from exactly its
      documents, all one result of the indexer), and, composing
      [Session] with [Answerer]'s contract and [Retrieval]'s reference
      index, every prompt is the template rendered for a question, such
      a context and its top-K documents, and so holds the question, the
      repository name and those documents numbered.  A repository with
      no qualifying file ends the session by [SystemExit] before any
      question or prompt.  The scenario of section 8 for every
      repository of one qualifying file, a question and the sentinel:
      one document, counts [{ext: 1}], one prompt holding the file's
      text numbered ["1. "] and the stripped question, the answer
      printed, normal exit, clean-up last (the spec's [readme.md] is
      the witness).

    ** Fuel

    [Session.chat_loop] takes fuel; one unit per iteration.  Each
    iteration either consumes one element of standard input or ends the
    loop (end of input raises [EOFError], which the loop catches), so
    fuel [length stdin] is enough: [Session.main_total] proves that the
    [NoFuel] outcome is then impossible.  The liveness theorem needs
    one unit per question plus one for the sentinel; so does the
    scenario (2 units; its witness runs with 4).

    ** Not modelled

    The imports (lines 1-9) are the [Services] record and [Config].
    The [.env] syntax (quotes, comments, [export], variable expansion)
    is not parsed: a file is the list of its [NAME=value] assignments,
    and how python-dotenv finds the file is not modelled.  Colours and [model_name] of
    [config.py] are parameters.  The model's answers, git and the
    network are the services' state: [Session]'s theorems allow any
    behaviour of theirs.  The similarity of the embedding index is a
    parameter ([Retrieval.Score]).  Strings are Rocq [string]s of 8-bit
    characters; [str.lower] is modelled on ASCII letters, [repr] on
    printable text with the usual escapes.

    Four components stay partly modelled because what they do is not in
    [src/] and the spec does not fix it: [utils.format_user_question]
    (spec.md 4.3 refers to a section 6 that does not describe it; the
    session's theorems hold for any function, [EndToEnd] uses
    [str.strip()]); [clone_github_repo] (git and the network: a lookup
    of known repositories); [config.py] (its constants are record
    fields); the hosted model (its completions are the services'
    state). *)

From stdpp Require Export base list strings sets relations.
From Stdlib Require Export Ascii.

Declare Scope rr_scope.
Delimit Scope rr_scope with rr.
Open Scope rr_scope.

Create HintDb rr discriminated.
Create Rewrite HintDb rr_rw.

(** ** Strings *)

(** Membership of a character in a string. *)
Fixpoint str_mem (c : ascii) (s : string) : bool :=
  match s with
  | EmptyString => false
  | String d s' => Ascii.eqb c d || str_mem c s'
  end.

Notation "c ∈ₛ s" := (str_mem c s = true) (at level 70) : rr_scope.
Notation "c ∉ₛ s" := (str_mem c s = false) (at level 70) : rr_scope.
Infix "=?ₛ" := String.eqb (at level 70) : rr_scope.

(** [s] is a suffix of [t]. *)
Definition str_suffix (s t : string) : Prop := ∃ p, t = p +:+ s.

(** Python's ["\n"]. *)
Definition nl : string := String "010"%char EmptyString.

(** [s] occurs in [t]. *)
Definition str_infix (s t : string) : Prop := ∃ a b, t = a +:+ s +:+ b.

(** A decision procedure for [str_infix] on concrete strings. *)
Fixpoint str_prefixb (s t : string) : bool :=
  match s, t with
  | EmptyString, _ => true
  | String c s', String d t' => Ascii.eqb c d && str_prefixb s' t'
  | _, _ => false
  end.

Fixpoint str_infixb (s t : string) : bool :=
  str_prefixb s t || match t with EmptyString => false | String _ t' => str_infixb s t' end.

(** stdpp makes [String.append] [simpl never]; this is its step. *)
Lemma str_app_String (c : ascii) (a b : string) :
  String c a +:+ b = String c (a +:+ b).
Proof. done. Qed.

Lemma str_app_nil_l (s : string) : "" +:+ s = s.
Proof. done. Qed.

Lemma str_app_nil_r (s : string) : s +:+ "" = s.
Proof. induction s as [|c s IH]; [done | by rewrite str_app_String, IH]. Qed.

Lemma str_app_assoc (a b c : string) : a +:+ (b +:+ c) = (a +:+ b) +:+ c.
Proof. induction a as [|x a IH]; [done | by rewrite !str_app_String, IH]. Qed.

Lemma str_app_length (a b : string) :
  String.length (a +:+ b) = String.length a + String.length b.
Proof. induction a as [|x a IH]; [done | rewrite str_app_String; simpl; by rewrite IH]. Qed.

Lemma str_mem_app (c : ascii) (a b : string) :
  str_mem c (a +:+ b) = str_mem c a || str_mem c b.
Proof.
  induction a as [|d a IH]; [done |].
  rewrite str_app_String; simpl. by rewrite IH, orb_assoc.
Qed.

Lemma string_eqb_spec (s t : string) : reflect (s = t) (s =?ₛ t).
Proof. apply String.eqb_spec. Qed.

Lemma str_suffix_refl (s : string) : str_suffix s s.
Proof. by exists "". Qed.

Lemma str_suffix_cons (c : ascii) (s t : string) :
  str_suffix s t → str_suffix s (String c t).
Proof. intros [p ->]. by exists (String c p). Qed.

(** ** Lists *)

Lemma last_app_singleton {A} (l : list A) (x : A) : last (l ++ [x]) = Some x.
Proof. induction l as [|y [|z l] IH]; simpl in *; done. Qed.

#[export] Hint Rewrite str_app_String str_app_nil_l str_app_nil_r str_app_length str_mem_app : rr_rw.
#[export] Hint Resolve str_suffix_refl str_suffix_cons : rr.

(** ** Tactics *)

(** Case analysis on a string equality test in the goal. *)
Ltac case_str_eqb :=
  match goal with
  | |- context [String.eqb ?s ?t] => destruct (string_eqb_spec s t)
  end.

(** Inversion that cleans up after itself. *)
Ltac invc H := inversion H; subst; clear H.

Lemma str_infix_app_l (s t u : string) : str_infix s t → str_infix s (u +:+ t).
Proof. intros (a & b & ->). exists (u +:+ a), b. by rewrite !str_app_assoc. Qed.

Lemma str_infix_app_r (s t u : string) : str_infix s t → str_infix s (t +:+ u).
Proof. intros (a & b & ->). exists a, (b +:+ u). by rewrite <- !str_app_assoc. Qed.

Lemma str_infix_prefix (s u : string) : str_infix s (s +:+ u).
Proof. by exists "", u. Qed.

#[export] Hint Resolve str_infix_app_l str_infix_app_r str_infix_prefix : rr.

Lemma str_infix_refl (s : string) : str_infix s s.
Proof. exists "", "". by rewrite str_app_nil_r. Qed.

Lemma str_infix_trans (s t u : string) : str_infix s t → str_infix t u → str_infix s u.
Proof.
  intros (a & b & ->) (c & d & ->). exists (c +:+ a), (b +:+ d).
  by rewrite !str_app_assoc.
Qed.

#[export] Hint Resolve str_infix_refl : rr.


Lemma str_prefixb_sound s t : str_prefixb s t = true → ∃ b, t = s +:+ b.
Proof.
  revert t; induction s as [|c s IH]; intros [|d t]; simpl; try done; [eauto|eauto|].
  intros [Hc Ht]%andb_prop. apply Ascii.eqb_eq in Hc as ->.
  destruct (IH t Ht) as [b ->]. by exists b.
Qed.

Lemma str_infixb_sound s t : str_infixb s t = true → str_infix s t.
Proof.
  induction t as [|d t IH]; simpl; intros [H|H]%orb_prop.
  - destruct (str_prefixb_sound _ _ H) as [b ->]. by exists "", b.
  - done.
  - destruct (str_prefixb_sound _ _ H) as [b Hb]. exists "", b. by rewrite Hb.
  - destruct (IH H) as (a & b & ->). by exists (String d a), b.
Qed.
