(* ===== verification/PyRuntime.v ===== *)
(** The Python effects that [src/main.py] relies on, as a state and
    exception monad.  A computation of type [Py S C A] runs on a [World]:
    the standard input still to be read, the trace of observable events
    (prompts written by [input], lines written by [print], creation and
    removal of the temporary directory, and calls to the external
    services, of type [C]), and the services' own state [S].  Its outcome
    is a value, a raised exception, or [NoFuel] when a loop ran out of
    its fuel.  Exceptions carry their class: [except Exception] catches
    every class but [KeyboardInterrupt] and [SystemExit], which derive
    from [BaseException] only. *)

From S2P Require Import Prelude.

Declare Scope py_scope.
Delimit Scope py_scope with py.

Module Py.

(** ** Exceptions *)

Inductive ExcClass :=
  | EOFError
  | KeyboardInterrupt
  | SystemExit
  | IndexError
  | OtherError (name : string).

Record PyExc := mkExc { exc_class : ExcClass; exc_msg : string }.

(** [isinstance(e, Exception)]. *)
Definition is_exception (e : PyExc) : bool :=
  match exc_class e with
  | KeyboardInterrupt | SystemExit => false
  | _ => true
  end.

(** [str(e)] for an exception raised with one message argument. *)
Definition exc_str (e : PyExc) : string := exc_msg e.

(** What [input()] raises at end of file. *)
Definition eof_error : PyExc := mkExc EOFError "EOF when reading a line".

(** What Ctrl-C raises while [input()] waits. *)
Definition keyboard_interrupt : PyExc := mkExc KeyboardInterrupt "".

(** [exit()] with no argument raises [SystemExit(None)]. *)
Definition system_exit : PyExc := mkExc SystemExit "".

(** The result of an external call: a value or an exception. *)
Inductive PyResult (A : Type) := Ok (a : A) | Err (e : PyExc).
Arguments Ok {A} a.
Arguments Err {A} e.

(** ** The world *)

(** What standard input delivers to one [input()] call. *)
Inductive Input := Line (s : string) | Interrupt.

Inductive Event (C : Type) :=
  | EvWrite (s : string)     (** the prompt [input(s)] writes *)
  | EvPrint (s : string)     (** [print(s)] *)
  | EvMkTemp (p : string)    (** [TemporaryDirectory()] created [p] *)
  | EvRmTemp (p : string)    (** its clean-up removed [p] *)
  | EvCall (c : C).          (** a call to an external service *)
Arguments EvWrite {C} s.
Arguments EvPrint {C} s.
Arguments EvMkTemp {C} p.
Arguments EvRmTemp {C} p.
Arguments EvCall {C} c.

Record World (S C : Type) := mkWorld {
  stdin : list Input;
  trace : list (Event C);
  ext : S;
}.
Arguments mkWorld {S C} stdin trace ext.
Arguments stdin {S C} w.
Arguments trace {S C} w.
Arguments ext {S C} w.

Inductive Outcome (A : Type) := Ret (a : A) | Raise (e : PyExc) | NoFuel.
Arguments Ret {A} a.
Arguments Raise {A} e.
Arguments NoFuel {A}.

Definition Py (S C A : Type) : Type := World S C → Outcome A * World S C.

Section Monad.
Context {S C : Type}.

Definition emit (e : Event C) (w : World S C) : World S C :=
  mkWorld (stdin w) (trace w ++ [e]) (ext w).

Definition ret {A} (a : A) : Py S C A := λ w, (Ret a, w).

Definition bind {A B} (m : Py S C A) (k : A → Py S C B) : Py S C B :=
  λ w, match m w with
       | (Ret a, w') => k a w'
       | (Raise e, w') => (Raise e, w')
       | (NoFuel, w') => (NoFuel, w')
       end.

Definition raise {A} (e : PyExc) : Py S C A := λ w, (Raise e, w).

Definition no_fuel {A} : Py S C A := λ w, (NoFuel, w).

(** [print(s)]. *)
Definition print (s : string) : Py S C unit := λ w, (Ret tt, emit (EvPrint s) w).

(** [input(prompt)]: write the prompt, then read one line. *)
Definition input (prompt : string) : Py S C string :=
  λ w, let w1 := emit (EvWrite prompt) w in
       match stdin w1 with
       | [] => (Raise eof_error, w1)
       | Line s :: rest => (Ret s, mkWorld rest (trace w1) (ext w1))
       | Interrupt :: rest => (Raise keyboard_interrupt, mkWorld rest (trace w1) (ext w1))
       end.

(** [try: body except Exception as e: handler(e)]. *)
Definition try_except {A} (body : Py S C A) (handler : PyExc → Py S C A) : Py S C A :=
  λ w, match body w with
       | (Raise e, w') => if is_exception e then handler e w' else (Raise e, w')
       | r => r
       end.

(** A call to an external service [f] on the services' state.  The
    trace records the call with its response, [log r]; an error of the
    service is raised in the caller. *)
Definition call {A} (log : PyResult A → C) (f : S → PyResult A * S) : Py S C A :=
  λ w, let '(r, s') := f (ext w) in
       let w1 := emit (EvCall (log r)) (mkWorld (stdin w) (trace w) s') in
       match r with
       | Ok a => (Ret a, w1)
       | Err e => (Raise e, w1)
       end.

(** A Python expression that evaluates to [r]: its value, or the
    exception it raises. *)
Definition of_result {A} (r : PyResult A) : Py S C A :=
  match r with
  | Ok a => ret a
  | Err e => raise e
  end.

(** [with tempfile.TemporaryDirectory() as p: body(p)]: [mkdtemp] names
    the directory; the clean-up runs when [body] returns or raises. *)
Definition with_tempdir {A} (mkdtemp : S → string * S) (body : string → Py S C A) : Py S C A :=
  λ w, let '(p, s1) := mkdtemp (ext w) in
       let w1 := emit (EvMkTemp p) (mkWorld (stdin w) (trace w) s1) in
       match body p w1 with
       | (Ret a, w2) => (Ret a, emit (EvRmTemp p) w2)
       | (Raise e, w2) => (Raise e, emit (EvRmTemp p) w2)
       | (NoFuel, w2) => (NoFuel, w2)
       end.

(** ** Properties of runs *)

(** A computation only consumes standard input and only extends the
    trace: its world steps forward. *)
Definition forward (w w' : World S C) : Prop :=
  (∃ l, stdin w = l ++ stdin w') ∧ (∃ t, trace w' = trace w ++ t).

Definition frame {A} (m : Py S C A) : Prop :=
  ∀ w o w', m w = (o, w') → forward w w'.

(** A computation that never runs out of fuel. *)
Definition total {A} (m : Py S C A) : Prop := ∀ w, fst (m w) ≠ NoFuel.

(** Every event a computation adds to the trace satisfies [P]. *)
Definition trace_inv (P : Event C → Prop) {A} (m : Py S C A) : Prop :=
  ∀ w o w', m w = (o, w') → ∃ t, trace w' = trace w ++ t ∧ Forall P t.

(** Every run takes the services' state along [R]-steps. *)
Definition ext_rely (R : S → S → Prop) {A} (m : Py S C A) : Prop :=
  ∀ w o w', m w = (o, w') → rtc R (ext w) (ext w').

End Monad.

Module Import Notations.
Notation "'let*' x ':=' m 'in' k" := (bind m (λ x, k))
  (at level 10, x name, m at level 100, k at level 200) : py_scope.
Notation "m ;; k" := (bind m (λ _ : unit, k))
  (at level 100, right associativity) : py_scope.
End Notations.

Open Scope py_scope.

(** ** Monad laws and the frame of every operation *)

Section Laws.
Context {S C : Type}.
Local Notation frame := (@frame S C _).
Local Notation total := (@total S C _).

Lemma bind_ret_l {A B} (a : A) (k : A → Py S C B) w : bind (ret a) k w = k a w.
Proof. done. Qed.

Lemma bind_ret_r {A} (m : Py S C A) w : bind m ret w = m w.
Proof. unfold bind, ret. by destruct (m w) as [[] ?]. Qed.

Lemma bind_assoc {A B D} (m : Py S C A) (k : A → Py S C B) (h : B → Py S C D) w :
  bind (bind m k) h w = bind m (λ a, bind (k a) h) w.
Proof. unfold bind. by destruct (m w) as [[] ?]. Qed.

Lemma forward_refl (w : World S C) : forward w w.
Proof. split; exists []; by rewrite ?app_nil_r. Qed.

Lemma forward_trans (w1 w2 w3 : World S C) : forward w1 w2 → forward w2 w3 → forward w1 w3.
Proof.
  intros [[l1 H1] [t1 T1]] [[l2 H2] [t2 T2]]. split.
  - exists (l1 ++ l2). by rewrite H1, H2, app_assoc.
  - exists (t1 ++ t2). by rewrite T2, T1, app_assoc.
Qed.

Lemma forward_emit (w : World S C) e : forward w (emit e w).
Proof. split; [exists [] | exists [e]]; done. Qed.

Lemma frame_ret {A} (a : A) : frame (ret a).
Proof. intros w o w' [= _ <-]. apply forward_refl. Qed.

Lemma frame_raise {A} e : frame (@raise S C A e).
Proof. intros w o w' [= _ <-]. apply forward_refl. Qed.

Lemma frame_no_fuel {A} : frame (@no_fuel S C A).
Proof. intros w o w' [= _ <-]. apply forward_refl. Qed.

Lemma frame_print s : frame (print s).
Proof. intros w o w' [= _ <-]. apply forward_emit. Qed.

Lemma frame_input p : frame (input p).
Proof.
  intros w o w'. unfold input. simpl.
  destruct (stdin w) as [|[s|] rest] eqn:E; intros [= _ <-]; [apply forward_emit| |];
    (split; [eexists; rewrite E; by instantiate (1 := [_]) | by exists [EvWrite p]]).
Qed.

Lemma frame_call {A} log (f : S → PyResult A * S) : frame (call log f).
Proof.
  intros w o w'. unfold call.
  destruct (f _) as [r s']; destruct r as [a|e]; intros [= _ <-];
    (split; [exists []; done | eexists; reflexivity]).
Qed.

Lemma frame_of_result {A} (r : PyResult A) : frame (of_result r).
Proof. destruct r; [apply frame_ret | apply frame_raise]. Qed.

Lemma frame_if {A} (b : bool) (m1 m2 : Py S C A) :
  frame m1 → frame m2 → frame (if b then m1 else m2).
Proof. by destruct b. Qed.

Lemma frame_bind {A B} (m : Py S C A) (k : A → Py S C B) :
  frame m → (∀ a, frame (k a)) → frame (bind m k).
Proof.
  intros Hm Hk w o w'. unfold bind.
  destruct (m w) as [[a|e|] w1] eqn:E; [intros H | intros [= _ <-]; by eapply Hm ..].
  eapply forward_trans; [eapply Hm, E | eapply Hk, H].
Qed.

Lemma frame_try_except {A} (body : Py S C A) h :
  frame body → (∀ e, frame (h e)) → frame (try_except body h).
Proof.
  intros Hb Hh w o w'. unfold try_except.
  destruct (body w) as [[a|e|] w1] eqn:E; try (intros [= _ <-]; by eapply Hb).
  destruct (is_exception e); [intros H | intros [= _ <-]; by eapply Hb].
  eapply forward_trans; [eapply Hb, E | eapply Hh, H].
Qed.

Lemma frame_with_tempdir {A} mk (body : string → Py S C A) :
  (∀ p, frame (body p)) → frame (with_tempdir mk body).
Proof.
  intros Hb w o w'. unfold with_tempdir.
  destruct (mk (ext w)) as [p s1].
  set (w1 := emit (EvMkTemp p) _).
  assert (forward w w1) as Hw1 by (split; [exists [] | exists [EvMkTemp p]]; done).
  destruct (body p w1) as [[a|e|] w2] eqn:E; intros [= _ <-];
    apply (forward_trans _ _ _ Hw1); [..|by eapply Hb];
    (eapply forward_trans; [by eapply Hb | apply forward_emit]).
Qed.

(** ** Computations that never run out of fuel *)

Lemma total_ret {A} (a : A) : total (ret a).
Proof. done. Qed.

Lemma total_raise {A} e : total (@raise S C A e).
Proof. done. Qed.

Lemma total_print s : total (print s).
Proof. done. Qed.

Lemma total_input p : total (input p).
Proof. intros w. unfold input. simpl. by destruct (stdin w) as [|[]]. Qed.

Lemma total_call {A} log (f : S → PyResult A * S) : total (call log f).
Proof. intros w. unfold call. by destruct (f _) as [[] ?]. Qed.

Lemma total_of_result {A} (r : PyResult A) : total (of_result r).
Proof. by destruct r. Qed.

Lemma total_if {A} (b : bool) (m1 m2 : Py S C A) :
  total m1 → total m2 → total (if b then m1 else m2).
Proof. by destruct b. Qed.

Lemma total_bind {A B} (m : Py S C A) (k : A → Py S C B) :
  total m → (∀ a, total (k a)) → total (bind m k).
Proof.
  intros Hm Hk w. unfold bind. specialize (Hm w).
  destruct (m w) as [[a|e|] w1]; [apply Hk | done | done].
Qed.

Lemma total_try_except {A} (body : Py S C A) h :
  total body → (∀ e, total (h e)) → total (try_except body h).
Proof.
  intros Hb Hh w. unfold try_except. specialize (Hb w).
  destruct (body w) as [[a|e|] w1]; [done | | done].
  destruct (is_exception e); [apply Hh | done].
Qed.

Lemma total_with_tempdir {A} mk (body : string → Py S C A) :
  (∀ p, total (body p)) → total (with_tempdir mk body).
Proof.
  intros Hb w. unfold with_tempdir. destruct (mk (ext w)) as [p s1].
  specialize (Hb p (emit (EvMkTemp p) (mkWorld (stdin w) (trace w) s1))).
  by destruct (body p _) as [[]].
Qed.

(** ** Inversion of a successful or failed run *)

Lemma bind_Ret_inv {A B} (m : Py S C A) (k : A → Py S C B) w b w'' :
  bind m k w = (Ret b, w'') → ∃ a w', m w = (Ret a, w') ∧ k a w' = (Ret b, w'').
Proof. unfold bind. destruct (m w) as [[a|e|] w1]; [eauto | done | done]. Qed.

Lemma input_Ret_inv p (w w' : World S C) s :
  input p w = (Ret s, w') → stdin w = Line s :: stdin w'.
Proof. unfold input. simpl. by destruct (stdin w) as [|[]]; intros [= -> <-]. Qed.

Lemma frame_stdin_length {A} (m : Py S C A) w o w' :
  frame m → m w = (o, w') → length (stdin w') ≤ length (stdin w).
Proof.
  intros Hm E. destruct (Hm _ _ _ E) as [[l ->] _]. rewrite length_app. lia.
Qed.

(** A computation that starts by reading a line and returns has consumed
    that line. *)
Lemma input_bind_stdin {B} p (k : string → Py S C B) w b w'' :
  (∀ a, frame (k a)) → bind (input p) k w = (Ret b, w'') →
  length (stdin w'') < length (stdin w).
Proof.
  intros Hk E. apply bind_Ret_inv in E as (s & w1 & Hin & E).
  apply input_Ret_inv in Hin. rewrite Hin. simpl.
  pose proof (frame_stdin_length _ _ _ _ (Hk s) E). lia.
Qed.

End Laws.

(** ** Invariants of the events a computation adds to the trace *)

Section TraceInv.
Context {S C : Type} (P : Event C → Prop).
Local Notation trace_inv := (@trace_inv S C P _).

Lemma trace_inv_nil {A} (m : Py S C A) : (∀ w, snd (m w) = w) → trace_inv m.
Proof.
  intros Hm w o w' E. exists []. rewrite app_nil_r.
  specialize (Hm w). rewrite E in Hm. by subst.
Qed.

Lemma trace_inv_ret {A} (a : A) : trace_inv (ret a).
Proof. by apply trace_inv_nil. Qed.

Lemma trace_inv_raise {A} e : trace_inv (@raise S C A e).
Proof. by apply trace_inv_nil. Qed.

Lemma trace_inv_no_fuel {A} : trace_inv (@no_fuel S C A).
Proof. by apply trace_inv_nil. Qed.

Lemma trace_inv_of_result {A} (r : PyResult A) : trace_inv (of_result r).
Proof. by apply trace_inv_nil; destruct r. Qed.

Lemma trace_inv_print s : P (EvPrint s) → trace_inv (print s).
Proof. intros HP w o w' [= _ <-]. eexists; split; [reflexivity | by constructor]. Qed.

Lemma trace_inv_input p : P (EvWrite p) → trace_inv (input p).
Proof.
  intros HP w o w'. unfold input. simpl.
  destruct (stdin w) as [|[]]; intros [= _ <-]; eexists; (split; [reflexivity | by constructor]).
Qed.

Lemma trace_inv_call {A} log (f : S → PyResult A * S) :
  (∀ r, P (EvCall (log r))) → trace_inv (call log f).
Proof.
  intros HP w o w'. unfold call. destruct (f (ext w)) as [[a|e] s'];
    intros [= _ <-]; eexists; (split; [reflexivity | by constructor]).
Qed.

Lemma trace_inv_bind {A B} (m : Py S C A) (k : A → Py S C B) :
  trace_inv m → (∀ a, trace_inv (k a)) → trace_inv (bind m k).
Proof.
  intros Hm Hk w o w'. unfold bind.
  destruct (m w) as [[a|e|] w1] eqn:E; [intros H | intros [= _ <-]; by eapply Hm ..].
  destruct (Hk _ _ _ _ H) as (t2 & -> & H2), (Hm _ _ _ E) as (t1 & -> & H1).
  exists (t1 ++ t2). rewrite app_assoc. split; [done | by apply Forall_app].
Qed.

(** A call whose results satisfy [Q], followed by a continuation that
    keeps the invariant on the results that satisfy [Q]. *)
Lemma trace_inv_bind_call {A B} log (f : S → PyResult A * S) (Q : A → Prop) (k : A → Py S C B) :
  (∀ r, P (EvCall (log r))) → (∀ s a s', f s = (Ok a, s') → Q a) →
  (∀ a, Q a → trace_inv (k a)) → trace_inv (bind (call log f) k).
Proof.
  intros HP HQ Hk w o w'. unfold bind, call.
  destruct (f (ext w)) as [[a|e] s'] eqn:Ef; simpl; intros H.
  - destruct (Hk a (HQ _ _ _ Ef) _ _ _ H) as (t2 & -> & H2).
    exists (EvCall (log (Ok a)) :: t2). simpl. rewrite <- app_assoc. split; [done | by constructor].
  - injection H as _ <-. eexists; split; [reflexivity | by constructor].
Qed.

Lemma trace_inv_try_except {A} (body : Py S C A) h :
  trace_inv body → (∀ e, trace_inv (h e)) → trace_inv (try_except body h).
Proof.
  intros Hb Hh w o w'. unfold try_except.
  destruct (body w) as [[a|e|] w1] eqn:E; try (intros [= _ <-]; by eapply Hb).
  destruct (is_exception e); [intros H | intros [= _ <-]; by eapply Hb].
  destruct (Hh _ _ _ _ H) as (t2 & -> & H2), (Hb _ _ _ E) as (t1 & -> & H1).
  exists (t1 ++ t2). rewrite app_assoc. split; [done | by apply Forall_app].
Qed.

Lemma trace_inv_if {A} (b : bool) (m1 m2 : Py S C A) :
  trace_inv m1 → trace_inv m2 → trace_inv (if b then m1 else m2).
Proof. by destruct b. Qed.

Lemma trace_inv_with_tempdir {A} mk (body : string → Py S C A) :
  (∀ p, P (EvMkTemp p)) → (∀ p, P (EvRmTemp p)) → (∀ p, trace_inv (body p)) →
  trace_inv (with_tempdir mk body).
Proof.
  intros Hmk Hrm Hb w o w'. unfold with_tempdir. destruct (mk (ext w)) as [p s1].
  destruct (body p _) as [[a|e|] w2] eqn:E; intros [= _ <-];
    destruct (Hb _ _ _ _ E) as (t & Ht2 & Ht); unfold emit in *; simpl in *; rewrite Ht2;
    [exists (EvMkTemp p :: t ++ [EvRmTemp p]) .. | exists (EvMkTemp p :: t)];
    (split; [by rewrite <- !app_assoc | constructor; auto using Forall_app_2]).
Qed.

(** The directory a [with] block creates is removed after everything the
    block did, on every outcome but exhaustion of fuel. *)
Lemma with_tempdir_cleanup {A} mk (body : string → Py S C A) w o w' :
  (∀ p, trace_inv (body p)) → with_tempdir mk body w = (o, w') → o ≠ NoFuel →
  ∃ p t, trace w' = trace w ++ [EvMkTemp p] ++ t ++ [EvRmTemp p] ∧ Forall P t.
Proof.
  intros Hb. unfold with_tempdir. destruct (mk (ext w)) as [p s1].
  destruct (body p _) as [[a|e|] w2] eqn:E; intros [= <- <-] Ho; [..|done];
    destruct (Hb _ _ _ _ E) as (t & Ht2 & Ht); unfold emit in *; simpl in *;
    exists p, t; rewrite Ht2, <- !app_assoc; done.
Qed.

End TraceInv.

Lemma trace_inv_mono {S C A} (P Q : Event C → Prop) (m : Py S C A) :
  (∀ e, P e → Q e) → trace_inv P m → trace_inv Q m.
Proof.
  intros HPQ Hm w o w' E. destruct (Hm _ _ _ E) as (t & -> & Ht).
  exists t. split; [done | by eapply Forall_impl].
Qed.

(** Two invariants of the same computation hold together: the events a
    run adds are the same for both. *)
Lemma trace_inv_and {S C A} (P Q : Event C → Prop) (m : Py S C A) :
  trace_inv P m → trace_inv Q m → trace_inv (λ e, P e ∧ Q e) m.
Proof.
  intros HP HQ w o w' E.
  destruct (HP _ _ _ E) as (t & Ht & Hp), (HQ _ _ _ E) as (t' & Ht' & Hq).
  rewrite Ht in Ht'. apply app_inv_head in Ht' as <-.
  exists t. split; [done|]. by apply Forall_and.
Qed.

(** Decompose a goal [trace_inv P m] along the structure of [m]; the
    goals left are [P] of the events [m] can emit. *)
Ltac trace_inv_split :=
  repeat match goal with
  | |- trace_inv _ (bind _ _) => apply trace_inv_bind; [|intros ?]
  | |- trace_inv _ (try_except _ _) => apply trace_inv_try_except; [|intros ?]
  | |- trace_inv _ (if _ then _ else _) => apply trace_inv_if
  | |- trace_inv _ (with_tempdir _ _) => apply trace_inv_with_tempdir; [intros ?|intros ?|intros ?]
  | |- trace_inv _ (print _) => apply trace_inv_print
  | |- trace_inv _ (input _) => apply trace_inv_input
  | |- trace_inv _ (call _ _) => apply trace_inv_call; intros ?
  | |- trace_inv _ (ret _) => apply trace_inv_ret
  | |- trace_inv _ (raise _) => apply trace_inv_raise
  | |- trace_inv _ no_fuel => apply trace_inv_no_fuel
  | |- trace_inv _ (of_result _) => apply trace_inv_of_result
  | |- trace_inv _ (match ?x with _ => _ end) => destruct x
  | |- _ => progress cbn beta
  end.

(** ** What a computation does to the services' state

    [ext_rely R m]: every run of [m] takes the services' state from [s]
    to an [s'] reachable by [R]-steps ([rtc R]).  It follows from each
    service the computation calls making one [R]-step. *)
Section ExtRely.
Context {S C : Type} (R : S → S → Prop).
Local Notation ext_rely := (@ext_rely S C R _).

Lemma ext_rely_same {A} (m : Py S C A) : (∀ w, ext (snd (m w)) = ext w) → ext_rely m.
Proof. intros Hm w o w' E. specialize (Hm w). rewrite E in Hm. simpl in Hm. rewrite Hm. done. Qed.

Lemma ext_rely_ret {A} (a : A) : ext_rely (ret a).
Proof. by apply ext_rely_same. Qed.

Lemma ext_rely_raise {A} e : ext_rely (@raise S C A e).
Proof. by apply ext_rely_same. Qed.

Lemma ext_rely_no_fuel {A} : ext_rely (@no_fuel S C A).
Proof. by apply ext_rely_same. Qed.

Lemma ext_rely_of_result {A} (r : PyResult A) : ext_rely (of_result r).
Proof. by apply ext_rely_same; destruct r. Qed.

Lemma ext_rely_print s : ext_rely (print s).
Proof. by apply ext_rely_same. Qed.

Lemma ext_rely_input p : ext_rely (input p).
Proof. apply ext_rely_same. intros w. unfold input. simpl. by destruct (stdin w) as [|[]]. Qed.

Lemma ext_rely_call {A} log (f : S → PyResult A * S) :
  (∀ s, R s (snd (f s))) → ext_rely (call log f).
Proof.
  intros Hf w o w'. unfold call. specialize (Hf (ext w)).
  destruct (f (ext w)) as [[a|e] s']; intros [= _ <-]; by apply rtc_once.
Qed.

Lemma ext_rely_bind {A B} (m : Py S C A) (k : A → Py S C B) :
  ext_rely m → (∀ a, ext_rely (k a)) → ext_rely (bind m k).
Proof.
  intros Hm Hk w o w'. unfold bind.
  destruct (m w) as [[a|e|] w1] eqn:E; [intros H | intros [= _ <-]; by eapply Hm ..].
  etrans; [by eapply Hm | by eapply Hk].
Qed.

(** A call whose results satisfy [Q], followed by a continuation that
    makes [R]-steps on the results that satisfy [Q]. *)
Lemma ext_rely_bind_call {A B} log (f : S → PyResult A * S) (Q : A → Prop) (k : A → Py S C B) :
  (∀ s, R s (snd (f s))) → (∀ s a s', f s = (Ok a, s') → Q a) →
  (∀ a, Q a → ext_rely (k a)) → ext_rely (bind (call log f) k).
Proof.
  intros Hf HQ Hk w o w'. unfold bind, call. specialize (Hf (ext w)).
  destruct (f (ext w)) as [[a|e] s'] eqn:Ef; simpl in *; intros H.
  - etrans; [by apply rtc_once | exact (Hk a (HQ _ _ _ Ef) _ _ _ H)].
  - injection H as _ <-. by apply rtc_once.
Qed.

Lemma ext_rely_try_except {A} (body : Py S C A) h :
  ext_rely body → (∀ e, ext_rely (h e)) → ext_rely (try_except body h).
Proof.
  intros Hb Hh w o w'. unfold try_except.
  destruct (body w) as [[a|e|] w1] eqn:E; try (intros [= _ <-]; by eapply Hb).
  destruct (is_exception e); [intros H | intros [= _ <-]; by eapply Hb].
  etrans; [by eapply Hb | by eapply Hh].
Qed.

Lemma ext_rely_if {A} (b : bool) (m1 m2 : Py S C A) :
  ext_rely m1 → ext_rely m2 → ext_rely (if b then m1 else m2).
Proof. by destruct b. Qed.

Lemma ext_rely_with_tempdir {A} mk (body : string → Py S C A) :
  (∀ s, R s (snd (mk s))) → (∀ p, ext_rely (body p)) → ext_rely (with_tempdir mk body).
Proof.
  intros Hmk Hb w o w'. unfold with_tempdir. specialize (Hmk (ext w)).
  destruct (mk (ext w)) as [p s1].
  destruct (body p _) as [[a|e|] w2] eqn:E; intros [= _ <-];
    (eapply rtc_l; [exact Hmk | exact (Hb _ _ _ _ E)]).
Qed.

End ExtRely.

(** Decompose a goal [ext_rely R m] along the structure of [m]; the
    goals left are [R]-steps of the services [m] calls. *)
Ltac ext_rely_split :=
  repeat match goal with
  | |- ext_rely _ (bind _ _) => apply ext_rely_bind; [|intros ?]
  | |- ext_rely _ (try_except _ _) => apply ext_rely_try_except; [|intros ?]
  | |- ext_rely _ (if _ then _ else _) => apply ext_rely_if
  | |- ext_rely _ (with_tempdir _ _) => apply ext_rely_with_tempdir; [intros ?|intros ?]
  | |- ext_rely _ (print _) => apply ext_rely_print
  | |- ext_rely _ (input _) => apply ext_rely_input
  | |- ext_rely _ (call _ _) => apply ext_rely_call; intros ?
  | |- ext_rely _ (ret _) => apply ext_rely_ret
  | |- ext_rely _ (raise _) => apply ext_rely_raise
  | |- ext_rely _ no_fuel => apply ext_rely_no_fuel
  | |- ext_rely _ (of_result _) => apply ext_rely_of_result
  | |- ext_rely _ (match ?x with _ => _ end) => destruct x
  | |- _ => progress cbn beta
  end.

(** Run a computation of the monad symbolically: unfold its
    operations and split on every test. *)
Ltac py_run :=
  unfold try_except, bind, ret, raise, print, input, call, emit in *; simpl in *;
  repeat (case_match; simplify_eq/=).

#[export] Hint Resolve frame_ret frame_raise frame_no_fuel frame_print frame_input
  frame_call frame_of_result frame_if frame_bind frame_try_except frame_with_tempdir : rr.
#[export] Hint Resolve total_ret total_raise total_print total_input total_call
  total_of_result total_if total_bind total_try_except total_with_tempdir : rr.

End Py.
