(* ===== verification/PyString.v ===== *)
(** The Python string operations of [src/main.py]: [str.split] with a
    one-character separator and indexing [[-1]] (line 17, the repository
    name), and [str.lower] with the comparison against ["exit()"] (line
    65, the exit sentinel).  [split] scans the string left to right the
    way CPython's [split] does, accumulating the current piece and
    emitting it at each separator. *)

From S2P Require Import Prelude PyRuntime.
Import Py.

Module Str.

(** ** [str.split(sep)] and [sep.join] *)

Fixpoint split_go (sep : ascii) (s cur : string) : list string :=
  match s with
  | EmptyString => [cur]
  | String c s' =>
      if Ascii.eqb c sep then cur :: split_go sep s' ""
      else split_go sep s' (cur +:+ String c "")
  end.

Definition split (sep : ascii) (s : string) : list string := split_go sep s "".

(** [sep.join(l)], with which the template's lines are assembled. *)
Fixpoint join (sep : ascii) (l : list string) : string :=
  match l with
  | [] => ""
  | [w] => w
  | w :: ws => w +:+ String sep (join sep ws)
  end.

(** [l[-1]]. *)
Definition index_last {A} (l : list A) : PyResult A :=
  match last l with
  | Some x => Ok x
  | None => Err (mkExc IndexError "list index out of range")
  end.

(** Line 17: [repo_name = github_url.split("/")[-1]]. *)
Definition repo_name_of (github_url : string) : PyResult string :=
  index_last (split "/" github_url).

(** ** [str.lower] *)

Definition is_upper (c : ascii) : bool :=
  (65 <=? nat_of_ascii c) && (nat_of_ascii c <=? 90).

Definition lower_ascii (c : ascii) : ascii :=
  if is_upper c then ascii_of_nat (nat_of_ascii c + 32) else c.

Fixpoint lower (s : string) : string :=
  match s with
  | EmptyString => EmptyString
  | String c s' => String (lower_ascii c) (lower s')
  end.

(** Line 65: [user_question.lower() == "exit()"]. *)
Definition is_exit_command (user_question : string) : bool :=
  lower user_question =?ₛ "exit()".

(** Every character, and the characters that [lower] sends to [d]. *)
Definition all_ascii : list ascii := List.map ascii_of_nat (seq 0 256).

Definition lower_preimage (d : ascii) : list ascii :=
  List.filter (λ c, Ascii.eqb (lower_ascii c) d) all_ascii.

(** All strings with the same lower-case form as [s]. *)
Fixpoint case_variants (s : string) : list string :=
  match s with
  | EmptyString => [EmptyString]
  | String c s' =>
      List.flat_map (λ c', List.map (String c') (case_variants s'))
        (lower_preimage (lower_ascii c))
  end.

(** ** Lemmas *)

Lemma split_go_app sep s cur :
  ∃ w ws, split_go sep s cur = w :: ws.
Proof.
  revert cur; induction s as [|c s IH]; intros cur; simpl; [eauto|].
  destruct (Ascii.eqb c sep); eauto.
Qed.

Lemma last_cons_cons {A} (x y : A) l : last (x :: y :: l) = last (y :: l).
Proof. done. Qed.

(** The last piece of a split: it has no separator and the string ends
    with it, right after a separator or at the start. *)
Lemma split_go_last sep s cur :
  sep ∉ₛ cur →
  ∃ p w, last (split_go sep s cur) = Some w ∧ sep ∉ₛ w ∧ cur +:+ s = p +:+ w ∧
         (p = "" ∨ ∃ q, p = q +:+ String sep "").
Proof.
  revert cur; induction s as [|c s IH]; intros cur Hcur; simpl.
  - exists "", cur. rewrite str_app_nil_r. eauto.
  - destruct (Ascii.eqb_spec c sep) as [->|Hc].
    + destruct (IH "" eq_refl) as (p & w & Hl & Hw & Hs & Hp).
      destruct (split_go_app sep s "") as (w0 & ws & Hsp).
      exists (cur +:+ String sep p), w. rewrite Hsp in Hl |- *.
      rewrite last_cons_cons, Hl. split_and!; [done | done | |].
      * rewrite <- str_app_assoc, str_app_String. by rewrite <- Hs.
      * right. destruct Hp as [->|[q ->]].
        -- exists cur. done.
        -- exists (cur +:+ String sep q). by rewrite <- str_app_assoc, str_app_String.
    + destruct (IH (cur +:+ String c "")) as (p & w & Hl & Hw & Hs & Hp).
      * rewrite str_mem_app, Hcur. simpl.
        destruct (Ascii.eqb_spec sep c); [congruence | done].
      * exists p, w. split_and!; auto. by rewrite <- Hs, <- str_app_assoc.
Qed.

Lemma lower_ascii_preimage c d : lower_ascii c = d ↔ c ∈ lower_preimage d.
Proof.
  unfold lower_preimage. rewrite list_elem_of_In, filter_In.
  split.
  - intros <-. split; [|apply Ascii.eqb_refl].
    unfold all_ascii. rewrite <- (ascii_nat_embedding c) at 1.
    apply in_map, in_seq. pose proof (nat_ascii_bounded c). lia.
  - intros [_ H]. by apply Ascii.eqb_eq.
Qed.

Lemma lower_String_inv s d t :
  lower s = String d t ↔ ∃ c s', s = String c s' ∧ lower_ascii c = d ∧ lower s' = t.
Proof.
  split.
  - destruct s as [|c s']; [done|]. intros [= <- <-]. eauto.
  - intros (c & s' & -> & <- & <-). done.
Qed.

Lemma lower_nil_inv s : lower s = "" ↔ s = "".
Proof. by destruct s. Qed.

Lemma repo_name_of_ok github_url : ∃ name, repo_name_of github_url = Ok name.
Proof.
  destruct (split_go_last "/" github_url "" eq_refl) as (p & w & Hl & _).
  exists w. unfold repo_name_of, index_last, split. by rewrite Hl.
Qed.

(** [t.lower() == s.lower()] holds exactly for the case variants of
    [s]. *)
Lemma lower_eq_case_variants s t : lower t = lower s ↔ t ∈ case_variants s.
Proof.
  revert t; induction s as [|c s IH]; intros t; simpl.
  - rewrite lower_nil_inv, list_elem_of_singleton. done.
  - rewrite lower_String_inv, list_elem_of_In, in_flat_map.
    split.
    + intros (c0 & t' & -> & Hc & Ht). exists c0.
      rewrite <- list_elem_of_In, <- lower_ascii_preimage. split; [done|].
      apply in_map, list_elem_of_In, IH, Ht.
    + intros (c0 & Hc & Hin). apply in_map_iff in Hin as (t' & <- & Ht).
      apply list_elem_of_In, lower_ascii_preimage in Hc.
      apply list_elem_of_In, IH in Ht. eauto.
Qed.

(** The variants are the 16 spellings of ["exit()"] with each letter in
    either case. *)
Lemma exit_variants :
  case_variants "exit()" =
  ["EXIT()"; "EXIt()"; "EXiT()"; "EXit()"; "ExIT()"; "ExIt()"; "ExiT()"; "Exit()";
   "eXIT()"; "eXIt()"; "eXiT()"; "eXit()"; "exIT()"; "exIt()"; "exiT()"; "exit()"].
Proof. vm_compute. reflexivity. Qed.

(** ** Theorems *)

(** C33 [github_url.split("/")[-1]] never raises [IndexError], and the
    repository name it computes is the longest suffix of the URL with no
    ["/"]: the URL is [p ++ name] with [p] empty or ending in ["/"]. *)
Theorem repo_name_of_spec github_url :
  ∃ p name, repo_name_of github_url = Ok name ∧ "/"%char ∉ₛ name ∧
            github_url = p +:+ name ∧ (p = "" ∨ ∃ q, p = q +:+ "/").
Proof.
  destruct (split_go_last "/" github_url "" eq_refl) as (p & w & Hl & Hw & Hs & Hp).
  exists p, w. unfold repo_name_of, index_last, split. rewrite Hl. auto.
Qed.


(** C17 The exit test of line 65 compares [user_question.lower()] with
    ["exit()"], so it accepts exactly the 16 spellings of ["exit()"]
    with each letter in either case, not only the literal sentinel. *)
Theorem is_exit_command_iff user_question :
  is_exit_command user_question = true ↔
  user_question ∈ ["EXIT()"; "EXIt()"; "EXiT()"; "EXit()"; "ExIT()"; "ExIt()"; "ExiT()"; "Exit()";
                   "eXIT()"; "eXIt()"; "eXiT()"; "eXit()"; "exIT()"; "exIt()"; "exiT()"; "exit()"].
Proof.
  unfold is_exit_command. rewrite <- exit_variants, <- lower_eq_case_variants.
  destruct (string_eqb_spec (lower user_question) "exit()"); naive_solver.
Qed.


Example repo_name_examples :
  repo_name_of "https://github.com/lhtvineettiwari/RepoReader" = Ok "RepoReader" ∧
  repo_name_of "https://github.com/a/b.git" = Ok "b.git" ∧
  repo_name_of "https://github.com/a/b/" = Ok "".
Proof. vm_compute. auto. Qed.

End Str.
