(* ===== verification/Services.v ===== *)
(** The interface between [src/main.py] and the modules it imports
    ([file_processing], [questions], [utils], the [tempfile] and
    [langchain] libraries).  None of these modules is under [src/]: their
    data are modelled from [spec.md] and their operations are the fields
    of the record [Services], so that the theorems about [main()] hold
    for every implementation.  Each operation acts only on the services'
    own state [S]; it can neither read standard input nor write the
    trace, which [PyRuntime.Py.call] extends with the call and its
    response. *)

From S2P Require Import Prelude PyRuntime.
From Stdlib Require Import QArith.
Import Py.

Module Svc.

(** A loaded file: its text and its path relative to the clone. *)
Record Document := mkDocument { page_content : string; source : string }.

(** [file_type_counts]: a Python dict from extension to number of files,
    as its items in insertion order. *)
Definition FileTypeCounts : Type := list (string * nat).

(** [PromptTemplate(template=..., input_variables=[...])]. *)
Record PromptTemplate := mkPromptTemplate {
  template : string;
  input_variables : list string;
}.

(** [ChatOpenAI(api_key=..., model=..., temperature=...)]. *)
Record ChatOpenAI := mkChatOpenAI {
  api_key : option string;
  model : string;
  temperature : Q;
}.

(** [LLMChain(prompt=..., llm=...)]. *)
Record LLMChain := mkLLMChain { prompt : PromptTemplate; llm : ChatOpenAI }.

(** [questions.QuestionContext], its fields in the constructor's order. *)
Record QuestionContext (I : Type) := mkQuestionContext {
  index : I;
  documents : list Document;
  llm_chain : LLMChain;
  model_name : string;
  repo_name : string;
  github_url : string;
  conversation_history : string;
  file_type_counts : FileTypeCounts;
  filenames : list string;
}.
Arguments mkQuestionContext {I}.
Arguments index {I}.
Arguments documents {I}.
Arguments llm_chain {I}.
Arguments model_name {I}.
Arguments repo_name {I}.
Arguments github_url {I}.
Arguments conversation_history {I}.
Arguments file_type_counts {I}.
Arguments filenames {I}.

(** What [load_and_index_files] returns:
    [(index, documents, file_type_counts, filenames)], [index] being
    [None] when no file qualified. *)
Definition Loaded (I : Type) : Type :=
  option I * list Document * FileTypeCounts * list string.

(** A call to a service, logged with its response. *)
Inductive Call (I : Type) :=
  | CallClone (github_url local_path : string) (r : PyResult bool)
  | CallLoad (local_path : string) (r : PyResult (Loaded I))
  | CallChatOpenAI (llm : ChatOpenAI) (r : PyResult unit)
  | CallAsk (question : string) (ctx : QuestionContext I) (r : PyResult string).
Arguments CallClone {I}.
Arguments CallLoad {I}.
Arguments CallChatOpenAI {I}.
Arguments CallAsk {I}.

Record Services (I S : Type) := mkServices {
  (** [tempfile.TemporaryDirectory()]: the fresh directory's name *)
  mkdtemp : S → string * S;
  (** [file_processing.clone_github_repo(github_url, local_path)] *)
  clone_github_repo : string → string → S → PyResult bool * S;
  (** [file_processing.load_and_index_files(local_path)] *)
  load_and_index_files : string → S → PyResult (Loaded I) * S;
  (** the constructor [ChatOpenAI(...)], which may reject its arguments *)
  chat_openai : ChatOpenAI → S → PyResult unit * S;
  (** [utils.format_user_question(question)] *)
  format_user_question : string → string;
  (** [questions.ask_question(question, context)] *)
  ask_question : string → QuestionContext I → S → PyResult string * S;
}.
Arguments mkServices {I S}.
Arguments mkdtemp {I S}.
Arguments clone_github_repo {I S}.
Arguments load_and_index_files {I S}.
Arguments chat_openai {I S}.
Arguments format_user_question {I S}.
Arguments ask_question {I S}.

End Svc.

(** The constants of [config.py] that [main.py] imports. *)
Module Cfg.
Record Config := mkConfig {
  WHITE : string;
  GREEN : string;
  RESET_COLOR : string;
  model_name : string;
}.
End Cfg.
