(* ===== verification/Template.v ===== *)
(** The prompt of [src/main.py]: the template literal of lines 29-45,
    the [input_variables] of lines 47-57 which [main()] hands to
    [PromptTemplate], and the formatting that [PromptTemplate] applies to
    it, Python's [str.format] with keyword arguments: a parser from the
    template to literal text and replacement fields (with the
    [ValueError]s of malformed braces), and a renderer that substitutes
    the keyword arguments (a [KeyError] for a missing one, extra ones
    ignored, as [str.format] does; some versions of langchain's
    formatter reject extra keywords instead, which does not matter for
    [RepoReader], whose answerer passes exactly the [input_variables]).  Field names are taken as written: conversions ([!r]) and
    format specifications ([:>10]) do not occur in the template and are
    not modelled. *)

From S2P Require Import Prelude PyRuntime PyString.
Import Py.

Module Tmpl.

(** ** [str.format] *)

Inductive Segment := Lit (s : string) | Var (name : string).

Definition value_error (msg : string) : PyExc := mkExc (OtherError "ValueError") msg.
Definition key_error (name : string) : PyExc := mkExc (OtherError "KeyError") name.

(** Prepend a segment to a parse result. *)
Definition cons_seg (x : Segment) (r : PyResult (list Segment)) : PyResult (list Segment) :=
  match r with
  | Ok l => Ok (x :: l)
  | Err e => Err e
  end.

(** The literal text read so far, as a segment when it is not empty. *)
Definition lit_segs (acc : string) : list Segment :=
  match acc with "" => [] | _ => [Lit acc] end.

(** [parse_lit s acc] reads literal text ([acc] so far), [parse_field s
    name] a field name up to its closing brace; [{{] and [}}] are
    escaped braces. *)
Fixpoint parse_lit (s acc : string) : PyResult (list Segment) :=
  match s with
  | EmptyString => Ok (lit_segs acc)
  | String "{" s1 =>
      match s1 with
      | EmptyString => Err (value_error "Single '{' encountered in format string")
      | String "{" s2 => parse_lit s2 (acc +:+ "{")
      | _ => match parse_field s1 "" with
             | Ok l => Ok (lit_segs acc ++ l)
             | Err e => Err e
             end
      end
  | String "}" s1 =>
      match s1 with
      | String "}" s2 => parse_lit s2 (acc +:+ "}")
      | _ => Err (value_error "Single '}' encountered in format string")
      end
  | String c s1 => parse_lit s1 (acc +:+ String c "")
  end
with parse_field (s name : string) : PyResult (list Segment) :=
  match s with
  | EmptyString => Err (value_error "expected '}' before end of string")
  | String "}" s1 => cons_seg (Var name) (parse_lit s1 "")
  | String "{" _ => Err (value_error "unexpected '{' in field name")
  | String c s1 => parse_field s1 (name +:+ String c "")
  end.

Definition parse (template : string) : PyResult (list Segment) := parse_lit template "".

(** The keyword argument [name], the first binding wins. *)
Fixpoint kw_lookup (name : string) (kw : list (string * string)) : option string :=
  match kw with
  | [] => None
  | (k, v) :: kw' => if k =?ₛ name then Some v else kw_lookup name kw'
  end.

Fixpoint render (segs : list Segment) (kw : list (string * string)) : PyResult string :=
  match segs with
  | [] => Ok ""
  | Lit s :: segs' =>
      match render segs' kw with Ok r => Ok (s +:+ r) | Err e => Err e end
  | Var n :: segs' =>
      match kw_lookup n kw with
      | None => Err (key_error n)
      | Some v => match render segs' kw with Ok r => Ok (v +:+ r) | Err e => Err e end
      end
  end.

(** [template.format] with the keyword arguments [kw]. *)
Definition format (template : string) (kw : list (string * string)) : PyResult string :=
  match parse template with
  | Ok segs => render segs kw
  | Err e => Err e
  end.

(** The replacement fields, in order. *)
Fixpoint fields (segs : list Segment) : list string :=
  match segs with
  | [] => []
  | Lit _ :: segs' => fields segs'
  | Var n :: segs' => n :: fields segs'
  end.

(** Printing segments back: braces of literal text are doubled. *)
Fixpoint escape (s : string) : string :=
  match s with
  | EmptyString => EmptyString
  | String "{" s' => String "{" (String "{" (escape s'))
  | String "}" s' => String "}" (String "}" (escape s'))
  | String c s' => String c (escape s')
  end.

Fixpoint unparse (segs : list Segment) : string :=
  match segs with
  | [] => ""
  | Lit s :: segs' => escape s +:+ unparse segs'
  | Var n :: segs' => "{" +:+ n +:+ "}" +:+ unparse segs'
  end.

(** ** The template of [main.py] *)

(** The lines of the triple-quoted literal, which opens with a line
    break and closes after twelve spaces of indentation. *)
Definition template_lines : list string := [
  "";
  "            You are an assistant tasked with answering questions about a codebase.";
  "";
  "            The context:";
  "            - Repo: {repo_name}";
  "            - GitHub URL: {github_url}";
  "            - Numbered Documents: {numbered_documents}";
  "            - File Count: {file_type_counts}";
  "            - File Names: {filenames}";
  "";
  "            Question: {question}";
  "";
  "            Answer clearly:";
  "            1. Analyze the codebase to understand relevant details.";
  "            2. Provide direct answers based on the code context.";
  "            3. If unsure, admit that and refrain from guessing.";
  "            "].

Definition template : string := Str.join "010"%char template_lines.

Definition input_variables : list string :=
  ["repo_name"; "github_url"; "numbered_documents"; "question"; "file_type_counts";
   "filenames"].

(** Well-formed segments: no two literals in a row, no empty literal,
    no brace in a field name; [after_lit] says a literal came just before. *)
Fixpoint segs_wf (after_lit : bool) (segs : list Segment) : Prop :=
  match segs with
  | [] => True
  | Lit s :: segs' => after_lit = false ∧ s ≠ "" ∧ segs_wf true segs'
  | Var n :: segs' => "{"%char ∉ₛ n ∧ "}"%char ∉ₛ n ∧ segs_wf false segs'
  end.

(** ** Lemmas on [str.format] *)

(** A character that is not a brace is copied as literal text, kept in a
    field name, and printed as itself; the proofs enumerate the 256
    characters. *)
Lemma parse_lit_other c s acc :
  c ≠ "{"%char → c ≠ "}"%char → parse_lit (String c s) acc = parse_lit s (acc +:+ String c "").
Proof. destruct c as [[][][][][][][][]]; intros H1 H2; done. Qed.

Lemma parse_field_other c s name :
  c ≠ "{"%char → c ≠ "}"%char →
  parse_field (String c s) name = parse_field s (name +:+ String c "").
Proof. destruct c as [[][][][][][][][]]; intros H1 H2; done. Qed.

Lemma escape_other c s : c ≠ "{"%char → c ≠ "}"%char → escape (String c s) = String c (escape s).
Proof. destruct c as [[][][][][][][][]]; intros H1 H2; done. Qed.

(** An opening brace not followed by another one starts a field. *)
Lemma parse_lit_open c s acc :
  c ≠ "{"%char →
  parse_lit (String "{" (String c s)) acc =
  match parse_field (String c s) "" with Ok l => Ok (lit_segs acc ++ l) | Err e => Err e end.
Proof. destruct c as [[][][][][][][][]]; intros H; done. Qed.

Lemma str_mem_cons_false c d s : c ∉ₛ String d s → c ≠ d ∧ c ∉ₛ s.
Proof.
  simpl. intros [Hd Hs]%orb_false_elim. split; [|done].
  intros ->. by rewrite Ascii.eqb_refl in Hd.
Qed.

Lemma parse_lit_escape l rest acc :
  parse_lit (escape l +:+ rest) acc = parse_lit rest (acc +:+ l).
Proof.
  revert acc; induction l as [|c l IH]; intros acc; [by rewrite str_app_nil_r|].
  destruct (decide (c = "{"%char)) as [->|H1]; [|destruct (decide (c = "}"%char)) as [->|H2]].
  - simpl. rewrite IH. by rewrite <- str_app_assoc.
  - simpl. rewrite IH. by rewrite <- str_app_assoc.
  - rewrite escape_other by done. rewrite str_app_String, parse_lit_other by done.
    by rewrite IH, <- str_app_assoc.
Qed.

Lemma parse_field_name n rest name :
  "{"%char ∉ₛ n → "}"%char ∉ₛ n →
  parse_field (n +:+ String "}" rest) name = cons_seg (Var (name +:+ n)) (parse_lit rest "").
Proof.
  revert name; induction n as [|c n IH]; intros name H1 H2.
  - by rewrite str_app_nil_r.
  - apply str_mem_cons_false in H1 as [H1 H1'], H2 as [H2 H2'].
    rewrite str_app_String, parse_field_other by auto.
    rewrite IH by done. by rewrite <- str_app_assoc.
Qed.


Lemma lit_segs_ne s : s ≠ "" → lit_segs s = [Lit s].
Proof. by destruct s. Qed.

Lemma parse_lit_unparse b segs acc :
  segs_wf b segs → (b = false → acc = "") →
  parse_lit (unparse segs) acc = Ok (lit_segs acc ++ segs).
Proof.
  revert b acc; induction segs as [|[s|n] segs IH]; intros b acc Hwf Hacc; simpl in Hwf.
  - simpl. by rewrite app_nil_r.
  - destruct Hwf as (-> & Hs & Hwf). rewrite (Hacc eq_refl). simpl.
    rewrite parse_lit_escape, str_app_nil_l, (IH true s Hwf) by done.
    by rewrite lit_segs_ne.
  - destruct Hwf as (H1 & H2 & Hwf). simpl unparse.
    assert (parse_field (n +:+ String "}" (unparse segs)) "" = Ok (Var n :: segs)) as Hf.
    { rewrite parse_field_name by done. by rewrite (IH false "" Hwf). }
    destruct n as [|c n].
    + rewrite str_app_nil_l in Hf |- *. simpl in Hf |- *. rewrite str_app_nil_l. by rewrite Hf.
    + apply str_mem_cons_false in H1 as [Hc _].
      rewrite !str_app_String, !str_app_nil_l in *.
      rewrite parse_lit_open by auto. by rewrite Hf.
Qed.

(** With every field bound, rendering succeeds and the result contains
    each field's value. *)
Lemma render_total segs kw :
  (∀ n, n ∈ fields segs → is_Some (kw_lookup n kw)) →
  ∃ p, render segs kw = Ok p ∧
       ∀ n v, n ∈ fields segs → kw_lookup n kw = Some v → str_infix v p.
Proof.
  induction segs as [|[s|n] segs IH]; intros H; simpl.
  - exists "". split; [done|]. intros n v Hn. set_solver.
  - destruct IH as (p & -> & Hp); [done|]. exists (s +:+ p). split; [done|].
    intros n v Hn Hv. apply str_infix_app_l. eauto.
  - destruct (H n) as [v Hv]; [set_solver|]. rewrite Hv.
    destruct IH as (p & -> & Hp); [intros m Hm; apply H; set_solver|].
    exists (v +:+ p). split; [done|]. intros m u Hm Hu.
    apply elem_of_cons in Hm as [->|Hm].
    + rewrite Hv in Hu. injection Hu as <-. apply str_infix_prefix.
    + apply str_infix_app_l. eauto.
Qed.

(** The segments of the template of [main.py]. *)
Lemma parse_template :
  parse template =
  Ok [Lit (Str.join "010"%char (take 4 template_lines) +:+ nl +:+ "            - Repo: ");
      Var "repo_name"; Lit (nl +:+ "            - GitHub URL: ");
      Var "github_url"; Lit (nl +:+ "            - Numbered Documents: ");
      Var "numbered_documents"; Lit (nl +:+ "            - File Count: ");
      Var "file_type_counts"; Lit (nl +:+ "            - File Names: ");
      Var "filenames"; Lit (nl +:+ nl +:+ "            Question: ");
      Var "question";
      Lit (nl +:+ Str.join "010"%char (drop 11 template_lines))].
Proof. vm_compute. reflexivity. Qed.

Lemma template_fields_eq segs :
  parse template = Ok segs →
  fields segs = ["repo_name"; "github_url"; "numbered_documents"; "file_type_counts";
                 "filenames"; "question"].
Proof. rewrite parse_template. by intros [= <-]. Qed.

(** Rendering the template with every input variable bound. *)
Lemma format_template_ok kw :
  (∀ n, n ∈ input_variables → is_Some (kw_lookup n kw)) →
  ∃ p, format template kw = Ok p ∧
       ∀ n v, n ∈ input_variables → kw_lookup n kw = Some v → str_infix v p.
Proof.
  intros Hkw. unfold format. destruct (parse template) as [segs|e] eqn:E;
    [|by rewrite parse_template in E].
  pose proof (template_fields_eq _ E) as Hf.
  destruct (render_total segs kw) as (p & Hp & Hin).
  - intros n Hn. apply Hkw. rewrite Hf in Hn. unfold input_variables. set_solver.
  - exists p. split; [done|]. intros n v Hn Hv. apply (Hin n); [|done].
    rewrite Hf. unfold input_variables in Hn. set_solver.
Qed.
(** ** Theorems *)

(** C31 The template of lines 29-45 parses, and its replacement fields are
    exactly the [input_variables] of lines 49-56, each once: the check
    [PromptTemplate] makes between the two passes, and
    [conversation_history] is not a field. *)
Theorem template_fields_input_variables :
  ∃ segs, parse template = Ok segs ∧ fields segs ≡ₚ input_variables ∧ NoDup (fields segs) ∧
          "conversation_history" ∉ fields segs.
Proof.
  eexists. split; [apply parse_template|]. simpl. split_and!.
  - unfold input_variables. solve_Permutation.
  - repeat constructor; set_solver.
  - set_solver.
Qed.

(** Printing well-formed segments and parsing the text back gives the
    same segments: escaped braces stay literal and each field is read
    back with its name. *)
Theorem parse_unparse segs : segs_wf false segs → parse (unparse segs) = Ok segs.
Proof. intros Hwf. unfold parse. by rewrite (parse_lit_unparse false). Qed.

(** C32 Formatting the template with a value for every input variable
    succeeds, and the prompt contains each of these values (the question,
    the numbered documents, the repository name, ...). *)
Theorem format_template_total kw :
  (∀ n, n ∈ input_variables → is_Some (kw_lookup n kw)) →
  ∃ p, format template kw = Ok p ∧
       ∀ n v, n ∈ input_variables → kw_lookup n kw = Some v → str_infix v p.
Proof. apply format_template_ok. Qed.


Lemma parse_unparse_witness :
  segs_wf false [Lit "a{b"; Var "x"; Lit "}"] ∧
  parse (unparse [Lit "a{b"; Var "x"; Lit "}"]) = Ok [Lit "a{b"; Var "x"; Lit "}"].
Proof.
  assert (segs_wf false [Lit "a{b"; Var "x"; Lit "}"]) as H by (simpl; repeat split; done).
  split; [exact H | apply parse_unparse, H].
Defined.

Lemma format_template_total_witness :
  let kw := [("repo_name", "RepoReader"); ("github_url", "https://github.com/a/RepoReader");
             ("numbered_documents", "1. readme.md: Hello world"); ("question", "What is it?");
             ("file_type_counts", "{'md': 1}"); ("filenames", "['readme.md']")] in
  (∀ n, n ∈ input_variables → is_Some (kw_lookup n kw)) ∧
  ∃ p, format template kw = Ok p ∧
       ∀ n v, n ∈ input_variables → kw_lookup n kw = Some v → str_infix v p.
Proof.
  intros kw.
  assert (∀ n, n ∈ input_variables → is_Some (kw_lookup n kw)) as H.
  { intros n Hn. unfold input_variables in Hn.
    repeat (apply elem_of_cons in Hn as [->|Hn]; [by eexists|]). set_solver. }
  split; [exact H | apply format_template_total, H].
Defined.

End Tmpl.
