(* ===== verification/Session.v ===== *)
(** [main()] of [src/main.py] (lines 15-77): the URL prompt, the
    repository name, the clone inside [with TemporaryDirectory()], the
    index check, the model and prompt set-up, and the [while True] loop
    with its [try]/[except Exception].  The module is a Section over the
    services (any implementation of [Services.Svc.Services]), the
    constants of [config.py] and the API key read from the environment
    (line 12). *)

From S2P Require Import Prelude PyRuntime PyString Services Template.
From Stdlib Require Import QArith.
Local Close Scope Q_scope.
Import Py Py.Notations Svc.

Module Session.

(** What one iteration of the loop leaves: go on or [break], with the
    value of [conversation_history]. *)
Inductive Ctl := Continue (h : string) | Break (h : string).

Section Main.
Context {I St : Type} (svc : Services I St) (cfg : Cfg.Config) (OPENAI_API_KEY : option string).

Local Abbreviation PyM := (Py St (Call I)).

Definition url_prompt : string := "Enter the GitHub URL of the repository: ".

Definition ask_prompt : string :=
  nl +:+ Cfg.WHITE cfg +:+ "Ask a question about the repository (type 'exit()' to quit): "
     +:+ Cfg.RESET_COLOR cfg.

(** Line 70: [GREEN + '\nANSWER\n' + answer + RESET_COLOR + '\n']. *)
Definition answer_banner (answer : string) : string :=
  Cfg.GREEN cfg +:+ nl +:+ "ANSWER" +:+ nl +:+ answer +:+ Cfg.RESET_COLOR cfg +:+ nl.

(** Line 71: [f"Question: {user_question}\nAnswer: {answer}\n"]. *)
Definition history_entry (user_question answer : string) : string :=
  "Question: " +:+ user_question +:+ nl +:+ "Answer: " +:+ answer +:+ nl.

(** The [try:] block of one iteration, lines 64-71. *)
Definition loop_try (question_context : QuestionContext I) (conversation_history : string)
    : PyM Ctl :=
  let* user_question := input ask_prompt in
  if Str.is_exit_command user_question then ret (Break conversation_history) else
  print "Thinking..." ;;
  let user_question := format_user_question svc user_question in
  let* answer := call (CallAsk user_question question_context)
                      (ask_question svc user_question question_context) in
  print (answer_banner answer) ;;
  ret (Continue (conversation_history +:+ history_entry user_question answer)).

(** Its [except Exception as e:] block, lines 72-74. *)
Definition loop_except (conversation_history : string) (e : PyExc) : PyM Ctl :=
  print ("An error occurred: " +:+ exc_str e) ;;
  ret (Break conversation_history).

(** One iteration of the loop, lines 63-74. *)
Definition loop_body (question_context : QuestionContext I) (conversation_history : string)
    : PyM Ctl :=
  try_except (loop_try question_context conversation_history) (loop_except conversation_history).

(** [while True:], line 62, with one unit of fuel per iteration; the
    result is the final value of [conversation_history]. *)
Fixpoint chat_loop (fuel : nat) (question_context : QuestionContext I)
    (conversation_history : string) : PyM string :=
  match fuel with
  | O => no_fuel
  | S fuel' =>
      let* c := loop_body question_context conversation_history in
      match c with
      | Break h => ret h
      | Continue h => chat_loop fuel' question_context h
      end
  end.

(** Line 27. *)
Definition llm_params : ChatOpenAI := mkChatOpenAI OPENAI_API_KEY "gpt-3.5-turbo" 0.2%Q.

(** The body of [with tempfile.TemporaryDirectory() as local_path:],
    lines 20-77. *)
Definition main_body (fuel : nat) (github_url repo_name local_path : string) : PyM unit :=
  let* cloned := call (CallClone github_url local_path)
                      (clone_github_repo svc github_url local_path) in
  if cloned then
    let* loaded := call (CallLoad local_path) (load_and_index_files svc local_path) in
    let '(index, documents, file_type_counts, filenames) := loaded in
    match index with
    | None => print "No documents were found to index. Exiting." ;; raise system_exit
    | Some index =>
        print "Repository cloned. Indexing files..." ;;
        let llm := llm_params in
        let* _ := call (CallChatOpenAI llm) (chat_openai svc llm) in
        let prompt := mkPromptTemplate Tmpl.template Tmpl.input_variables in
        let llm_chain := mkLLMChain prompt llm in
        let conversation_history := "" in
        let question_context :=
          mkQuestionContext index documents llm_chain (Cfg.model_name cfg) repo_name
            github_url conversation_history file_type_counts filenames in
        let* _ := chat_loop fuel question_context conversation_history in
        ret tt
    end
  else print "Failed to clone the repository.".

(** [main()], lines 15-19. *)
Definition main (fuel : nat) : PyM unit :=
  let* github_url := input url_prompt in
  let* repo_name := of_result (Str.repo_name_of github_url) in
  print "Cloning the repository..." ;;
  with_tempdir (mkdtemp svc) (main_body fuel github_url repo_name).

(** ** Predicates on runs *)

(** The pairs [(question, answer)] of the successful calls to
    [ask_question] in a trace, in order. *)
Fixpoint answered (t : list (Event (Call I))) : list (string * string) :=
  match t with
  | [] => []
  | EvCall (CallAsk q _ (Ok a)) :: t' => (q, a) :: answered t'
  | _ :: t' => answered t'
  end.

(** The text line 71 appends for each pair. *)
Definition history_of (pairs : list (string * string)) : string :=
  foldr (λ qa acc, history_entry qa.1 qa.2 +:+ acc) "" pairs.

(** A call to [ask_question] in the trace receives the context [ctx]. *)
Definition asks_with (ctx : QuestionContext I) (e : Event (Call I)) : Prop :=
  ∀ q c r, e = EvCall (CallAsk q c r) → c = ctx.

(** The context [main()] passes to [ask_question] (line 61): an empty
    history and the chain of lines 47-59. *)
Definition main_ctx (ctx : QuestionContext I) : Prop :=
  conversation_history ctx = "" ∧
  llm_chain ctx = mkLLMChain (mkPromptTemplate Tmpl.template Tmpl.input_variables) llm_params.

(** What the loader returned, as the context [main()] builds from it
    (lines 21 and 61) holds it. *)
Definition ctx_loaded (ctx : QuestionContext I) : Loaded I :=
  (Some (index ctx), documents ctx, file_type_counts ctx, filenames ctx).

Definition no_tempdir (e : Event (Call I)) : Prop :=
  match e with EvMkTemp _ | EvRmTemp _ => False | _ => True end.

(** An event that does not call the loader, and one that calls neither
    the loader nor the answerer. *)
Definition no_load (e : Event (Call I)) : Prop :=
  match e with EvCall (CallLoad _ _) => False | _ => True end.

Definition neutral (e : Event (Call I)) : Prop :=
  match e with EvCall (CallLoad _ _) | EvCall (CallAsk _ _ _) => False | _ => True end.

(** Spec.md section 3: the index and the documents are built at most
    once, before any question is answered, and never changed.  The
    events of a run call neither the loader nor the answerer, or they
    are such events, one call to the loader, then events that do not
    call it again, among which every call to the answerer receives one
    and the same context, holding the loader's result. *)
Definition built_once (t : list (Event (Call I))) : Prop :=
  Forall neutral t ∨
  ∃ t1 p r t2, t = t1 ++ EvCall (CallLoad p r) :: t2 ∧ Forall neutral t1 ∧
    (Forall neutral t2 ∨
     ∃ c, r = Ok (ctx_loaded c) ∧ Forall (λ e, no_load e ∧ asks_with c e) t2).

(** ** Lemmas *)

(** Unfold the monad's operations and split on every test. *)
Ltac run_py := unfold loop_body, loop_try, loop_except in *; py_run.

Lemma loop_body_frame ctx h : frame (loop_body ctx h).
Proof. unfold loop_body, loop_try, loop_except. eauto 20 with rr. Qed.

Lemma loop_body_total ctx h : total (loop_body ctx h).
Proof. unfold loop_body, loop_try, loop_except. eauto 20 with rr. Qed.

Lemma chat_loop_frame fuel ctx h : frame (chat_loop fuel ctx h).
Proof.
  revert h; induction fuel as [|fuel IH]; intros h; simpl; [auto with rr|].
  apply frame_bind; [apply loop_body_frame|]. intros []; auto with rr.
Qed.

(** An iteration that goes on has consumed a line of input. *)
Lemma loop_body_continue_stdin ctx h w h' w' :
  loop_body ctx h w = (Ret (Continue h'), w') → length (stdin w') < length (stdin w).
Proof.
  unfold loop_body, try_except.
  destruct (loop_try ctx h w) as [[c|e|] w1] eqn:E.
  - intros [= -> ->]. eapply input_bind_stdin; [|exact E].
    intros a. cbn beta. eauto 20 with rr.
  - destruct (is_exception e); [|done]. intros H. run_py.
  - done.
Qed.


Lemma answered_app t1 t2 : answered (t1 ++ t2) = answered t1 ++ answered t2.
Proof.
  induction t1 as [|e t1 IH]; [done|].
  destruct e as [| | | |[| | |q c [a|]]]; simpl; by rewrite IH.
Qed.

Lemma history_of_app l1 l2 : history_of (l1 ++ l2) = history_of l1 +:+ history_of l2.
Proof.
  induction l1 as [|qa l1 IH]; [done|]. simpl. by rewrite IH, str_app_assoc.
Qed.

(** What one iteration that returns adds to the history. *)
Lemma loop_body_history ctx h w c w' :
  loop_body ctx h w = (Ret c, w') →
  ∃ t, trace w' = trace w ++ t ∧
       match c with
       | Continue h' => h' = h +:+ history_of (answered t)
       | Break h' => h' = h ∧ answered t = []
       end.
Proof.
  intros E. run_py; eexists; (split; [by rewrite <- ?app_assoc|]); simpl;
    rewrite ?str_app_nil_r; done.
Qed.

Lemma loop_body_asks ctx h : trace_inv (asks_with ctx) (loop_body ctx h).
Proof.
  unfold loop_body, loop_try, loop_except. trace_inv_split;
    unfold asks_with; intros ??? [=]; done.
Qed.

Lemma chat_loop_asks fuel ctx h : trace_inv (asks_with ctx) (chat_loop fuel ctx h).
Proof.
  revert h; induction fuel as [|fuel IH]; intros h; simpl; trace_inv_split; auto.
  apply loop_body_asks.
Qed.

(** [main()] up to the [with] block, when the URL line is read. *)
Lemma main_unfold fuel w url rest name :
  stdin w = Line url :: rest → Str.repo_name_of url = Ok name →
  main fuel w = with_tempdir (mkdtemp svc) (main_body fuel url name)
    (mkWorld rest (trace w ++ [EvWrite url_prompt; EvPrint "Cloning the repository..."]) (ext w)).
Proof.
  intros Hs Hn. unfold main, try_except, bind, input, of_result, print, emit. simpl.
  rewrite Hs, Hn. simpl. by rewrite <- app_assoc.
Qed.

(** Run [main] from the URL line through its set-up, rewriting with the
    services' responses given as hypotheses. *)
Ltac main_steps :=
  match goal with Hs : stdin _ = Line ?url :: _ |- _ =>
    let name := fresh "name" in let Hn := fresh "Hn" in
    destruct (Str.repo_name_of_ok url) as [name Hn];
    rewrite (main_unfold _ _ _ _ _ Hs Hn) end;
  unfold with_tempdir, main_body, bind, call, print, raise, emit; simpl;
  repeat match goal with H : ?f = (_, _) |- context [?f] => rewrite H; simpl end;
  by rewrite <- ?app_assoc.

(** With more units of fuel than lines of standard input, [chat_loop]
    never runs out of fuel. *)
Lemma chat_loop_total fuel ctx h w :
  length (stdin w) < fuel → fst (chat_loop fuel ctx h w) ≠ NoFuel.
Proof.
  revert h w; induction fuel as [|fuel IH]; intros h w Hf; [lia|]. simpl. unfold bind at 1.
  pose proof (loop_body_total ctx h w) as Ht.
  destruct (loop_body ctx h w) as [[[h'|h']|e|] w1] eqn:E; simpl in *; try done.
  apply IH. pose proof (loop_body_continue_stdin _ _ _ _ _ E). lia.
Qed.

(** What [main] does to the services' state: if every service call, and
    [ask_question] on a context of [main_ctx], makes an [R]-step, every
    run of [main] makes [R]-steps. *)
Section Rely.
Context (R : St → St → Prop).
Hypothesis Hmk : ∀ s, R s (snd (mkdtemp svc s)).
Hypothesis Hclone : ∀ u p s, R s (snd (clone_github_repo svc u p s)).
Hypothesis Hload : ∀ p s, R s (snd (load_and_index_files svc p s)).
Hypothesis Hllm : ∀ s, R s (snd (chat_openai svc llm_params s)).
Hypothesis Hask : ∀ q ctx s, main_ctx ctx → R s (snd (ask_question svc q ctx s)).

Lemma chat_loop_rely ctx fuel h :
  (∀ q s, R s (snd (ask_question svc q ctx s))) → ext_rely R (chat_loop fuel ctx h).
Proof.
  intros Hctx. revert h; induction fuel as [|fuel IH]; intros h; simpl; ext_rely_split; auto.
  unfold loop_body, loop_try, loop_except. ext_rely_split. auto.
Qed.

(** The same, when [ask_question] makes an [R]-step only on the
    contexts built from what the loader returns, [LP] being what the
    loader promises of its results. *)
Lemma main_rely_loaded (LP : Loaded I → Prop) fuel :
  (∀ p s l s', load_and_index_files svc p s = (Ok l, s') → LP l) →
  (∀ q ctx s, main_ctx ctx → LP (ctx_loaded ctx) → R s (snd (ask_question svc q ctx s))) →
  ext_rely R (main fuel).
Proof.
  intros HLP Hask'. unfold main. ext_rely_split; auto. unfold main_body.
  apply ext_rely_bind; [ext_rely_split; auto|]. intros cloned.
  apply ext_rely_if; [|ext_rely_split].
  apply (ext_rely_bind_call _ _ _ LP); [auto | intros ???; apply HLP |].
  intros [[[ix docs] counts] names] Hl. ext_rely_split; auto.
  apply chat_loop_rely. intros q s. apply Hask'; [by split | exact Hl].
Qed.

Lemma main_rely fuel : ext_rely R (main fuel).
Proof.
  apply (main_rely_loaded (λ _, True)); [done|]. intros q ctx s Hctx _. by apply Hask.
Qed.

End Rely.

Lemma chat_loop_no_tempdir fuel ctx h : trace_inv no_tempdir (chat_loop fuel ctx h).
Proof.
  revert h; induction fuel as [|fuel IH]; intros h; simpl; trace_inv_split; auto.
  unfold loop_body, loop_try, loop_except. by trace_inv_split.
Qed.

Lemma chat_loop_no_load fuel ctx h : trace_inv no_load (chat_loop fuel ctx h).
Proof.
  revert h; induction fuel as [|fuel IH]; intros h; simpl; trace_inv_split; auto.
  unfold loop_body, loop_try, loop_except. by trace_inv_split.
Qed.

Lemma neutral_in_phase c e : neutral e → no_load e ∧ asks_with c e.
Proof. destruct e as [| | | |[]]; done. Qed.

(** Neutral events before and after keep the shape. *)
Lemma built_once_frame pre t post :
  Forall neutral pre → Forall neutral post → built_once t → built_once (pre ++ t ++ post).
Proof.
  intros Hpre Hpost [Ht | (t1 & p & r & t2 & -> & H1 & H2)].
  - left. by rewrite !Forall_app.
  - right. exists (pre ++ t1), p, r, (t2 ++ post).
    split; [by rewrite <- !app_assoc|]. split; [by apply Forall_app|].
    destruct H2 as [H2 | (c & Hr & H2)]; [left; by apply Forall_app|].
    right. exists c. split; [done|]. apply Forall_app. split; [done|].
    eapply Forall_impl; [exact Hpost | intros e; apply neutral_in_phase].
Qed.

(** The body of the [with] block calls the loader once, before the
    loop, and the loop asks with the context built from its result. *)
Lemma main_body_built fuel url name p w o w' :
  main_body fuel url name p w = (o, w') → ∃ t, trace w' = trace w ++ t ∧ built_once t.
Proof.
  intros E. unfold main_body, bind, call, print, raise, ret, emit in E. simpl in E.
  repeat (case_match; simplify_eq/=);
    try (eexists; split; [by rewrite <- ?app_assoc|];
         first [left; by repeat constructor
               | right; eexists [_], _, _, _; split; [reflexivity|];
                 split; [by repeat constructor|]; left; by repeat constructor]).
  all: match goal with H : chat_loop _ _ _ _ = _ |- _ =>
         destruct (trace_inv_and _ _ _ (chat_loop_no_load _ _ _) (chat_loop_asks _ _ _) _ _ _ H)
           as (t & Ht & Hall) end.
  all: eexists; split; [rewrite Ht; simpl; by rewrite <- !app_assoc|].
  all: right; eexists [_], _, _, _; split; [reflexivity|]; split; [by repeat constructor|].
  all: right; match goal with H : chat_loop _ ?ctx _ _ = _ |- _ => exists ctx end.
  all: split; [reflexivity|].
  all: repeat (apply Forall_cons; split; [by apply neutral_in_phase|]); exact Hall.
Qed.

Lemma main_body_no_tempdir fuel url name p : trace_inv no_tempdir (main_body fuel url name p).
Proof. unfold main_body. trace_inv_split; try exact Logic.I; auto using chat_loop_no_tempdir. Qed.

(** Every call to [ask_question] receives a context as [main()]
    builds it from a result of the loader, [LP] being what the loader
    promises of its results. *)
Lemma main_asks_loaded (LP : Loaded I → Prop) fuel :
  (∀ p s l s', load_and_index_files svc p s = (Ok l, s') → LP l) →
  trace_inv (λ e, ∀ q c r, e = EvCall (CallAsk q c r) → main_ctx c ∧ LP (ctx_loaded c))
    (main fuel).
Proof.
  intros HLP. unfold main. trace_inv_split; try (intros ??? [=]; done). unfold main_body.
  apply trace_inv_bind; [trace_inv_split; intros ??? [=]|]. intros cloned.
  apply trace_inv_if; [|trace_inv_split; intros ??? [=]].
  apply (trace_inv_bind_call _ _ _ LP); [intros ???? [=] | intros ???; apply HLP |].
  intros [[[ix docs] counts] names] Hl. trace_inv_split; try (intros ??? [=]; done).
  eapply trace_inv_mono; [|apply chat_loop_asks]. intros e He q c r ->.
  rewrite (He q c r eq_refl). split; [by split | exact Hl].
Qed.

(** [main()] when the clone fails. *)
Lemma main_clone_failure_run fuel w url rest p s1 s2 :
  stdin w = Line url :: rest → mkdtemp svc (ext w) = (p, s1) →
  clone_github_repo svc url p s1 = (Ok false, s2) →
  main fuel w =
    (Ret tt, mkWorld rest (trace w ++ [EvWrite url_prompt; EvPrint "Cloning the repository...";
                                       EvMkTemp p; EvCall (CallClone url p (Ok false));
                                       EvPrint "Failed to clone the repository."; EvRmTemp p]) s2).
Proof. intros Hs Hmk Hcl. main_steps. Qed.

(** One iteration on an exit line. *)
Lemma loop_body_exit_run ctx h w s rest :
  stdin w = Line s :: rest → Str.is_exit_command s = true →
  loop_body ctx h w = (Ret (Break h), mkWorld rest (trace w ++ [EvWrite ask_prompt]) (ext w)).
Proof.
  intros Hs Hx. unfold loop_body, loop_try, try_except, bind, input, ret, emit. simpl.
  by rewrite Hs, Hx.
Qed.

(** One iteration on another line, when the answerer answers. *)
Lemma loop_body_answer_run ctx h w s rest a st' :
  stdin w = Line s :: rest → Str.is_exit_command s = false →
  ask_question svc (format_user_question svc s) ctx (ext w) = (Ok a, st') →
  loop_body ctx h w =
    (Ret (Continue (h +:+ history_entry (format_user_question svc s) a)),
     mkWorld rest (trace w ++ [EvWrite ask_prompt; EvPrint "Thinking...";
                               EvCall (CallAsk (format_user_question svc s) ctx (Ok a));
                               EvPrint (answer_banner a)]) st').
Proof.
  intros Hs Hx Ha. unfold loop_body, loop_try, try_except, bind, input, ret, print, call, emit.
  simpl. rewrite Hs, Hx. simpl. rewrite Ha. simpl. by rewrite <- !app_assoc.
Qed.

(** [main()] when the index is built: the loop runs on the context of
    line 61, and the directory is removed after it. *)
Lemma main_loop_run fuel w url rest name p s1 s2 s3 s4 ix docs counts names o w5 :
  stdin w = Line url :: rest → Str.repo_name_of url = Ok name →
  mkdtemp svc (ext w) = (p, s1) →
  clone_github_repo svc url p s1 = (Ok true, s2) →
  load_and_index_files svc p s2 = (Ok (Some ix, docs, counts, names), s3) →
  chat_openai svc llm_params s3 = (Ok tt, s4) →
  chat_loop fuel
    (mkQuestionContext ix docs (mkLLMChain (mkPromptTemplate Tmpl.template Tmpl.input_variables)
       llm_params) (Cfg.model_name cfg) name url "" counts names) ""
    (mkWorld rest (trace w ++ [EvWrite url_prompt; EvPrint "Cloning the repository...";
                               EvMkTemp p; EvCall (CallClone url p (Ok true));
                               EvCall (CallLoad p (Ok (Some ix, docs, counts, names)));
                               EvPrint "Repository cloned. Indexing files...";
                               EvCall (CallChatOpenAI llm_params (Ok tt))]) s4) = (o, w5) →
  main fuel w = match o with
                | Ret _ => (Ret tt, emit (EvRmTemp p) w5)
                | Raise e => (Raise e, emit (EvRmTemp p) w5)
                | NoFuel => (NoFuel, w5)
                end.
Proof.
  intros Hs Hn Hmk Hcl Hld Hllm Hloop. rewrite (main_unfold _ _ _ _ _ Hs Hn).
  unfold with_tempdir, main_body, bind, call, print, emit. simpl.
  rewrite Hmk. simpl. rewrite Hcl. simpl. rewrite Hld. simpl. rewrite Hllm. simpl.
  rewrite <- !app_assoc. simpl. rewrite Hloop. by destruct o.
Qed.

(** [main()] when the index is [None]. *)
Lemma main_no_index_run fuel w url rest p s1 s2 s3 docs counts names :
  stdin w = Line url :: rest → mkdtemp svc (ext w) = (p, s1) →
  clone_github_repo svc url p s1 = (Ok true, s2) →
  load_and_index_files svc p s2 = (Ok (None, docs, counts, names), s3) →
  main fuel w =
    (Raise system_exit,
     mkWorld rest (trace w ++ [EvWrite url_prompt; EvPrint "Cloning the repository...";
                               EvMkTemp p; EvCall (CallClone url p (Ok true));
                               EvCall (CallLoad p (Ok (None, docs, counts, names)));
                               EvPrint "No documents were found to index. Exiting.";
                               EvRmTemp p]) s3).
Proof.
  intros Hs Hmk Hcl Hld. main_steps.
Qed.

(** ** Theorems *)

(** C16 An exit line (any case variant of ["exit()"]) ends the loop at
    once: the history is kept, nothing is printed and no service is
    called. *)
Theorem loop_body_exit ctx h w s rest :
  stdin w = Line s :: rest → Str.is_exit_command s = true →
  loop_body ctx h w = (Ret (Break h), mkWorld rest (trace w ++ [EvWrite ask_prompt]) (ext w)).
Proof. apply loop_body_exit_run. Qed.

(** C2 Any other line is normalised by [format_user_question], passed to
    [ask_question] with the session's context, and its answer is printed
    and appended to the history as ["Question: q\nAnswer: a\n"]. *)
Theorem loop_body_answer ctx h w s rest a st' :
  stdin w = Line s :: rest → Str.is_exit_command s = false →
  ask_question svc (format_user_question svc s) ctx (ext w) = (Ok a, st') →
  loop_body ctx h w =
    (Ret (Continue (h +:+ history_entry (format_user_question svc s) a)),
     mkWorld rest (trace w ++ [EvWrite ask_prompt; EvPrint "Thinking...";
                               EvCall (CallAsk (format_user_question svc s) ctx (Ok a));
                               EvPrint (answer_banner a)]) st').
Proof. apply loop_body_answer_run. Qed.

(** C19 When [ask_question] raises an exception of class [Exception], the
    iteration prints ["An error occurred: " + str(e)] and breaks out of the
    loop with the history unchanged; any other exception propagates. *)
Theorem loop_body_error ctx h w s rest e st' :
  stdin w = Line s :: rest → Str.is_exit_command s = false →
  ask_question svc (format_user_question svc s) ctx (ext w) = (Err e, st') →
  let w1 := mkWorld rest (trace w ++ [EvWrite ask_prompt; EvPrint "Thinking...";
                                      EvCall (CallAsk (format_user_question svc s) ctx (Err e))]) st' in
  loop_body ctx h w =
    if is_exception e then (Ret (Break h), emit (EvPrint ("An error occurred: " +:+ exc_str e)) w1)
    else (Raise e, w1).
Proof.
  intros Hs Hx Ha w1. subst w1.
  unfold loop_body, loop_try, loop_except, try_except, bind, input, ret, print, call, emit.
  simpl. rewrite Hs, Hx. simpl. rewrite Ha. simpl. rewrite <- !app_assoc.
  by destruct (is_exception e).
Qed.

(** C20 At end of input the [EOFError] raised by [input()] is caught: the
    loop prints the error and ends normally; Ctrl-C ([KeyboardInterrupt])
    is not an [Exception] and leaves the loop as an exception. *)
Theorem loop_body_eof_interrupt ctx h w :
  (stdin w = [] →
   loop_body ctx h w =
     (Ret (Break h), mkWorld [] (trace w ++ [EvWrite ask_prompt;
                                  EvPrint "An error occurred: EOF when reading a line"]) (ext w))) ∧
  (∀ rest, stdin w = Interrupt :: rest →
   loop_body ctx h w = (Raise keyboard_interrupt, mkWorld rest (trace w ++ [EvWrite ask_prompt]) (ext w))).
Proof.
  unfold loop_body, loop_try, loop_except, try_except, bind, input, ret, print, emit. simpl.
  split; [intros Hs | intros rest Hs]; rewrite Hs; simpl; [by rewrite <- app_assoc | done].
Qed.

(** C3 After the loop the local [conversation_history] is the initial one
    followed by one entry per answered question, in the order asked, each
    with the question passed to [ask_question] and the answer it returned. *)
Theorem chat_loop_history fuel ctx h w h' w' :
  chat_loop fuel ctx h w = (Ret h', w') →
  ∃ t, trace w' = trace w ++ t ∧ h' = h +:+ history_of (answered t).
Proof.
  revert h w; induction fuel as [|fuel IH]; intros h w; simpl; [done|]. unfold bind at 1.
  destruct (loop_body ctx h w) as [[[h1|h1]|e|] w1] eqn:E; try done.
  - apply loop_body_history in E as (t1 & Ht1 & ->).
    intros (t2 & Ht2 & ->)%IH. exists (t1 ++ t2).
    rewrite Ht2, Ht1, answered_app, history_of_app, app_assoc, str_app_assoc. done.
  - apply loop_body_history in E as (t1 & Ht1 & -> & Ha). intros [= <- <-].
    exists t1. by rewrite Ha, str_app_nil_r.
Qed.

(** C1 The program terminates: [main] with at least as many units of fuel
    as lines of standard input never runs out of fuel. *)
Theorem main_total fuel w : length (stdin w) ≤ fuel → fst (main fuel w) ≠ NoFuel.
Proof.
  intros Hf. destruct (stdin w) as [|[url|] rest] eqn:Hs.
  - unfold main, bind, input. simpl. by rewrite Hs.
  - destruct (Str.repo_name_of_ok url) as [name Hn]. rewrite (main_unfold _ _ _ _ _ Hs Hn).
    simpl in Hf. unfold with_tempdir, main_body, bind, call, print, raise, ret, emit. simpl.
    repeat (case_match; simplify_eq/=); try done.
    match goal with H : chat_loop _ _ _ _ = (NoFuel, _) |- _ =>
      apply (f_equal fst) in H; simpl in H; exfalso; revert H;
      apply chat_loop_total; simpl; lia end.
  - unfold main, bind, input. simpl. by rewrite Hs.
Qed.

(** C4 The context passed to [ask_question] never carries the history:
    [question_context] is built with the empty [conversation_history]
    (line 61) and line 71 rebinds the local variable without updating the
    context, so every call sees [conversation_history = ""]. *)
Theorem main_asks_see_empty_history fuel w o w' :
  main fuel w = (o, w') →
  ∃ t, trace w' = trace w ++ t ∧
       ∀ q c r, EvCall (CallAsk q c r) ∈ t → conversation_history c = "".
Proof.
  intros E.
  assert (trace_inv (λ e, ∀ q c r, e = EvCall (CallAsk q c r) → conversation_history c = "")
            (main fuel)) as Hinv.
  { unfold main, main_body. trace_inv_split; try (intros ??? [=]; done).
    eapply trace_inv_mono; [|apply chat_loop_asks].
    intros e He q c r ->. by rewrite (He q c r eq_refl). }
  destruct (Hinv _ _ _ E) as (t & Ht & Hall). exists t. split; [done|].
  intros q c r Hin. rewrite Forall_forall in Hall. by eapply Hall.
Qed.

(** C23 The clone runs outside the loop's [try]: when
    [clone_github_repo] raises, [main] does not print
    ["Failed to clone the repository."] but raises the same exception,
    after removing the temporary directory. *)
Theorem main_clone_raises fuel w url rest p s1 e s2 :
  stdin w = Line url :: rest → mkdtemp svc (ext w) = (p, s1) →
  clone_github_repo svc url p s1 = (Err e, s2) →
  main fuel w =
    (Raise e, mkWorld rest (trace w ++ [EvWrite url_prompt; EvPrint "Cloning the repository...";
                                        EvMkTemp p; EvCall (CallClone url p (Err e));
                                        EvRmTemp p]) s2).
Proof.
  intros Hs Hmk Hcl. main_steps.
Qed.

(** C22 When the clone fails, [main] prints the failure inside the [with]
    block, removes the temporary directory and returns: no indexing, no
    model and no question. *)
Theorem main_clone_failure fuel w url rest p s1 s2 :
  stdin w = Line url :: rest → mkdtemp svc (ext w) = (p, s1) →
  clone_github_repo svc url p s1 = (Ok false, s2) →
  main fuel w =
    (Ret tt, mkWorld rest (trace w ++ [EvWrite url_prompt; EvPrint "Cloning the repository...";
                                       EvMkTemp p; EvCall (CallClone url p (Ok false));
                                       EvPrint "Failed to clone the repository."; EvRmTemp p]) s2).
Proof. apply main_clone_failure_run. Qed.

(** C25 When the index is [None], [main] prints the message, calls
    [exit()] before any question, and the [SystemExit] leaves the [with]
    block after the directory is removed. *)
Theorem main_no_index fuel w url rest p s1 s2 s3 docs counts names :
  stdin w = Line url :: rest → mkdtemp svc (ext w) = (p, s1) →
  clone_github_repo svc url p s1 = (Ok true, s2) →
  load_and_index_files svc p s2 = (Ok (None, docs, counts, names), s3) →
  main fuel w =
    (Raise system_exit,
     mkWorld rest (trace w ++ [EvWrite url_prompt; EvPrint "Cloning the repository...";
                               EvMkTemp p; EvCall (CallClone url p (Ok true));
                               EvCall (CallLoad p (Ok (None, docs, counts, names)));
                               EvPrint "No documents were found to index. Exiting.";
                               EvRmTemp p]) s3).
Proof. apply main_no_index_run. Qed.

(** C21 Once the URL is read, every run of [main] that ends (normally, by
    [exit()] or by an uncaught exception) creates one temporary directory,
    does everything else inside it, and removes it as its last event. *)
Theorem main_tempdir_removed fuel w url rest o w' :
  stdin w = Line url :: rest → main fuel w = (o, w') → o ≠ NoFuel →
  ∃ p t, trace w' = trace w ++ [EvWrite url_prompt; EvPrint "Cloning the repository..."] ++
                     [EvMkTemp p] ++ t ++ [EvRmTemp p] ∧ Forall no_tempdir t.
Proof.
  intros Hs E Ho. destruct (Str.repo_name_of_ok url) as [name Hn].
  rewrite (main_unfold _ _ _ _ _ Hs Hn) in E.
  destruct (with_tempdir_cleanup _ _ _ _ _ _ (main_body_no_tempdir fuel url name) E Ho)
    as (p & t & Ht & Hall).
  exists p, t. split; [|done]. rewrite Ht. simpl. by rewrite <- !app_assoc.
Qed.

(** C9 Spec.md section 3: the index and the documents are built at most
    once per session, before any question is answered, and never
    changed.  In every run of [main] the events call the loader at most
    once; every call to [ask_question] comes after that call and
    receives the context holding its result, the same context for
    every question, and no later event calls the loader again. *)
Theorem main_index_built_once fuel w o w' :
  main fuel w = (o, w') → ∃ t, trace w' = trace w ++ t ∧ built_once t.
Proof.
  intros E. destruct (stdin w) as [|[url|] rest] eqn:Hs;
    try (unfold main, bind, input in E; simpl in E; rewrite Hs in E; injection E as _ <-;
         eexists; split; [reflexivity | left; by repeat constructor]).
  destruct (Str.repo_name_of_ok url) as [name Hn]. rewrite (main_unfold _ _ _ _ _ Hs Hn) in E.
  unfold with_tempdir in E. simpl in E. destruct (mkdtemp svc (ext w)) as [p s1].
  match type of E with context [main_body fuel url name p ?w2] =>
    destruct (main_body fuel url name p w2) as [[a|e|] w3] eqn:Eb end;
    apply main_body_built in Eb as (t & Ht & Hb); injection E as _ <-; simpl in Ht.
  1,2: exists ([EvWrite url_prompt; EvPrint "Cloning the repository..."; EvMkTemp p] ++ t ++ [EvRmTemp p]);
    split; [unfold emit; simpl; rewrite Ht; by rewrite <- !app_assoc|];
    apply built_once_frame; [by repeat constructor | by repeat constructor | done].
  exists ([EvWrite url_prompt; EvPrint "Cloning the repository..."; EvMkTemp p] ++ t ++ []).
  split; [rewrite Ht, app_nil_r; by rewrite <- !app_assoc|].
  apply built_once_frame; [by repeat constructor | constructor | done].
Qed.

(** C24 Spec.md section 7 says errors are reported and the session
    aborted; only the loop has a [try], so an exception raised while
    setting up, by [load_and_index_files] (line 21) or by the
    [ChatOpenAI] constructor (line 27), escapes [main] unreported: no
    ["An error occurred"] line and no question, after the temporary
    directory is removed. *)
Theorem main_setup_raises fuel w url rest p s1 s2 e :
  stdin w = Line url :: rest → mkdtemp svc (ext w) = (p, s1) →
  clone_github_repo svc url p s1 = (Ok true, s2) →
  (∀ s3, load_and_index_files svc p s2 = (Err e, s3) →
     main fuel w =
       (Raise e, mkWorld rest (trace w ++ [EvWrite url_prompt; EvPrint "Cloning the repository...";
                                           EvMkTemp p; EvCall (CallClone url p (Ok true));
                                           EvCall (CallLoad p (Err e)); EvRmTemp p]) s3)) ∧
  (∀ ix docs counts names s3 s4,
     load_and_index_files svc p s2 = (Ok (Some ix, docs, counts, names), s3) →
     chat_openai svc llm_params s3 = (Err e, s4) →
     main fuel w =
       (Raise e, mkWorld rest (trace w ++ [EvWrite url_prompt; EvPrint "Cloning the repository...";
                                           EvMkTemp p; EvCall (CallClone url p (Ok true));
                                           EvCall (CallLoad p (Ok (Some ix, docs, counts, names)));
                                           EvPrint "Repository cloned. Indexing files...";
                                           EvCall (CallChatOpenAI llm_params (Err e));
                                           EvRmTemp p]) s4)).
Proof.
  intros Hs Hmk Hcl. split; [intros s3 Hld | intros ix docs counts names s3 s4 Hld Hllm]; main_steps.
Qed.

(** C26 The URL prompt (line 16) is outside the loop's [try]: at the end
    of standard input [input()] raises [EOFError], and on Ctrl-C
    [KeyboardInterrupt], and the exception leaves [main] at once, with
    only the prompt written: no ["An error occurred"] line, no
    temporary directory and no service call. *)
Theorem main_url_prompt_raises fuel w :
  (stdin w = [] →
   main fuel w = (Raise eof_error, mkWorld [] (trace w ++ [EvWrite url_prompt]) (ext w))) ∧
  (∀ rest, stdin w = Interrupt :: rest →
   main fuel w = (Raise keyboard_interrupt, mkWorld rest (trace w ++ [EvWrite url_prompt]) (ext w))).
Proof. unfold main, bind, input, emit. simpl. split; [intros Hs | intros rest Hs]; by rewrite Hs. Qed.

End Main.

End Session.
