(* ===== verification/Env.v ===== *)
(** The module top level of [src/main.py]: [load_dotenv()] (line 11),
    [OPENAI_API_KEY = os.getenv("OPENAI_API_KEY")] (line 12) and the
    statement [def main(): ...] (line 15), the last statement of the
    module.  The process environment [os.environ] is a finite map from
    names to values.  python-dotenv is a library the sources only call,
    modelled from its documented behaviour: [dotenv_values] parses the
    [.env] file into a dict (insertion order of the first assignment of
    a name, value of its last assignment), and
    [set_as_environment_variables] walks that dict and sets each name
    that is not yet in the environment ([override=False], the default
    [main.py] uses).  The parser of the [.env] syntax itself is not
    modelled: the file is the list of its [NAME=value] assignments in
    order.  The theorem shows which value the API key gets: the
    environment's, else the file's last assignment, else [None].
    [script] records that the module ends with the definition of
    [main], which it never calls (a finding read off line 15 onward,
    not a theorem). *)

From S2P Require Import Prelude PyRuntime Services.
From stdpp Require Import gmap.
Import Py Svc.
#[local] Set Warnings "-clear-no-such-hyp".

Module Env.

(** [os.environ]. *)
Abbreviation Environ := (gmap string string).

(** The parsed [.env] file: its assignments [NAME=value] in order. *)
Definition DotenvFile : Type := list (string * string).

(** [d[k] = v] on a dict of strings: the value of an existing key is
    replaced in place, a new key goes last. *)
Fixpoint dict_set (k v : string) (d : list (string * string)) : list (string * string) :=
  match d with
  | [] => [(k, v)]
  | (k', v') :: d' => if String.eqb k k' then (k, v) :: d' else (k', v') :: dict_set k v d'
  end.

(** [dotenv_values()]: the dict of the file's assignments. *)
Definition dotenv_values (f : DotenvFile) : list (string * string) :=
  foldl (λ d kv, dict_set kv.1 kv.2 d) [] f.

(** [DotEnv.set_as_environment_variables()]: for each [k, v] of the
    dict, [if k in os.environ and not override: continue], otherwise
    [os.environ[k] = v]. *)
Definition set_as_environment_variables (override : bool) (env : Environ)
    (d : list (string * string)) : Environ :=
  foldl (λ e kv, if bool_decide (is_Some (e !! kv.1)) && negb override then e
                 else <[kv.1 := kv.2]> e) env d.

(** [load_dotenv()] with its default [override=False]. *)
Definition load_dotenv (env : Environ) (f : DotenvFile) : Environ :=
  set_as_environment_variables false env (dotenv_values f).

(** [os.getenv(k)]: [None] when [k] is not set. *)
Definition getenv (env : Environ) (k : string) : option string := env !! k.

(** Lines 11-12: the environment after [load_dotenv()] and the global
    [OPENAI_API_KEY]. *)
Definition module_init (env : Environ) (f : DotenvFile) : Environ * option string :=
  let env' := load_dotenv env f in (env', getenv env' "OPENAI_API_KEY").

(** Running [python main.py] with the imported services [svc] and
    configuration [cfg]: the statements of the module in order.  Lines
    11-12 set the environment and the key; line 15 binds [main] (with
    [fuel] units for its loop) and the module ends there, so the run
    does nothing more with the console or the services. *)
Definition script {I St : Type} (svc : Services I St) (cfg : Cfg.Config) (fuel : nat)
    (env : Environ) (f : DotenvFile) : Environ * Py St (Call I) unit :=
  let '(env', OPENAI_API_KEY) := module_init env f in (env', ret tt).

(** The value of the last assignment of [k] in the file, if any. *)
Definition last_assignment (f : DotenvFile) (k : string) : option string :=
  foldl (λ o kv, if String.eqb k kv.1 then Some kv.2 else o) None f.

(** ** Lemmas *)

Lemma dict_set_keys k v d :
  NoDup d.*1 → NoDup (dict_set k v d).*1 ∧ (dict_set k v d).*1 ⊆ k :: d.*1.
Proof.
  induction d as [|[k' v'] d IH]; simpl; intros Hd.
  { split; [constructor; [set_solver | constructor] | set_solver]. }
  apply NoDup_cons in Hd as [Hk' Hd].
  destruct (String.eqb_spec k k') as [->|Hne]; simpl; [split; [by constructor | set_solver]|].
  destruct (IH Hd) as [IH1 IH2]. split; [|set_solver].
  constructor; [|done]. intros Hin. apply IH2 in Hin. set_solver.
Qed.

Lemma dict_set_map k v d :
  NoDup d.*1 → list_to_map (M:=Environ) (dict_set k v d) = <[k:=v]> (list_to_map d).
Proof.
  induction d as [|[k' v'] d IH]; intros Hd; [done|].
  apply NoDup_cons in Hd as [_ Hd]. cbn [dict_set].
  destruct (String.eqb_spec k k') as [->|Hne]; rewrite !list_to_map_cons.
  - by rewrite insert_insert_eq.
  - rewrite IH by done. by apply insert_insert_ne.
Qed.

Lemma dotenv_values_nodup f : NoDup (dotenv_values f).*1.
Proof.
  unfold dotenv_values. cut (∀ d, NoDup d.*1 → NoDup (foldl (λ d kv, dict_set kv.1 kv.2 d) d f).*1).
  { intros H. apply H, NoDup_nil_2. }
  induction f as [|[k v] f IH]; intros d Hd; simpl; [done|]. apply IH, dict_set_keys, Hd.
Qed.

(** The dict of the file, as a map: each name maps to its last value. *)
Lemma dotenv_values_lookup f k :
  list_to_map (M:=Environ) (dotenv_values f) !! k = last_assignment f k.
Proof.
  unfold dotenv_values, last_assignment.
  cut (∀ d o, NoDup d.*1 → list_to_map (M:=Environ) d !! k = o →
         list_to_map (M:=Environ) (foldl (λ d kv, dict_set kv.1 kv.2 d) d f) !! k =
         foldl (λ o kv, if String.eqb k kv.1 then Some kv.2 else o) o f).
  { intros H. by apply H; [constructor|]. }
  induction f as [|[k' v'] f IH]; intros d o Hd Ho; simpl; [done|].
  apply IH; [by apply dict_set_keys|]. rewrite dict_set_map by done.
  destruct (String.eqb_spec k k') as [->|Hne].
  - by rewrite lookup_insert_eq.
  - by rewrite lookup_insert_ne by congruence.
Qed.

(** Setting the names of a dict without overriding is a left-biased
    union with the dict. *)
Lemma set_no_override_union env d :
  NoDup d.*1 → set_as_environment_variables false env d = env ∪ list_to_map d.
Proof.
  revert env. induction d as [|[k v] d IH]; intros env Hd; simpl.
  { by rewrite map_union_empty. }
  apply NoDup_cons in Hd as [Hk Hd]. rewrite IH by done.
  assert (list_to_map (M:=Environ) d !! k = None) as Hn by by apply not_elem_of_list_to_map_1.
  apply map_eq. intros i. rewrite !lookup_union.
  destruct (decide (i = k)) as [->|Hne].
  - rewrite lookup_insert_eq, Hn. by destruct (env !! k) eqn:E; simpl; rewrite ?E, ?lookup_insert_eq.
  - rewrite lookup_insert_ne by done.
    by destruct (env !! k) eqn:E; simpl; rewrite ?lookup_insert_ne.
Qed.

Lemma load_dotenv_union_l env f : load_dotenv env f = env ∪ list_to_map (dotenv_values f).
Proof. apply set_no_override_union, dotenv_values_nodup. Qed.

(** A name's value after [load_dotenv()]: the environment's, else the
    file's last assignment. *)
Lemma load_dotenv_lookup env f k :
  load_dotenv env f !! k = match env !! k with Some v => Some v | None => last_assignment f k end.
Proof.
  rewrite load_dotenv_union_l, lookup_union, dotenv_values_lookup.
  by destruct (env !! k), (last_assignment f k).
Qed.

(** ** Theorems *)

(** C11 Lines 11-12: the global [OPENAI_API_KEY] is the value the
    process environment already has, when it has one ([load_dotenv()]
    does not override it); otherwise the value of the last assignment
    of [OPENAI_API_KEY] in the [.env] file; [None] when neither sets
    it. *)
Theorem module_init_api_key env f :
  snd (module_init env f) =
    match env !! "OPENAI_API_KEY" with
    | Some v => Some v
    | None => last_assignment f "OPENAI_API_KEY"
    end.
Proof. apply load_dotenv_lookup. Qed.

(** The process environment wins over the file, and of two assignments
    in the file the last one counts. *)
Example module_init_example :
  snd (module_init (<["HOME" := "/root"]> ∅)
         [("OPENAI_API_KEY", "sk-old"); ("HOME", "/tmp"); ("OPENAI_API_KEY", "sk-new")])
    = Some "sk-new" ∧
  load_dotenv (<["HOME" := "/root"]> ∅) [("HOME", "/tmp")] !! "HOME" = Some "/root".
Proof. split; vm_compute; reflexivity. Qed.

End Env.
