(* ===== verification/SessionRuns.v ===== *)
(** Concrete runs of [Session]: a scripted environment (services whose
    state is the list of the model's next responses, a clone that
    succeeds or fails as told, a given index) and the runs of [main()]
    and of one loop iteration that instantiate the theorems of
    [Session] at concrete inputs. *)

From S2P Require Import Prelude PyRuntime PyString Services Template Session.
From Stdlib Require Import QArith.
Local Close Scope Q_scope.
Import Py Svc Session.

Module SessionRuns.

(** ** A scripted environment for concrete runs

    The services' state is the list of the model's next responses; the
    clone succeeds or fails as told; the index is given; the question is
    passed on as typed. *)

Definition demo_cfg : Cfg.Config := Cfg.mkConfig "<white>" "<green>" "<reset>" "gpt-3.5-turbo".

Definition connection_error : PyExc := mkExc (OtherError "APIConnectionError") "Connection error.".

Definition demo_svc (clone_ok : bool) (loaded : Loaded unit) : Services unit (list (PyResult string)) :=
  mkServices (λ s, ("/tmp/tmpdemo", s)) (λ _ _ s, (Ok clone_ok, s)) (λ _ s, (Ok loaded, s))
    (λ _ s, (Ok tt, s)) (λ q, q)
    (λ _ _ s, match s with r :: s' => (r, s') | [] => (Err connection_error, []) end).

Definition demo_loaded : Loaded unit :=
  (Some tt, [mkDocument "Hello world" "readme.md"], [("md", 1)], ["readme.md"]).

(** Services whose clone raises a [GitCommandError]. *)
Definition git_error : PyExc := mkExc (OtherError "GitCommandError") "Cmd('git') failed".

Definition raising_clone_svc : Services unit (list (PyResult string)) :=
  mkServices (λ s, ("/tmp/tmpdemo", s)) (λ _ _ s, (Err git_error, s)) (λ _ s, (Ok demo_loaded, s))
    (λ _ s, (Ok tt, s)) (λ q, q) (λ _ _ s, (Err connection_error, s)).

(** Services whose loader raises an [OSError]. *)
Definition index_error : PyExc := mkExc (OtherError "OSError") "Permission denied".

Definition raising_load_svc : Services unit (list (PyResult string)) :=
  mkServices (λ s, ("/tmp/tmpdemo", s)) (λ _ _ s, (Ok true, s)) (λ _ s, (Err index_error, s))
    (λ _ s, (Ok tt, s)) (λ q, q) (λ _ _ s, (Err connection_error, s)).

Definition demo_ctx : QuestionContext unit :=
  mkQuestionContext tt [mkDocument "Hello world" "readme.md"]
    (mkLLMChain (mkPromptTemplate Tmpl.template Tmpl.input_variables) (llm_params None))
    "gpt-3.5-turbo" "b" "https://github.com/a/b" "" [("md", 1)] ["readme.md"].

Definition demo_world (lines : list string) (replies : list (PyResult string))
    : World (list (PyResult string)) (Call unit) :=
  mkWorld (List.map Line lines) [] replies.

Lemma loop_body_exit_witness :
  Str.is_exit_command "EXIT()" = true ∧
  loop_body (demo_svc true demo_loaded) demo_cfg demo_ctx "" (demo_world ["EXIT()"] [])
  = (Ret (Break ""), mkWorld [] ([] ++ [EvWrite (ask_prompt demo_cfg)]) []).
Proof. split; [reflexivity|]. apply (loop_body_exit (demo_svc true demo_loaded) demo_cfg demo_ctx ""
    (demo_world ["EXIT()"] []) "EXIT()" []); reflexivity. Defined.

Lemma loop_body_answer_witness :
  Str.is_exit_command "What is this?" = false ∧
  loop_body (demo_svc true demo_loaded) demo_cfg demo_ctx "" (demo_world ["What is this?"] [Ok "A demo."])
  = (Ret (Continue ("" +:+ history_entry "What is this?" "A demo.")),
     mkWorld [] ([] ++ [EvWrite (ask_prompt demo_cfg); EvPrint "Thinking...";
                        EvCall (CallAsk "What is this?" demo_ctx (Ok "A demo."));
                        EvPrint (answer_banner demo_cfg "A demo.")]) []).
Proof.
  split; [reflexivity|].
  apply (loop_body_answer (demo_svc true demo_loaded) demo_cfg demo_ctx ""
    (demo_world ["What is this?"] [Ok "A demo."]) "What is this?" [] "A demo." []);
    reflexivity.
Defined.

Lemma loop_body_error_witness :
  Str.is_exit_command "What is this?" = false ∧
  loop_body (demo_svc true demo_loaded) demo_cfg demo_ctx "" (demo_world ["What is this?"] [])
  = (Ret (Break ""),
     emit (EvPrint ("An error occurred: " +:+ exc_str connection_error))
       (mkWorld [] ([] ++ [EvWrite (ask_prompt demo_cfg); EvPrint "Thinking...";
                           EvCall (CallAsk "What is this?" demo_ctx (Err connection_error))]) [])).
Proof.
  split; [reflexivity|].
  apply (loop_body_error (demo_svc true demo_loaded) demo_cfg demo_ctx ""
    (demo_world ["What is this?"] []) "What is this?" [] connection_error []);
    reflexivity.
Defined.

Lemma loop_body_eof_interrupt_witness :
  stdin (demo_world [] []) = [] ∧
  loop_body (demo_svc true demo_loaded) demo_cfg demo_ctx "" (demo_world [] [])
  = (Ret (Break ""), mkWorld [] ([] ++ [EvWrite (ask_prompt demo_cfg);
                                        EvPrint "An error occurred: EOF when reading a line"]) []).
Proof.
  split; [reflexivity|].
  apply (proj1 (loop_body_eof_interrupt (demo_svc true demo_loaded) demo_cfg demo_ctx ""
    (demo_world [] []))); reflexivity.
Defined.

Lemma chat_loop_history_witness :
  ∃ h' w', chat_loop (demo_svc true demo_loaded) demo_cfg 3 demo_ctx ""
             (demo_world ["What is this?"; "Who wrote it?"; "exit()"] [Ok "A demo."; Ok "Someone."])
           = (Ret h', w') ∧
  ∃ t, trace w' = trace (demo_world ["What is this?"; "Who wrote it?"; "exit()"]
                                    [Ok "A demo."; Ok "Someone."]) ++ t ∧
       h' = "" +:+ history_of (answered t).
Proof.
  eexists _, _. split; [reflexivity|].
  eapply (chat_loop_history (demo_svc true demo_loaded) demo_cfg 3 demo_ctx ""
    (demo_world ["What is this?"; "Who wrote it?"; "exit()"] [Ok "A demo."; Ok "Someone."])).
  reflexivity.
Defined.

Lemma main_total_witness :
  length (stdin (demo_world ["https://github.com/a/b"; "What is this?"; "exit()"] [Ok "A demo."])) ≤ 3 ∧
  fst (main (demo_svc true demo_loaded) demo_cfg None 3
         (demo_world ["https://github.com/a/b"; "What is this?"; "exit()"] [Ok "A demo."])) ≠ NoFuel.
Proof. split; [simpl; lia|]. apply main_total. simpl. lia. Defined.

Lemma main_asks_see_empty_history_witness :
  ∃ o w', main (demo_svc true demo_loaded) demo_cfg None 3
            (demo_world ["https://github.com/a/b"; "What is this?"; "Why?"] [Ok "A demo."; Ok "Because."])
          = (o, w') ∧
  ∃ t, trace w' = [] ++ t ∧ ∀ q c r, EvCall (CallAsk q c r) ∈ t → conversation_history c = "".
Proof.
  eexists _, _. split; [reflexivity|].
  eapply (main_asks_see_empty_history (demo_svc true demo_loaded) demo_cfg None 3
    (demo_world ["https://github.com/a/b"; "What is this?"; "Why?"] [Ok "A demo."; Ok "Because."])).
  reflexivity.
Defined.

Lemma main_clone_failure_witness :
  main (demo_svc false demo_loaded) demo_cfg None 3 (demo_world ["https://github.com/a/b"] [])
  = (Ret tt, mkWorld [] ([] ++ [EvWrite url_prompt; EvPrint "Cloning the repository...";
                                EvMkTemp "/tmp/tmpdemo";
                                EvCall (CallClone "https://github.com/a/b" "/tmp/tmpdemo" (Ok false));
                                EvPrint "Failed to clone the repository."; EvRmTemp "/tmp/tmpdemo"]) []).
Proof.
  apply (main_clone_failure (demo_svc false demo_loaded) demo_cfg None 3
    (demo_world ["https://github.com/a/b"] []) "https://github.com/a/b" [] "/tmp/tmpdemo" [] []);
    reflexivity.
Defined.

Lemma main_no_index_witness :
  main (demo_svc true (None, [], [], [])) demo_cfg None 3 (demo_world ["https://github.com/a/b"] [])
  = (Raise system_exit,
     mkWorld [] ([] ++ [EvWrite url_prompt; EvPrint "Cloning the repository...";
                        EvMkTemp "/tmp/tmpdemo";
                        EvCall (CallClone "https://github.com/a/b" "/tmp/tmpdemo" (Ok true));
                        EvCall (CallLoad "/tmp/tmpdemo" (Ok (None, [], [], [])));
                        EvPrint "No documents were found to index. Exiting.";
                        EvRmTemp "/tmp/tmpdemo"]) []).
Proof.
  apply (main_no_index (demo_svc true (None, [], [], [])) demo_cfg None 3
    (demo_world ["https://github.com/a/b"] []) "https://github.com/a/b" [] "/tmp/tmpdemo"
    [] [] [] [] [] []); reflexivity.
Defined.

Lemma main_tempdir_removed_witness :
  ∃ o w', main (demo_svc true demo_loaded) demo_cfg None 3
            (demo_world ["https://github.com/a/b"; "What is this?"] [Ok "A demo."]) = (o, w') ∧
  o ≠ NoFuel ∧
  ∃ p t, trace w' = [] ++ [EvWrite url_prompt; EvPrint "Cloning the repository..."] ++
                     [EvMkTemp p] ++ t ++ [EvRmTemp p] ∧ Forall no_tempdir t.
Proof.
  eexists _, _. split; [reflexivity|]. split; [discriminate|].
  eapply (main_tempdir_removed (demo_svc true demo_loaded) demo_cfg None 3
    (demo_world ["https://github.com/a/b"; "What is this?"] [Ok "A demo."])
    "https://github.com/a/b" [Line "What is this?"]);
    [reflexivity | reflexivity | discriminate].
Defined.

Lemma main_clone_raises_witness :
  main raising_clone_svc demo_cfg None 3 (demo_world ["https://github.com/a/b"] [])
  = (Raise git_error,
     mkWorld [] ([] ++ [EvWrite url_prompt; EvPrint "Cloning the repository...";
                        EvMkTemp "/tmp/tmpdemo";
                        EvCall (CallClone "https://github.com/a/b" "/tmp/tmpdemo" (Err git_error));
                        EvRmTemp "/tmp/tmpdemo"]) []).
Proof.
  apply (main_clone_raises raising_clone_svc demo_cfg None 3
    (demo_world ["https://github.com/a/b"] []) "https://github.com/a/b" [] "/tmp/tmpdemo" []
    git_error []); reflexivity.
Defined.

Lemma main_index_built_once_witness :
  ∃ o w', main (demo_svc true demo_loaded) demo_cfg None 3
            (demo_world ["https://github.com/a/b"; "What is this?"; "Why?"] [Ok "A demo."; Ok "Because."])
          = (o, w') ∧
  ∃ t, trace w' = [] ++ t ∧ built_once t.
Proof.
  eexists _, _. split; [reflexivity|].
  eapply (main_index_built_once (demo_svc true demo_loaded) demo_cfg None 3
    (demo_world ["https://github.com/a/b"; "What is this?"; "Why?"] [Ok "A demo."; Ok "Because."])).
  reflexivity.
Defined.

Lemma main_setup_raises_witness :
  main raising_load_svc demo_cfg None 3 (demo_world ["https://github.com/a/b"] [])
  = (Raise index_error,
     mkWorld [] ([] ++ [EvWrite url_prompt; EvPrint "Cloning the repository...";
                        EvMkTemp "/tmp/tmpdemo";
                        EvCall (CallClone "https://github.com/a/b" "/tmp/tmpdemo" (Ok true));
                        EvCall (CallLoad "/tmp/tmpdemo" (Err index_error));
                        EvRmTemp "/tmp/tmpdemo"]) []).
Proof.
  apply (proj1 (main_setup_raises raising_load_svc demo_cfg None 3
    (demo_world ["https://github.com/a/b"] []) "https://github.com/a/b" [] "/tmp/tmpdemo" [] []
    index_error eq_refl eq_refl eq_refl) [] eq_refl).
Defined.

Lemma main_url_prompt_raises_witness :
  stdin (demo_world [] []) = [] ∧
  main (demo_svc true demo_loaded) demo_cfg None 3 (demo_world [] [])
  = (Raise eof_error, mkWorld [] ([] ++ [EvWrite url_prompt]) []).
Proof.
  split; [reflexivity|].
  apply (proj1 (main_url_prompt_raises (demo_svc true demo_loaded) demo_cfg None 3 (demo_world [] []))).
  reflexivity.
Defined.

End SessionRuns.
