(* ===== verification/LoopSpec.v ===== *)
(** The interactive loop of spec.md section 4.4 as an abstract machine,
    and the refinement of [Session.chat_loop] into it.  A state of the
    machine is the list of answered (question, answer) pairs and whether
    the session runs, has ended, or has crashed with an exception.  A
    step reads one line (or meets the end of input) and makes at most
    one call to the answerer: the exit sentinel ends the session, any
    other line is answered and its pair appended, an exception of the
    answerer ends the session.  The machine is a Section over the exit
    test and the normalisation of the question, so that the same
    machine states the spec (the exact sentinel) and the code (line 65,
    any case variant).  [chat_loop_refines] proves that every run of the
    loop that returns is a path of the machine with the code's tests;
    [exact_sentinel_diverges] that the loop is not a refinement of the
    spec's machine with the exact sentinel.  [chat_loop_history_length]
    bounds the history's growth exactly (it has no cap), and
    [chat_loop_answers_all] is the loop's liveness: with an answerer
    that answers, every question before ["exit()"] is answered. *)

From S2P Require Import Prelude PyRuntime PyString Services Template Session SessionRuns.
Import Py Svc.

Module LoopSpec.

Inductive SState :=
  | Run (ps : list (string * string))
  | Done (ps : list (string * string))
  | Crashed (ps : list (string * string)) (e : PyExc).

(** The calls to the answerer a trace records, with their responses. *)
Fixpoint asks_of {I} (t : list (Event (Call I))) : list (string * PyResult string) :=
  match t with
  | [] => []
  | EvCall (CallAsk q _ r) :: t' => (q, r) :: asks_of t'
  | _ :: t' => asks_of t'
  end.

(** The answered pairs among the calls. *)
Fixpoint oks (asks : list (string * PyResult string)) : list (string * string) :=
  match asks with
  | [] => []
  | (q, Ok a) :: asks' => (q, a) :: oks asks'
  | _ :: asks' => oks asks'
  end.

Definition pairs_of (s : SState) : list (string * string) :=
  match s with Run ps | Done ps | Crashed ps _ => ps end.

(** The outcome of the loop agrees with a final state of the machine:
    a normal end with the history of its pairs, the same exception, or,
    when the fuel ran out, a running state. *)
Definition agrees (o : Outcome string) (s : SState) : Prop :=
  match o, s with
  | Ret h, Done ps => h = Session.history_of ps
  | Raise e, Crashed _ e' => e = e'
  | NoFuel, Run _ => True
  | _, _ => False
  end.

(** The characters line 71 adds for one pair: ["Question: "], the
    question, a newline, ["Answer: "], the answer and a newline. *)
Definition entry_length (qa : string * string) : nat :=
  20 + String.length qa.1 + String.length qa.2.

(** Services whose answerer always answers (for the witnesses). *)
Definition answering_svc : Services unit (list (PyResult string)) :=
  mkServices (λ s, ("/tmp/tmpdemo", s)) (λ _ _ s, (Ok true, s))
    (λ _ s, (Ok SessionRuns.demo_loaded, s)) (λ _ s, (Ok tt, s)) (λ q, q)
    (λ q _ s, (Ok ("About " +:+ q), s)).

Section Machine.
Context (is_exit : string → bool) (fmt : string → string).

(** One turn: the input it consumes and the calls to the answerer. *)
Inductive sstep : SState → list Input → list (string * PyResult string) → SState → Prop :=
  | s_exit ps s : is_exit s = true → sstep (Run ps) [Line s] [] (Done ps)
  | s_answer ps s a : is_exit s = false →
      sstep (Run ps) [Line s] [(fmt s, Ok a)] (Run (ps ++ [(fmt s, a)]))
  | s_error ps s e : is_exit s = false → is_exception e = true →
      sstep (Run ps) [Line s] [(fmt s, Err e)] (Done ps)
  | s_crash ps s e : is_exit s = false → is_exception e = false →
      sstep (Run ps) [Line s] [(fmt s, Err e)] (Crashed ps e)
  | s_eof ps : sstep (Run ps) [] [] (Done ps)
  | s_interrupt ps : sstep (Run ps) [Interrupt] [] (Crashed ps keyboard_interrupt).

(** Paths of the machine, with the input they consume and the calls
    they make. *)
Inductive sreach : SState → list Input → list (string * PyResult string) → SState → Prop :=
  | sreach_refl s : sreach s [] [] s
  | sreach_step s1 i1 a1 s2 i2 a2 s3 :
      sstep s1 i1 a1 s2 → sreach s2 i2 a2 s3 → sreach s1 (i1 ++ i2) (a1 ++ a2) s3.

End Machine.

(** ** Lemmas *)

Lemma asks_of_app {I} (t1 t2 : list (Event (Call I))) :
  asks_of (t1 ++ t2) = asks_of t1 ++ asks_of t2.
Proof.
  induction t1 as [|e t1 IH]; [done|].
  destruct e as [| | | |[| | |q c r]]; simpl; by rewrite IH.
Qed.

Lemma oks_app a1 a2 : oks (a1 ++ a2) = oks a1 ++ oks a2.
Proof. induction a1 as [|[q [a|e]] a1 IH]; simpl; by rewrite ?IH. Qed.

Lemma history_of_snoc ps q a :
  Session.history_of (ps ++ [(q, a)]) = Session.history_of ps +:+ Session.history_entry q a.
Proof. by rewrite Session.history_of_app; simpl; rewrite str_app_nil_r. Qed.

Lemma history_of_length ps :
  String.length (Session.history_of ps) = sum_list (entry_length <$> ps).
Proof.
  induction ps as [|[q a] ps IH]; [done|]. rewrite fmap_cons. cbn [sum_list foldr]. rewrite <- IH.
  change (Session.history_of ((q, a) :: ps)) with (Session.history_entry q a +:+ Session.history_of ps).
  unfold Session.history_entry, entry_length, nl. rewrite !str_app_length. cbn [String.length fst snd id]. lia.
Qed.

(** Invariant of the machine, by induction on its paths: the pairs of
    the final state are those of the first followed by the answered
    calls, in order. *)
Lemma sreach_pairs is_exit fmt s inp asks s' :
  sreach is_exit fmt s inp asks s' → pairs_of s' = pairs_of s ++ oks asks.
Proof.
  induction 1 as [s|s1 i1 a1 s2 i2 a2 s3 Hs _ IH]; simpl; [by rewrite app_nil_r|].
  rewrite oks_app, IH. inversion Hs; subst; simpl; by rewrite ?app_nil_r, <- ?app_assoc.
Qed.

Lemma sreach_one is_exit fmt s inp asks s' :
  sstep is_exit fmt s inp asks s' → sreach is_exit fmt s inp asks s'.
Proof. intros H. rewrite <- (app_nil_r inp), <- (app_nil_r asks). econstructor; [done | constructor]. Qed.

(** A session that has ended takes no more input. *)
Lemma sreach_stopped is_exit fmt s inp asks s' :
  (∀ ps, s ≠ Run ps) → sreach is_exit fmt s inp asks s' → inp = [] ∧ asks = [].
Proof.
  intros Hs Hr. destruct Hr as [|s1 i1 a1 s2 i2 a2 s3 Hstep _]; [done|].
  exfalso. destruct Hstep; by eapply Hs.
Qed.

Section Refinement.
Context {I St : Type} (svc : Services I St) (cfg : Cfg.Config).

(** One iteration of the loop is one step of the machine with the
    code's exit test and [format_user_question]. *)
Lemma loop_body_sstep ctx ps w o w' :
  Session.loop_body svc cfg ctx (Session.history_of ps) w = (o, w') →
  ∃ inp t s', stdin w = inp ++ stdin w' ∧ trace w' = trace w ++ t ∧
    sstep Str.is_exit_command (format_user_question svc) (Run ps) inp (asks_of t) s' ∧
    match o, s' with
    | Ret (Session.Continue h), Run ps' => h = Session.history_of ps'
    | Ret (Session.Break h), Done ps' => h = Session.history_of ps'
    | Raise e, Crashed _ e' => e = e'
    | _, _ => False
    end.
Proof.
  intros E. unfold Session.loop_body, Session.loop_try, Session.loop_except in E. py_run;
    (match goal with H : stdin _ = ?x :: _ |- _ => exists [x] | _ => exists [] end);
    eexists _, _; (split; [done|]); (split; [by rewrite <- ?app_assoc|]); simpl;
    (split; [first [by eapply s_exit | by eapply s_answer | by eapply s_error
                   | by eapply s_crash | by eapply s_eof | by eapply s_interrupt] |]);
    cbv iota beta; rewrite ?history_of_snoc; done.
Qed.

(** Every run of the loop that returns is a path of the machine. *)
Lemma chat_loop_sreach fuel ctx ps w o w' :
  Session.chat_loop svc cfg fuel ctx (Session.history_of ps) w = (o, w') →
  ∃ inp t s', stdin w = inp ++ stdin w' ∧ trace w' = trace w ++ t ∧
    sreach Str.is_exit_command (format_user_question svc) (Run ps) inp (asks_of t) s' ∧
    agrees o s'.
Proof.
  revert ps w; induction fuel as [|fuel IH]; intros ps w E; simpl in E.
  - injection E as <- <-. exists [], [], (Run ps). rewrite app_nil_r. split_and!; try done.
    constructor.
  - unfold bind in E. destruct (Session.loop_body svc cfg ctx _ w) as [o1 w1] eqn:E1.
    apply loop_body_sstep in E1 as (inp1 & t1 & s1 & Hin1 & Ht1 & Hs1 & Hm).
    destruct o1 as [[h|h]|e|], s1 as [ps1|ps1|ps1 e1]; try done; subst.
    + destruct (IH ps1 w1 E) as (inp2 & t2 & s2 & Hin2 & Ht2 & Hr & Ha).
      exists (inp1 ++ inp2), (t1 ++ t2), s2. rewrite Hin1, Hin2, Ht2, Ht1, asks_of_app.
      split_and!; [by rewrite app_assoc | by rewrite app_assoc | by eapply sreach_step | done].
    + unfold ret in E. injection E as <- <-. exists inp1, t1, (Done ps1). split_and!; try done.
      by apply sreach_one.
    + unfold ret in E. injection E as <- <-. exists inp1, t1, (Crashed ps1 e1). split_and!; try done.
      by apply sreach_one.
Qed.

(** One iteration on a line that is not an exit command, when the
    answerer answers. *)
Lemma loop_body_ok ctx h w q rest a st' :
  stdin w = Line q :: rest → Str.is_exit_command q = false →
  ask_question svc (format_user_question svc q) ctx (ext w) = (Ok a, st') →
  ∃ w', Session.loop_body svc cfg ctx h w =
          (Ret (Session.Continue (h +:+ Session.history_entry (format_user_question svc q) a)), w') ∧
        stdin w' = rest ∧ ∃ t, trace w' = trace w ++ t ∧ asks_of t = [(format_user_question svc q, Ok a)].
Proof.
  intros Hs Hx Ha. unfold Session.loop_body, Session.loop_try, try_except, bind, input, ret, print, call, emit.
  simpl. rewrite Hs, Hx. simpl. rewrite Ha. simpl. eexists. split_and!; [done|done|].
  eexists. by rewrite <- !app_assoc.
Qed.

(** One iteration on an exit line. *)
Lemma loop_body_quit ctx h w q rest :
  stdin w = Line q :: rest → Str.is_exit_command q = true →
  ∃ w', Session.loop_body svc cfg ctx h w = (Ret (Session.Break h), w') ∧
        stdin w' = rest ∧ ∃ t, trace w' = trace w ++ t ∧ asks_of t = [].
Proof.
  intros Hs Hx. unfold Session.loop_body, Session.loop_try, try_except, bind, input, ret, emit.
  simpl. rewrite Hs, Hx. simpl. eexists. split_and!; [done|done|]. by eexists [_].
Qed.

(** ** Theorems *)

(** C15 Refinement of spec.md 4.4: every run of [chat_loop] is a path of
    the loop machine with the code's exit test (line 65) and
    [format_user_question] (line 68): the input the run consumes and the
    calls it makes to [ask_question] are those of the path, and its
    outcome agrees with the path's final state (a normal end with the
    history of the answered pairs, the same exception, or a running
    state when the fuel ran out). *)
Theorem chat_loop_refines fuel ctx ps w o w' :
  Session.chat_loop svc cfg fuel ctx (Session.history_of ps) w = (o, w') →
  ∃ inp t s', stdin w = inp ++ stdin w' ∧ trace w' = trace w ++ t ∧
    sreach Str.is_exit_command (format_user_question svc) (Run ps) inp (asks_of t) s' ∧
    agrees o s'.
Proof. apply chat_loop_sreach. Qed.

(** C18 The loop does not refine the spec's machine, whose sentinel is
    exactly ["exit()"]: on the line ["EXIT()"] the loop ends the session
    normally without calling the answerer, while no path of the spec's
    machine consumes that line without a call. *)
Theorem exact_sentinel_diverges ctx ps w rest :
  stdin w = Line "EXIT()" :: rest →
  ∃ w', Session.loop_body svc cfg ctx (Session.history_of ps) w =
          (Ret (Session.Break (Session.history_of ps)), w') ∧
        stdin w' = rest ∧ asks_of (trace w') = asks_of (trace w) ∧
        ¬ ∃ s', sreach (λ s, s =?ₛ "exit()") (format_user_question svc) (Run ps)
                  [Line "EXIT()"] [] s'.
Proof.
  intros Hw. eexists. split_and!.
  - unfold Session.loop_body, Session.loop_try, try_except, bind, input. simpl.
    rewrite Hw. reflexivity.
  - done.
  - unfold emit. simpl. rewrite asks_of_app. apply app_nil_r.
  - intros (s' & Hr). inversion Hr as [|s1 i1 a1 s2 i2 a2 s3 Hs Hr' Hi Ha]; subst.
    inversion Hs; subst; simplify_eq/=.
    apply sreach_stopped in Hr' as [? _]; [discriminate | by intros ??].
Qed.

(** C14 Bounds: the history grows without limit.  After the loop ends
    normally, the length of [conversation_history] is its initial length
    plus, for each answered question, 20 characters of line 71's
    f-string and the lengths of the question and of the answer: there is
    no truncation nor eviction, and each answered question adds at least
    20 characters (spec.md section 9 flags the missing bound). *)
Theorem chat_loop_history_length fuel ctx ps w h w' :
  Session.chat_loop svc cfg fuel ctx (Session.history_of ps) w = (Ret h, w') →
  ∃ t, trace w' = trace w ++ t ∧
       String.length h =
         String.length (Session.history_of ps) + sum_list (entry_length <$> oks (asks_of t)).
Proof.
  intros E. destruct (chat_loop_sreach _ _ _ _ _ _ E) as (inp & t & s' & _ & Ht & Hr & Ha).
  exists t. split; [done|]. apply sreach_pairs in Hr.
  destruct s' as [|ps'|]; try done. simpl in Ha, Hr. subst.
  by rewrite Session.history_of_app, str_app_length, (history_of_length (oks _)).
Qed.

(** C13 Liveness: when the answerer answers every call, a session whose
    input is questions followed by ["exit()"] answers every question, in
    order, and then ends normally, given one unit of fuel per line: each
    question is passed to [ask_question] once, after
    [format_user_question], and its pair is appended to the history. *)
Theorem chat_loop_answers_all fuel ctx ps w qs rest :
  (∀ q c st, ∃ a st', ask_question svc q c st = (Ok a, st')) →
  Forall (λ q, Str.is_exit_command q = false) qs →
  stdin w = (Line <$> qs) ++ Line "exit()" :: rest →
  length qs < fuel →
  ∃ answers h w' t,
    Session.chat_loop svc cfg fuel ctx (Session.history_of ps) w = (Ret h, w') ∧
    stdin w' = rest ∧ trace w' = trace w ++ t ∧ length answers = length qs ∧
    asks_of t = zip (format_user_question svc <$> qs) (Ok <$> answers) ∧
    h = Session.history_of (ps ++ zip (format_user_question svc <$> qs) answers).
Proof.
  intros Hok. revert fuel ps w. induction qs as [|q qs IH]; intros fuel ps w Hqs Hs Hf;
    (destruct fuel as [|fuel]; [simpl in Hf; lia|]); cbn [Session.chat_loop]; simpl in Hs.
  - destruct (loop_body_quit ctx (Session.history_of ps) w "exit()" rest Hs eq_refl)
      as (w' & E & Hs' & t & Ht & Ha).
    exists [], (Session.history_of ps), w', t. unfold bind at 1. rewrite E. simpl. by rewrite app_nil_r.
  - apply Forall_cons in Hqs as [Hq Hqs].
    destruct (Hok (format_user_question svc q) ctx (ext w)) as (a & st' & Ha).
    destruct (loop_body_ok ctx (Session.history_of ps) w q _ a st' Hs Hq Ha) as (w1 & E & Hs1 & t1 & Ht1 & Ha1).
    rewrite <- history_of_snoc in E.
    destruct (IH fuel (ps ++ [(format_user_question svc q, a)]) w1)
      as (answers & h & w' & t2 & E2 & Hs' & Ht2 & Hl & Ha2 & Hh); [done | done | simpl in Hf; lia |].
    exists (a :: answers), h, w', (t1 ++ t2). unfold bind at 1. rewrite E, E2.
    split_and!; [done | done | by rewrite Ht2, Ht1, app_assoc | simpl; by rewrite Hl | |].
    + by rewrite asks_of_app, Ha1, Ha2.
    + by rewrite Hh, <- app_assoc.
Qed.

End Refinement.

Lemma chat_loop_refines_witness :
  let svc := SessionRuns.demo_svc true SessionRuns.demo_loaded in
  let w := SessionRuns.demo_world ["What is this?"; "exit()"] [Ok "A demo."] in
  let r := Session.chat_loop svc SessionRuns.demo_cfg 3 SessionRuns.demo_ctx
             (Session.history_of []) w in
  Session.chat_loop svc SessionRuns.demo_cfg 3 SessionRuns.demo_ctx (Session.history_of []) w
    = (r.1, r.2) ∧
  ∃ inp t s', stdin w = inp ++ stdin r.2 ∧ trace r.2 = trace w ++ t ∧
    sreach Str.is_exit_command (format_user_question svc) (Run []) inp (asks_of t) s' ∧
    agrees r.1 s'.
Proof.
  intros svc w r.
  assert (Session.chat_loop svc SessionRuns.demo_cfg 3 SessionRuns.demo_ctx
            (Session.history_of []) w = (r.1, r.2)) as H by (vm_compute; reflexivity).
  split; [exact H|].
  exact (chat_loop_refines svc SessionRuns.demo_cfg 3 SessionRuns.demo_ctx [] w r.1 r.2 H).
Defined.

Lemma exact_sentinel_diverges_witness :
  let svc := SessionRuns.demo_svc true SessionRuns.demo_loaded in
  let w := SessionRuns.demo_world ["EXIT()"] [] in
  stdin w = Line "EXIT()" :: [] ∧
  ∃ w', Session.loop_body svc SessionRuns.demo_cfg SessionRuns.demo_ctx (Session.history_of []) w =
          (Ret (Session.Break (Session.history_of [])), w') ∧
        stdin w' = [] ∧ asks_of (trace w') = asks_of (trace w) ∧
        ¬ ∃ s', sreach (λ s, s =?ₛ "exit()") (format_user_question svc) (Run [])
                  [Line "EXIT()"] [] s'.
Proof.
  intros svc w.
  assert (stdin w = Line "EXIT()" :: []) as H by reflexivity.
  split; [exact H|].
  exact (exact_sentinel_diverges svc SessionRuns.demo_cfg SessionRuns.demo_ctx [] w [] H).
Defined.

Lemma chat_loop_history_length_witness :
  let svc := SessionRuns.demo_svc true SessionRuns.demo_loaded in
  let w := SessionRuns.demo_world ["What is this?"; "exit()"] [Ok "A demo."] in
  let r := Session.chat_loop svc SessionRuns.demo_cfg 3 SessionRuns.demo_ctx
             (Session.history_of []) w in
  Session.chat_loop svc SessionRuns.demo_cfg 3 SessionRuns.demo_ctx (Session.history_of []) w
    = (Ret "Question: What is this?
Answer: A demo.
", r.2) ∧
  ∃ t, trace r.2 = trace w ++ t ∧
       String.length "Question: What is this?
Answer: A demo.
" = String.length (Session.history_of []) + sum_list (entry_length <$> oks (asks_of t)).
Proof.
  intros svc w r.
  assert (Session.chat_loop svc SessionRuns.demo_cfg 3 SessionRuns.demo_ctx
            (Session.history_of []) w = (Ret "Question: What is this?
Answer: A demo.
", r.2)) as H by (vm_compute; reflexivity).
  split; [exact H|].
  exact (chat_loop_history_length svc SessionRuns.demo_cfg 3 SessionRuns.demo_ctx [] w _ r.2 H).
Defined.

Lemma chat_loop_answers_all_witness :
  let w := SessionRuns.demo_world ["What is it?"; "Why?"; "exit()"] [] in
  (∀ q c st, ∃ a st', ask_question answering_svc q c st = (Ok a, st')) ∧
  Forall (λ q, Str.is_exit_command q = false) ["What is it?"; "Why?"] ∧
  stdin w = (Line <$> ["What is it?"; "Why?"]) ++ Line "exit()" :: [] ∧
  ∃ answers h w' t,
    Session.chat_loop answering_svc SessionRuns.demo_cfg 3 SessionRuns.demo_ctx
      (Session.history_of []) w = (Ret h, w') ∧
    stdin w' = [] ∧ trace w' = trace w ++ t ∧ length answers = 2 ∧
    asks_of t = zip (format_user_question answering_svc <$> ["What is it?"; "Why?"]) (Ok <$> answers) ∧
    h = Session.history_of ([] ++ zip (format_user_question answering_svc <$> ["What is it?"; "Why?"]) answers).
Proof.
  intros w.
  assert (∀ q c st, ∃ a st', ask_question answering_svc q c st = (Ok a, st')) as Hok
    by (intros q c st; eexists _, _; reflexivity).
  assert (Forall (λ q, Str.is_exit_command q = false) ["What is it?"; "Why?"]) as Hq
    by (repeat constructor).
  assert (stdin w = (Line <$> ["What is it?"; "Why?"]) ++ Line "exit()" :: []) as Hs by reflexivity.
  split_and!; [exact Hok | exact Hq | exact Hs |].
  exact (chat_loop_answers_all answering_svc SessionRuns.demo_cfg 3 SessionRuns.demo_ctx [] w
           ["What is it?"; "Why?"] [] Hok Hq Hs (le_n 3)).
Defined.

End LoopSpec.
