(* ===== verification/Indexer.v ===== *)
(** The file indexer, [file_processing.load_and_index_files].  The module
    is not under [src/]; it is modelled from spec.md section 4.2: walk
    the cloned files, keep those whose extension is in a fixed allow-list
    and whose size is under a fixed ceiling, skip the files whose text
    does not decode, record each kept file as a [Document], count it
    under its extension ([file_type_counts], a Python dict kept as its
    items in insertion order) and record its name; the index is built
    from the documents, or is [None] when there are none.  The index
    builder is a parameter: the similarity index is a library. *)

From S2P Require Import Prelude PyRuntime PyString Services.
From stdpp Require Import gmap.
Import Py Svc.
#[local] Set Warnings "-clear-no-such-hyp".

Module Indexer.

(** A file of the clone: its path, its size in bytes, and its text, or
    [None] when it does not decode. *)
Record SourceFile := mkSourceFile { path : string; size : nat; text : option string }.

(** The configuration of spec.md section 9: the allow-list of extensions
    and the size ceiling. *)
Record IndexConfig := mkIndexConfig { extensions : list string; max_size : nat }.

(** The extension of a path: what follows the last ["."] of its last
    component, if it has one. *)
Definition extension_of (p : string) : option string :=
  match Str.split "." (default "" (last (Str.split "/" p))) with
  | [] | [_] => None
  | parts => last parts
  end.

(** The extension under which a file is indexed, if it qualifies. *)
Definition accepted (cfg : IndexConfig) (f : SourceFile) : option string :=
  match extension_of (path f) with
  | Some ext =>
      if bool_decide (ext ∈ extensions cfg) && (size f <=? max_size cfg) then Some ext else None
  | None => None
  end.

(** [counts.get(ext)] on the dict's items. *)
Fixpoint dict_get (k : string) (d : FileTypeCounts) : option nat :=
  match d with
  | [] => None
  | (k', n) :: d' => if k' =?ₛ k then Some n else dict_get k d'
  end.

(** [counts[ext] = counts.get(ext, 0) + 1]: a new key goes last. *)
Fixpoint dict_incr (k : string) (d : FileTypeCounts) : FileTypeCounts :=
  match d with
  | [] => [(k, 1)]
  | (k', n) :: d' => if k' =?ₛ k then (k', S n) :: d' else (k', n) :: dict_incr k d'
  end.

Record IndexState := mkIndexState {
  docs : list Document;
  counts : FileTypeCounts;
  names : list string;
}.

Definition empty_state : IndexState := mkIndexState [] [] [].

(** One file of the walk. *)
Definition index_step (cfg : IndexConfig) (st : IndexState) (f : SourceFile) : IndexState :=
  match accepted cfg f, text f with
  | Some ext, Some t =>
      mkIndexState (docs st ++ [mkDocument t (path f)]) (dict_incr ext (counts st))
                   (names st ++ [path f])
  | _, _ => st
  end.

Definition load_and_index_files {I} (build : list Document → I) (cfg : IndexConfig)
    (files : list SourceFile) : Loaded I :=
  let st := foldl (index_step cfg) empty_state files in
  (match docs st with [] => None | ds => Some (build ds) end, docs st, counts st, names st).

(** The files that are indexed, and those indexed under [ext]. *)
Definition indexed (cfg : IndexConfig) (f : SourceFile) : bool :=
  bool_decide (is_Some (accepted cfg f)) && bool_decide (is_Some (text f)).

Definition count_of (cfg : IndexConfig) (ext : string) (files : list SourceFile) : nat :=
  length (List.filter (λ f, bool_decide (accepted cfg f = Some ext) && bool_decide (is_Some (text f)))
            files).

(** [counts.get(k, 0)]. *)
Definition dict_count (k : string) (d : FileTypeCounts) : nat := default 0 (dict_get k d).

(** The invariant of the walk: the documents and names correspond, the
    counts add up to the number of documents, each extension is a key
    at most once with a positive count. *)
Definition state_inv (st : IndexState) : Prop :=
  names st = source <$> docs st ∧
  sum_list (snd <$> counts st) = length (docs st) ∧
  NoDup (fst <$> counts st) ∧
  Forall (λ kn, 0 < kn.2) (counts st).

(** The counts, read as a map, after a walk over [files]. *)
Definition counts_map (cfg : IndexConfig) (files : list SourceFile) : gmap string nat :=
  list_to_map (counts (foldl (index_step cfg) empty_state files)).

(** The document a file contributes, if it is indexed. *)
Definition doc_of (cfg : IndexConfig) (f : SourceFile) : option Document :=
  match accepted cfg f, text f with
  | Some _, Some t => Some (mkDocument t (path f))
  | _, _ => None
  end.

(** ** Lemmas *)

Lemma dict_count_incr k k' d :
  dict_count k (dict_incr k' d) = dict_count k d + (if k' =?ₛ k then 1 else 0).
Proof.
  unfold dict_count. induction d as [|[k0 n] d IH]; simpl.
  - case_str_eqb; simpl; lia.
  - destruct (string_eqb_spec k0 k') as [->|Hne]; simpl.
    + destruct (string_eqb_spec k' k); simpl; lia.
    + destruct (string_eqb_spec k0 k) as [->|]; [|apply IH].
      destruct (string_eqb_spec k' k); [congruence | simpl; lia].
Qed.

Lemma dict_incr_keys k d :
  NoDup (fst <$> d) → NoDup (fst <$> dict_incr k d) ∧ k ∈ fst <$> dict_incr k d ∧
  ∀ k', k' ∈ fst <$> d → k' ∈ fst <$> dict_incr k d.
Proof.
  induction d as [|[k0 n] d IH]; simpl; intros Hnd.
  - split_and!; [repeat constructor; set_solver | set_solver | set_solver].
  - apply NoDup_cons in Hnd as [Hk0 Hnd].
    destruct (string_eqb_spec k0 k) as [->|Hne]; simpl.
    + split_and!; [by constructor | set_solver | done].
    + destruct (IH Hnd) as (Hnd' & Hk & Hsub). split_and!.
      * constructor; [|done]. intros Hin.
        (* a key of [dict_incr k d] is [k] or a key of [d] *)
        assert (∀ k', k' ∈ fst <$> dict_incr k d → k' = k ∨ k' ∈ fst <$> d) as Hinv.
        { clear. induction d as [|[k1 m] d IH]; simpl; [set_solver|].
          case_str_eqb; simpl; set_solver. }
        destruct (Hinv k0 Hin); [congruence | done].
      * set_solver.
      * set_solver.
Qed.

Lemma dict_sum_incr k d : sum_list (snd <$> dict_incr k d) = S (sum_list (snd <$> d)).
Proof.
  induction d as [|[k0 n] d IH]; [done|]. cbn [dict_incr].
  case_str_eqb; rewrite !fmap_cons; cbn [sum_list snd]; [unfold id; lia | rewrite IH; unfold id; lia].
Qed.

Lemma dict_positive_incr k d :
  Forall (λ kn, 0 < kn.2) d → Forall (λ kn, 0 < kn.2) (dict_incr k d).
Proof.
  induction d as [|[k0 n] d IH]; simpl; intros H; [repeat constructor; simpl; lia|].
  apply Forall_cons in H as [H0 H]. case_str_eqb; constructor; simpl in *; auto with lia.
Qed.

Lemma index_step_inv cfg st f : state_inv st → state_inv (index_step cfg st f).
Proof.
  unfold index_step. destruct (accepted cfg f) as [ext|], (text f) as [t|]; try done.
  intros (Hn & Hs & Hnd & Hp). split_and!; simpl.
  - by rewrite Hn, fmap_app.
  - by rewrite dict_sum_incr, length_app, Hs; simpl; lia.
  - by apply dict_incr_keys.
  - by apply dict_positive_incr.
Qed.

Lemma foldl_inv cfg files st :
  state_inv st → state_inv (foldl (index_step cfg) st files).
Proof. revert st; induction files; simpl; auto using index_step_inv. Qed.

Lemma count_of_cons cfg ext f files :
  count_of cfg ext (f :: files) =
  (if bool_decide (accepted cfg f = Some ext) && bool_decide (is_Some (text f)) then 1 else 0)
  + count_of cfg ext files.
Proof. unfold count_of. simpl. by destruct (_ && _). Qed.

Lemma foldl_count cfg files st ext :
  dict_count ext (counts (foldl (index_step cfg) st files)) =
  dict_count ext (counts st) + count_of cfg ext files.
Proof.
  revert st; induction files as [|f files IH]; intros st; [simpl; unfold count_of; simpl; lia|].
  simpl. rewrite IH, count_of_cons. unfold index_step.
  destruct (accepted cfg f) as [ext'|] eqn:Ha, (text f) as [t|] eqn:Ht; simpl;
    rewrite ?dict_count_incr.
  - destruct (string_eqb_spec ext' ext) as [->|Hne];
      [rewrite bool_decide_eq_true_2 by done | rewrite bool_decide_eq_false_2 by congruence];
      simpl; lia.
  - rewrite andb_false_r. lia.
  - lia.
  - lia.
Qed.

Lemma foldl_docs_nil cfg files st :
  docs (foldl (index_step cfg) st files) = [] ↔
  docs st = [] ∧ Forall (λ f, indexed cfg f = false) files.
Proof.
  revert st; induction files as [|f files IH]; intros st; simpl.
  - split; [auto | tauto].
  - rewrite IH, Forall_cons.
    assert (indexed cfg f = match accepted cfg f, text f with
                            | Some _, Some _ => true | _, _ => false end) as Hi
      by (unfold indexed; by destruct (accepted cfg f), (text f)).
    rewrite Hi. unfold index_step.
    destruct (accepted cfg f), (text f); try tauto.
    split; [intros [H _] | intros (_ & H & _)]; [|done].
    apply app_eq_nil in H as [_ H]. done.
Qed.

Lemma dict_get_list_to_map d k :
  NoDup (fst <$> d) → (list_to_map d : gmap string nat) !! k = dict_get k d.
Proof.
  induction d as [|[k0 n] d IH]; simpl; intros Hnd; [done|].
  apply NoDup_cons in Hnd as [Hk0 Hnd].
  destruct (string_eqb_spec k0 k) as [->|Hne].
  - by rewrite lookup_insert_eq.
  - rewrite lookup_insert_ne by done. by apply IH.
Qed.

Lemma dict_get_count k d :
  Forall (λ kn, 0 < kn.2) d →
  dict_get k d = match dict_count k d with 0 => None | n => Some n end.
Proof.
  unfold dict_count. induction d as [|[k0 n] d IH]; simpl; intros Hp; [done|].
  apply Forall_cons in Hp as [Hn Hp]. simpl in Hn.
  case_str_eqb; [by destruct n; [lia|] | by apply IH].
Qed.

Lemma empty_state_inv : state_inv empty_state.
Proof. split_and!; simpl; done || constructor. Qed.

Lemma counts_map_lookup cfg files ext :
  counts_map cfg files !! ext = match count_of cfg ext files with 0 => None | n => Some n end.
Proof.
  unfold counts_map.
  destruct (foldl_inv cfg files empty_state empty_state_inv) as (_ & _ & Hnd & Hp).
  rewrite dict_get_list_to_map, dict_get_count by done. by rewrite foldl_count.
Qed.

Lemma count_of_perm cfg ext files1 files2 :
  files1 ≡ₚ files2 → count_of cfg ext files1 = count_of cfg ext files2.
Proof. induction 1; rewrite ?count_of_cons; lia. Qed.

Lemma foldl_docs cfg files st :
  docs (foldl (index_step cfg) st files) = docs st ++ omap (doc_of cfg) files.
Proof.
  revert st; induction files as [|f files IH]; intros st; simpl; [by rewrite app_nil_r|].
  rewrite IH. unfold index_step, doc_of.
  destruct (accepted cfg f), (text f); simpl; by rewrite <- ?app_assoc.
Qed.

Lemma load_index_none {I} (build : list Document → I) cfg files :
  Forall (λ f, indexed cfg f = false) files →
  ∃ counts names, load_and_index_files build cfg files = (None, [], counts, names).
Proof.
  intros Hf. unfold load_and_index_files.
  pose proof (proj2 (foldl_docs_nil cfg files empty_state) (conj eq_refl Hf)) as ->.
  by eexists _, _.
Qed.

(** A non-null index is built from exactly the documents returned. *)
Lemma load_index_build {I} (build : list Document → I) cfg files ix ds cs ns :
  load_and_index_files build cfg files = (Some ix, ds, cs, ns) → ix = build ds.
Proof.
  unfold load_and_index_files. intros H. repeat case_match; by simplify_eq.
Qed.

(** The counts read as a map do not see the order of the files. *)
#[export] Instance counts_map_proper cfg : Proper ((≡ₚ) ==> (=)) (counts_map cfg).
Proof.
  intros files1 files2 Hp. apply map_eq. intros ext.
  by rewrite !counts_map_lookup, (count_of_perm cfg ext files1 files2 Hp).
Qed.

(** ** Theorems *)

(** C27 The counts of [file_type_counts] add up to the number of indexed
    documents, and [filenames] lists the documents' paths in order. *)
Theorem load_counts_sum {I} (build : list Document → I) cfg files :
  let '(_, docs, counts, filenames) := load_and_index_files build cfg files in
  sum_list (snd <$> counts) = length docs ∧ filenames = source <$> docs.
Proof.
  unfold load_and_index_files.
  destruct (foldl_inv cfg files empty_state empty_state_inv) as (Hn & Hs & _). done.
Qed.

(** C29 [file_type_counts] refines the map from extension to number of
    indexed files: as a [gmap] (its keys are distinct), it maps each
    extension to the number of files indexed under it, and has no key
    for an extension with no such file. *)
Theorem load_counts_refine {I} (build : list Document → I) cfg files ext :
  let '(_, _, counts, _) := load_and_index_files build cfg files in
  NoDup (fst <$> counts) ∧
  (list_to_map counts : gmap string nat) !! ext =
    match count_of cfg ext files with 0 => None | n => Some n end.
Proof.
  unfold load_and_index_files.
  destruct (foldl_inv cfg files empty_state empty_state_inv) as (_ & _ & Hnd & _).
  split; [done|]. apply counts_map_lookup.
Qed.

(** C28 The index is [None] exactly when no file qualifies: every file
    has an extension outside the allow-list, exceeds the ceiling, or does
    not decode. *)
Theorem load_index_none_iff {I} (build : list Document → I) cfg files :
  let '(index, _, _, _) := load_and_index_files build cfg files in
  index = None ↔ Forall (λ f, indexed cfg f = false) files.
Proof.
  unfold load_and_index_files. pose proof (foldl_docs_nil cfg files empty_state) as H.
  revert H. generalize (foldl (index_step cfg) empty_state files) as st. intros st H.
  destruct (docs st) as [|d ds]; simpl.
  - split; [intros _; by apply H | done].
  - split; [done|]. intros Hf. by assert (d :: ds = []) by (apply H; done).
Qed.

(** C30 The result does not depend on the order in which the walk yields
    the files ([os.walk] fixes none): permuting the files permutes the
    documents and the file names, and gives the same counts read as a
    map. *)
Theorem load_order_independent {I} (build : list Document → I) cfg files1 files2 :
  files1 ≡ₚ files2 →
  let '(_, docs1, counts1, names1) := load_and_index_files build cfg files1 in
  let '(_, docs2, counts2, names2) := load_and_index_files build cfg files2 in
  docs1 ≡ₚ docs2 ∧ names1 ≡ₚ names2 ∧
  (list_to_map counts1 : gmap string nat) = list_to_map counts2.
Proof.
  intros Hp. unfold load_and_index_files.
  destruct (foldl_inv cfg files1 empty_state empty_state_inv) as (->&_),
    (foldl_inv cfg files2 empty_state empty_state_inv) as (->&_).
  rewrite !foldl_docs. simpl. split_and!; [by rewrite Hp | by rewrite Hp |].
  change (counts_map cfg files1 = counts_map cfg files2). by rewrite Hp.
Qed.

Lemma load_order_independent_witness :
  let files1 := [mkSourceFile "a.md" 3 (Some "one"); mkSourceFile "b.py" 3 (Some "two");
                 mkSourceFile "c.md" 5 (Some "three")] in
  let files2 := [mkSourceFile "c.md" 5 (Some "three"); mkSourceFile "a.md" 3 (Some "one");
                 mkSourceFile "b.py" 3 (Some "two")] in
  let cfg := mkIndexConfig ["md"; "py"] 100 in
  files1 ≡ₚ files2 ∧
  let '(_, docs1, counts1, names1) := load_and_index_files (λ ds, ds) cfg files1 in
  let '(_, docs2, counts2, names2) := load_and_index_files (λ ds, ds) cfg files2 in
  docs1 ≡ₚ docs2 ∧ names1 ≡ₚ names2 ∧
  (list_to_map counts1 : gmap string nat) = list_to_map counts2.
Proof.
  intros files1 files2 cfg.
  assert (files1 ≡ₚ files2) as Hp by (unfold files1, files2; solve_Permutation).
  split; [exact Hp | exact (load_order_independent (λ ds, ds) cfg files1 files2 Hp)].
Defined.

End Indexer.
