(* ===== verification/Retrieval.v ===== *)
(** Retrieval, the similarity index of [file_processing] queried by
    [questions.ask_question].  The index is a library the sources only
    call; spec.md section 4.2 fixes its policy (the top-K documents by
    similarity, no threshold, no re-ranking, no deduplication) and
    section 9 its interface (two operations, [build] and [query]).
    [Retriever] is that interface, [TopK] the contract that a query
    returns [min k n] of the documents, and none of the documents left
    out scores higher than one returned; the answerer's theorems are
    proved against the contract.  [SortIndex] is a reference
    implementation (sort by score, keep the first [k]) and
    [sort_index_topk] proves that it meets the contract. *)

From S2P Require Import Prelude Services.
From Stdlib Require Import ZArith Sorted.
Import Svc.

Module Retrieval.

(** The similarity of a document to a question. *)
Definition Score : Type := string → Document → Z.

(** The capability of spec.md section 9:
    [build(documents) -> Index] and [query(Index, text, k)]. *)
Class Retriever (Ix : Type) := {
  build : list Document → Ix;
  query : Ix → string → nat → list Document;
}.

(** [query] returns the top [k] documents of those the index was built
    from: [min k n] of them (a sub-multiset), and no document left out
    scores higher than a document returned. *)
Definition topk_result (score : Score) (ds : list Document) (q : string) (k : nat)
    (res : list Document) : Prop :=
  length res = min k (length ds) ∧
  ∃ rest, ds ≡ₚ res ++ rest ∧
          ∀ d d', d ∈ res → d' ∈ rest → (score q d' <= score q d)%Z.

Class TopK (score : Score) (Ix : Type) `{!Retriever Ix} :=
  query_topk : ∀ ds q k, topk_result score ds q k (query (build ds) q k).

(** ** The reference index: sort by decreasing score *)

Fixpoint insert_desc (f : Document → Z) (d : Document) (l : list Document) : list Document :=
  match l with
  | [] => [d]
  | d' :: l' => if bool_decide (f d' < f d)%Z then d :: l else d' :: insert_desc f d l'
  end.

Fixpoint sort_desc (f : Document → Z) (l : list Document) : list Document :=
  match l with
  | [] => []
  | d :: l' => insert_desc f d (sort_desc f l')
  end.

Definition ge_score (f : Document → Z) (a b : Document) : Prop := (f b <= f a)%Z.

(** The reference index keeps the documents; a query sorts them by
    decreasing score and keeps the first [k]. *)
Record SortIndex := mkSortIndex { stored : list Document }.

Definition sort_retriever (score : Score) : Retriever SortIndex := {|
  build ds := mkSortIndex ds;
  query ix q k := take k (sort_desc (score q) (stored ix));
|}.

(** ** Sorting *)

Section Sort.
Context (f : Document → Z).

Lemma insert_desc_perm d l : insert_desc f d l ≡ₚ d :: l.
Proof.
  induction l as [|d' l IH]; simpl; [done|].
  case_bool_decide; [done|]. rewrite IH. apply Permutation_swap.
Qed.

Lemma sort_desc_perm l : sort_desc f l ≡ₚ l.
Proof. induction l as [|d l IH]; simpl; [done|]. by rewrite insert_desc_perm, IH. Qed.

Lemma insert_desc_sorted d l :
  StronglySorted (ge_score f) l → StronglySorted (ge_score f) (insert_desc f d l).
Proof.
  induction l as [|d' l IH]; simpl; intros Hs; [repeat constructor|].
  apply StronglySorted_inv in Hs as [Hs Hall].
  case_bool_decide as Hlt.
  - constructor; [by constructor|]. constructor; [unfold ge_score; lia|].
    eapply Forall_impl; [done|]. unfold ge_score. intros x. lia.
  - constructor; [by apply IH|]. apply Forall_forall. intros x Hx.
    apply (elem_of_Permutation_proper _ _ _ (insert_desc_perm d l)),
      list_elem_of_In, in_inv in Hx as [<-|Hx]; [unfold ge_score; lia|].
    rewrite Forall_forall in Hall. by apply Hall, list_elem_of_In.
Qed.

Lemma sort_desc_sorted l : StronglySorted (ge_score f) (sort_desc f l).
Proof. induction l; simpl; [constructor | by apply insert_desc_sorted]. Qed.

End Sort.

Lemma StronglySorted_app_rel {A} (R : A → A → Prop) l1 l2 x y :
  StronglySorted R (l1 ++ l2) → x ∈ l1 → y ∈ l2 → R x y.
Proof.
  induction l1 as [|z l1 IH]; simpl; intros Hs Hx Hy; [set_solver|].
  apply StronglySorted_inv in Hs as [Hs Hall].
  apply elem_of_cons in Hx as [->|Hx]; [|by apply IH].
  rewrite Forall_forall in Hall. apply Hall, list_elem_of_In, in_or_app. right.
  by apply list_elem_of_In.
Qed.

(** ** The contract's consequences for a client *)

Section Contract.
Context (score : Score) (ds : list Document) (q : string) (k : nat) (res : list Document).
Hypothesis Hres : topk_result score ds q k res.

Lemma topk_length : length res = min k (length ds).
Proof. apply Hres. Qed.

Lemma topk_elem d : d ∈ res → d ∈ ds.
Proof.
  destruct Hres as (_ & rest & Hp & _). intros Hd.
  rewrite Hp. apply elem_of_app. by left.
Qed.

Lemma topk_submseteq : res ⊆+ ds.
Proof. destruct Hres as (_ & rest & Hp & _). rewrite Hp. apply submseteq_inserts_r. done. Qed.

End Contract.

(** Sorting by decreasing score and keeping the first [k] documents
    gives the top [k]. *)
Lemma sort_desc_topk (score : Score) ds q k :
  topk_result score ds q k (take k (sort_desc (score q) ds)).
Proof.
  set (s := sort_desc (score q) ds).
  assert (s ≡ₚ ds) as Hs by apply sort_desc_perm.
  split; [by rewrite length_take, Hs|].
  exists (drop k s). split; [by rewrite take_drop, Hs|].
  intros d d' Hd Hd'. apply (StronglySorted_app_rel (ge_score (score q)) (take k s) (drop k s));
    [rewrite take_drop; apply sort_desc_sorted | done | done].
Qed.

(** ** Theorems *)

(** Refinement: the reference index meets the top-K contract of
    spec.md section 4.2: a query for [k] documents returns [min k n] of
    the [n] indexed documents, as a sub-multiset, and every document
    left out scores at most as high as every document returned. *)
Theorem sort_index_topk score : @TopK score SortIndex (sort_retriever score).
Proof. intros ds q k. apply sort_desc_topk. Qed.


(** Three documents scored by the length of their text: the two longest
    come back, longest first. *)
Example sort_index_example :
  let score (_ : string) (d : Document) := Z.of_nat (String.length (page_content d)) in
  @query _ (sort_retriever score)
    (@build _ (sort_retriever score)
       [mkDocument "ab" "a.md"; mkDocument "abcd" "b.md"; mkDocument "abc" "c.md"]) "q" 2 =
  [mkDocument "abcd" "b.md"; mkDocument "abc" "c.md"].
Proof. reflexivity. Qed.

End Retrieval.
