(* ===== verification/Answerer.v ===== *)
(** The question answerer, [questions.ask_question(question, context)].
    [questions.py] is not under [src/]; the model follows spec.md
    section 4.3: query the index for the top [K] documents, number them
    into one block, render the template of the context's [LLMChain]
    with the repository name, URL, numbered block, file-type counts,
    file names and question, send the rendered prompt, prefixed with the
    context's conversation history, to the model with the chain's
    [ChatOpenAI] parameters, and return the completion verbatim; an
    error of the model is raised to the caller.  The index is any
    [Retrieval.Retriever]; the theorems assume only its top-K contract.
    The model is a function of the answerer's state. *)

From S2P Require Import Prelude PyRuntime PyString Services Template Retrieval.
From stdpp Require Import pretty.
From Stdlib Require Import ZArith QArith.
Local Close Scope Q_scope.
Import Py Svc Retrieval.

Module Answerer.

(** ** Python's [repr] of the values substituted into the prompt *)

Definition dq : ascii := "034".
Definition sq : ascii := "'".
Definition bs : ascii := "092".

(** The body of a string literal delimited by [quote]: backslashes and
    the delimiter are escaped, and so are the three usual control
    characters. *)
Fixpoint repr_body (quote : ascii) (s : string) : string :=
  match s with
  | EmptyString => ""
  | String c s' =>
      (if Ascii.eqb c bs then String bs (String bs "")
       else if Ascii.eqb c quote then String bs (String c "")
       else if Ascii.eqb c "010" then String bs "n"
       else if Ascii.eqb c "009" then String bs "t"
       else if Ascii.eqb c "013" then String bs "r"
       else String c "") +:+ repr_body quote s'
  end.

(** [repr(s)]: single quotes, unless [s] has a single quote and no
    double quote. *)
Definition py_repr_str (s : string) : string :=
  let quote := if str_mem sq s && negb (str_mem dq s) then dq else sq in
  String quote (repr_body quote s +:+ String quote "").

Fixpoint join_sep (sep : string) (l : list string) : string :=
  match l with
  | [] => ""
  | [w] => w
  | w :: ws => w +:+ sep +:+ join_sep sep ws
  end.

(** [repr] of a list of strings and of the dict of counts. *)
Definition py_repr_list (l : list string) : string :=
  "[" +:+ join_sep ", " (py_repr_str <$> l) +:+ "]".

Definition py_repr_counts (d : FileTypeCounts) : string :=
  "{" +:+ join_sep ", " ((λ kn, py_repr_str kn.1 +:+ ": " +:+ pretty kn.2) <$> d) +:+ "}".

(** ** The numbered context block *)

Definition number_document (i : nat) (d : Document) : string :=
  pretty i +:+ ". " +:+ page_content d.

(** The documents labelled [1], [2], ..., one per line. *)
Definition numbered_block (ds : list Document) : string :=
  join_sep nl (imap (λ i d, number_document (S i) d) ds).

(** The keyword arguments of the chain, in [input_variables] order. *)
Definition prompt_kw {I} (question numbered : string) (ctx : QuestionContext I)
    : list (string * string) :=
  [("repo_name", repo_name ctx); ("github_url", github_url ctx);
   ("numbered_documents", numbered); ("question", question);
   ("file_type_counts", py_repr_counts (file_type_counts ctx));
   ("filenames", py_repr_list (filenames ctx))].

Section Ask.
Context {Ix : Type} `{!Retriever Ix} (K : nat) {L : Type}
  (complete : ChatOpenAI → string → L → PyResult string * L).

Definition ask_question (question : string) (ctx : QuestionContext Ix) (l : L)
    : PyResult string * L :=
  let docs := query (index ctx) question K in
  let chain := llm_chain ctx in
  match Tmpl.format (template (prompt chain))
          (prompt_kw question (numbered_block docs) ctx) with
  | Err e => (Err e, l)
  | Ok p => complete (llm chain) (conversation_history ctx +:+ p) l
  end.

End Ask.

(** A context as [main.py] builds it, over the reference index scored
    by text length, and a model that echoes its prompt. *)
Definition witness_score : Score := λ _ d, Z.of_nat (String.length (page_content d)).

Definition witness_docs : list Document :=
  [mkDocument "Hello world" "readme.md"; mkDocument "print(1)" "main.py"].

Definition witness_ctx : QuestionContext SortIndex :=
  mkQuestionContext (mkSortIndex witness_docs) witness_docs
    (mkLLMChain (mkPromptTemplate Tmpl.template Tmpl.input_variables)
       (mkChatOpenAI None "gpt-3.5-turbo" (2 # 10)))
    "gpt-3.5-turbo" "hello" "https://github.com/octo/hello" "" [("md", 1); ("py", 1)]
    ["readme.md"; "main.py"].

Definition echo (_ : ChatOpenAI) (p : string) (_ : unit) : PyResult string * unit := (Ok p, tt).

(** ** Lemmas *)

Lemma join_sep_infix sep l w : w ∈ l → str_infix w (join_sep sep l).
Proof.
  induction l as [|w0 [|w1 l] IH]; intros Hw; [set_solver| |].
  - apply list_elem_of_singleton in Hw as ->. apply str_infix_refl.
  - apply elem_of_cons in Hw as [->|Hw]; cbn [join_sep].
    + apply str_infix_app_r, str_infix_refl.
    + by apply str_infix_app_l, str_infix_app_l, IH.
Qed.

Lemma numbered_block_infix ds i d :
  ds !! i = Some d → str_infix (number_document (S i) d) (numbered_block ds).
Proof.
  intros Hd. apply join_sep_infix, list_elem_of_lookup.
  exists i. by rewrite list_lookup_imap, Hd.
Qed.

Lemma prompt_kw_bound {I} q nb (ctx : QuestionContext I) n :
  n ∈ Tmpl.input_variables → is_Some (Tmpl.kw_lookup n (prompt_kw q nb ctx)).
Proof.
  unfold Tmpl.input_variables. intros Hn.
  repeat (apply elem_of_cons in Hn as [->|Hn]; [done|]). set_solver.
Qed.

(** ** Theorems *)

Section Contract.
Context {Ix : Type} `{!Retriever Ix} (score : Score) (K : nat) {L : Type}
  (complete : ChatOpenAI → string → L → PyResult string * L).

(** The contract [ask_question] meets. *)
Lemma ask_question_contract `{!TopK score Ix} question ctx l :
  template (prompt (llm_chain ctx)) = Tmpl.template →
  index ctx = build (documents ctx) →
  ∃ docs p,
    topk_result score (documents ctx) question K docs ∧
    Tmpl.format Tmpl.template (prompt_kw question (numbered_block docs) ctx) = Ok p ∧
    ask_question K complete question ctx l =
      complete (llm (llm_chain ctx)) (conversation_history ctx +:+ p) l ∧
    str_infix question p ∧ str_infix (repo_name ctx) p ∧
    ∀ i d, docs !! i = Some d → str_infix (number_document (S i) d) p.
Proof.
  intros Ht Hi. set (docs := query (index ctx) question K).
  assert (topk_result score (documents ctx) question K docs) as Htop
    by (subst docs; rewrite Hi; apply query_topk).
  destruct (Tmpl.format_template_ok (prompt_kw question (numbered_block docs) ctx))
    as (p & Hp & Hin); [apply prompt_kw_bound|].
  exists docs, p. split_and!; [done | done | | | |].
  - unfold ask_question. rewrite Ht. subst docs. by rewrite Hp.
  - apply (Hin "question" question); [by do 3 right; left | reflexivity].
  - apply (Hin "repo_name" (repo_name ctx)); [by left | reflexivity].
  - intros i d Hd. eapply str_infix_trans; [by apply numbered_block_infix|].
    apply (Hin "numbered_documents" (numbered_block docs)); [by do 2 right; left | reflexivity].
Qed.

(** C8 [ask_question] against any index meeting the top-K contract,
    with the context [main.py] builds (the template of lines 29-45, the
    index built from the documents): it retrieves the top [K] documents
    ([min K n] of the [n] documents), renders the template, which
    succeeds, sends the conversation history followed by the rendered
    prompt to the model with the chain's parameters, and returns the
    model's result verbatim, an error included.  The prompt contains the
    question, the repository name and each retrieved document with its
    label [1], [2], .... *)
Theorem ask_question_spec `{!TopK score Ix} question ctx l :
  template (prompt (llm_chain ctx)) = Tmpl.template →
  index ctx = build (documents ctx) →
  ∃ docs p,
    topk_result score (documents ctx) question K docs ∧
    Tmpl.format Tmpl.template (prompt_kw question (numbered_block docs) ctx) = Ok p ∧
    ask_question K complete question ctx l =
      complete (llm (llm_chain ctx)) (conversation_history ctx +:+ p) l ∧
    str_infix question p ∧ str_infix (repo_name ctx) p ∧
    ∀ i d, docs !! i = Some d → str_infix (number_document (S i) d) p.
Proof. apply ask_question_contract. Qed.

End Contract.

Lemma ask_question_spec_witness :
  template (prompt (llm_chain witness_ctx)) = Tmpl.template ∧
  index witness_ctx = @build _ (sort_retriever witness_score) (documents witness_ctx) ∧
  ∃ docs p,
    topk_result witness_score (documents witness_ctx) "What is it?" 1 docs ∧
    Tmpl.format Tmpl.template (prompt_kw "What is it?" (numbered_block docs) witness_ctx) = Ok p ∧
    @ask_question _ (sort_retriever witness_score) 1 _ echo "What is it?" witness_ctx tt =
      echo (llm (llm_chain witness_ctx)) (conversation_history witness_ctx +:+ p) tt ∧
    str_infix "What is it?" p ∧ str_infix (repo_name witness_ctx) p ∧
    ∀ i d, docs !! i = Some d → str_infix (number_document (S i) d) p.
Proof.
  split; [reflexivity|]. split; [reflexivity|].
  apply (@ask_question_spec SortIndex (sort_retriever witness_score) witness_score 1 unit echo
           (sort_desc_topk witness_score)); reflexivity.
Defined.

End Answerer.
