(* ===== verification/EndToEnd.v ===== *)
(** The whole program: [main()] of [src/main.py] run against concrete
    services built from the models of the imported modules.  The
    services' state holds the repositories the clone tool resolves, the
    directories cloned so far, the counter of temporary directories, the
    prompts sent to the model and the model's next responses.  The
    clone copies the repository's files under the directory
    ([file_processing.clone_github_repo], spec.md section 4.1), the
    loader is [Indexer.load_and_index_files] with the reference index
    of [Retrieval], [utils.format_user_question] strips surrounding
    whitespace, and [ask_question] is [Answerer.ask_question] over a
    model that records each prompt and returns its next response.  The
    scenario of spec.md section 8 is proved for every repository of one
    qualifying file (the spec's [readme.md] holding "Hello world" is its
    instance), the abort on a repository without qualifying files for
    every such repository, and for every run the prompts the model receives are shown free of the
    conversation history, the contexts handed to the answerer well
    formed, and each prompt an instance of the answerer's top-K
    contract. *)

From S2P Require Import Prelude PyRuntime PyString Services Template Indexer Retrieval Answerer Session SessionRuns.
From stdpp Require Import pretty.
From Stdlib Require Import ZArith.
Import Py Svc Retrieval.

Module EndToEnd.

(** ** [utils.format_user_question]: [str.strip()] on ASCII whitespace *)

Definition is_space (c : ascii) : bool :=
  bool_decide (c ∈ ["032"; "009"; "010"; "011"; "012"; "013"]%char).

Fixpoint lstrip (s : string) : string :=
  match s with
  | EmptyString => EmptyString
  | String c s' => if is_space c then lstrip s' else s
  end.

Fixpoint rev_app (s acc : string) : string :=
  match s with
  | EmptyString => acc
  | String c s' => rev_app s' (String c acc)
  end.

Definition rstrip (s : string) : string := rev_app (lstrip (rev_app s "")) "".

Definition format_user_question (q : string) : string := rstrip (lstrip q).

(** ** The similarity used by the reference index

    The number of words of the question that occur in the document. *)
Definition contains (s w : string) : bool :=
  match String.index 0 w s with Some _ => true | None => false end.

Definition word_overlap : Score := λ q d,
  Z.of_nat (length (List.filter (contains (page_content d)) (Str.split " " q))).

(** ** The services' state *)

Record Ext := mkExt {
  remote : list (string * list Indexer.SourceFile);
  disk : list (string * list Indexer.SourceFile);
  next_tmp : nat;
  sent : list (ChatOpenAI * string);
  replies : list (PyResult string);
}.

Fixpoint assoc {A} (k : string) (l : list (string * A)) : option A :=
  match l with
  | [] => None
  | (k', v) :: l' => if k' =?ₛ k then Some v else assoc k l'
  end.

Section Services.
Context (K : nat) (idx_cfg : Indexer.IndexConfig).

Local Instance sort_index : Retriever SortIndex := sort_retriever word_overlap.

Definition ext_mkdtemp (st : Ext) : string * Ext :=
  ("/tmp/tmp" +:+ pretty (next_tmp st),
   mkExt (remote st) (disk st) (S (next_tmp st)) (sent st) (replies st)).

Definition ext_clone (github_url local_path : string) (st : Ext) : PyResult bool * Ext :=
  match assoc github_url (remote st) with
  | Some fs => (Ok true, mkExt (remote st) ((local_path, fs) :: disk st) (next_tmp st)
                               (sent st) (replies st))
  | None => (Ok false, st)
  end.

Definition ext_load (local_path : string) (st : Ext) : PyResult (Loaded SortIndex) * Ext :=
  (Ok (Indexer.load_and_index_files build idx_cfg (default [] (assoc local_path (disk st)))), st).

(** The model: it records the prompt and gives its next response, or a
    connection error when it has none left. *)
Definition ext_complete (llm : ChatOpenAI) (p : string) (st : Ext) : PyResult string * Ext :=
  let st' r := mkExt (remote st) (disk st) (next_tmp st) (sent st ++ [(llm, p)]) r in
  match replies st with
  | r :: rs => (r, st' rs)
  | [] => (Err SessionRuns.connection_error, st' [])
  end.

Definition services : Services SortIndex Ext :=
  mkServices ext_mkdtemp ext_clone ext_load (λ _ st, (Ok tt, st)) format_user_question
    (Answerer.ask_question K ext_complete).

End Services.

(** The prompt [ask_question] renders for [q] on [ctx]. *)
Definition prompt_of (K : nat) (q : string) (ctx : QuestionContext SortIndex) : PyResult string :=
  Tmpl.format (template (prompt (llm_chain ctx)))
    (Answerer.prompt_kw q (Answerer.numbered_block
       (@query _ sort_index (index ctx) q K)) ctx).

(** A prompt rendered for a question and a context as [main()] builds
    it. *)
Definition rendered (K : nat) (key : option string) (p : string) : Prop :=
  ∃ q ctx, Session.main_ctx key ctx ∧ prompt_of K q ctx = Ok p.

(** What the loader of these services returns: the indexer's result on
    the files of a directory. *)
Definition from_indexer (idx : Indexer.IndexConfig) (l : Loaded SortIndex) : Prop :=
  ∃ files, l = Indexer.load_and_index_files (@build _ sort_index) idx files.

(** A prompt of the answerer on a context built from the indexer's
    result: the template rendered for a question [q], that context and
    the top [K] documents of the context for [q], numbered; it holds the
    question, the repository name and each of those documents under its
    number. *)
Definition topk_prompt (K : nat) (idx : Indexer.IndexConfig) (key : option string)
    (p : string) : Prop :=
  ∃ q ctx docs, Session.main_ctx key ctx ∧ from_indexer idx (Session.ctx_loaded ctx) ∧
    topk_result word_overlap (documents ctx) q K docs ∧
    Tmpl.format Tmpl.template (Answerer.prompt_kw q (Answerer.numbered_block docs) ctx) = Ok p ∧
    str_infix q p ∧ str_infix (repo_name ctx) p ∧
    ∀ i d, docs !! i = Some d → str_infix (Answerer.number_document (S i) d) p.

(** One service call as seen from the model: no prompt, or one prompt
    satisfying [Pp], sent with the parameters of line 27. *)
Definition sent_by (key : option string) (Pp : string → Prop) (s s' : Ext) : Prop :=
  sent s' = sent s ∨ ∃ p, Pp p ∧ sent s' = sent s ++ [(Session.llm_params key, p)].

(** ** The scenario of spec.md section 8 *)

Definition scenario_url : string := "https://github.com/octo/hello".

(** The allow-list and ceiling of the scenario's configuration. *)
Definition scenario_cfg : Indexer.IndexConfig :=
  Indexer.mkIndexConfig ["py"; "md"; "txt"; "js"; "java"; "c"; "cpp"; "go"; "rs"] 4096.

Definition readme : Indexer.SourceFile := Indexer.mkSourceFile "readme.md" 11 (Some "Hello world").

Definition readme_doc : Document := mkDocument "Hello world" "readme.md".

Definition scenario_question : string := "What does this repo contain?".

(** The user types the URL, the question with stray spaces, then the
    sentinel; the model has one response. *)
Definition scenario_world (reply : string) : World Ext (Call SortIndex) :=
  mkWorld [Line scenario_url; Line ("  " +:+ scenario_question +:+ " "); Line "exit()"] []
    (mkExt [(scenario_url, [readme])] [] 0 [] [Ok reply]).

Definition scenario_run (reply : string) :=
  Session.main (services 3 scenario_cfg) SessionRuns.demo_cfg None 4 (scenario_world reply).

(** A repository holding only an image over the ceiling. *)
Definition logo : Indexer.SourceFile := Indexer.mkSourceFile "logo.png" 2048 None.

(** ** Lemmas *)

Lemma sent_steps key Pp s s' :
  rtc (sent_by key Pp) s s' →
  ∃ new, sent s' = sent s ++ new ∧ Forall (λ x, x.1 = Session.llm_params key ∧ Pp x.2) new.
Proof.
  induction 1 as [s|s1 s2 s3 Hs _ (new & Hnew & Hall)].
  - exists []. by rewrite app_nil_r.
  - destruct Hs as [Hs|(p & Hp & Hs)].
    + exists new. by rewrite Hnew, Hs.
    + exists ((Session.llm_params key, p) :: new). rewrite Hnew, Hs, <- app_assoc.
      split; [done|]. by constructor.
Qed.

(** The services other than the answerer send no prompt. *)
Lemma services_quiet K idx key Pp :
  (∀ s, sent_by key Pp s (snd (mkdtemp (services K idx) s))) ∧
  (∀ u p s, sent_by key Pp s (snd (clone_github_repo (services K idx) u p s))) ∧
  (∀ p s, sent_by key Pp s (snd (load_and_index_files (services K idx) p s))) ∧
  (∀ s, sent_by key Pp s (snd (chat_openai (services K idx) (Session.llm_params key) s))).
Proof.
  split_and!; intros; try by left.
  cbn. unfold ext_clone. case_match; by left.
Qed.

Lemma ask_sent_step K idx key q ctx s :
  Session.main_ctx key ctx → sent_by key (rendered K key) s (snd (ask_question (services K idx) q ctx s)).
Proof.
  intros Hctx. pose proof Hctx as [Hh Hc]. cbn [ask_question services].
  unfold Answerer.ask_question. fold (prompt_of K q ctx).
  destruct (prompt_of K q ctx) as [p|e] eqn:Hp; [|by left].
  right. exists p. split; [by exists q, ctx|].
  unfold ext_complete. rewrite Hc, Hh. by destruct (replies s).
Qed.

Lemma ext_load_from_indexer K idx p s l s' :
  load_and_index_files (services K idx) p s = (Ok l, s') → from_indexer idx l.
Proof. cbn. intros [= <- _]. by eexists. Qed.

Lemma from_indexer_index idx ctx :
  from_indexer idx (Session.ctx_loaded ctx) → index ctx = @build _ sort_index (documents ctx).
Proof. intros [files Hf]. symmetry in Hf. by apply Indexer.load_index_build in Hf. Qed.

(** The answerer on a context built from the indexer's result sends a
    prompt that meets its contract. *)
Lemma ask_sent_topk K idx key q ctx s :
  Session.main_ctx key ctx → from_indexer idx (Session.ctx_loaded ctx) →
  sent_by key (topk_prompt K idx key) s (snd (ask_question (services K idx) q ctx s)).
Proof.
  intros Hctx Hl. pose proof Hctx as [Hh Hc]. pose proof (sort_index_topk word_overlap) as Htop.
  destruct (@Answerer.ask_question_contract _ sort_index word_overlap K _ ext_complete Htop q ctx s)
    as (docs & p & Hdocs & Hf & Hask & Hq & Hn & Hd);
    [by rewrite Hc | by apply (from_indexer_index idx) |].
  cbn [ask_question services]. rewrite Hask. right. exists p.
  split; [exists q, ctx, docs; by split_and! |].
  unfold ext_complete. rewrite Hc, Hh. by destruct (replies s).
Qed.

(** ** Theorems *)

(** C5 The conversation history never reaches the model: in every run
    of [main()] with these services, each prompt the model receives is
    exactly the template rendered for the question and a context as
    [main()] builds it (empty history), with the model parameters of
    line 27, and nothing is prefixed to it. *)
Theorem model_never_sees_history K idx cfg key fuel w o w' :
  Session.main (services K idx) cfg key fuel w = (o, w') →
  ∃ new, sent (ext w') = sent (ext w) ++ new ∧
         Forall (λ x, x.1 = Session.llm_params key ∧
                      ∃ q ctx, Session.main_ctx key ctx ∧ prompt_of K q ctx = Ok x.2) new.
Proof.
  intros E. apply (sent_steps key (rendered K key)).
  destruct (services_quiet K idx key (rendered K key)) as (Hmk & Hcl & Hld & Hllm).
  refine (Session.main_rely (services K idx) cfg key _ Hmk Hcl Hld Hllm _ fuel w o w' E).
  intros q ctx s. apply ask_sent_step.
Qed.

(** C12 The contexts [main()] hands to the answerer are well formed for
    it: in every run of [main()] with these services, each call to
    [ask_question] receives a context with the template and model
    parameters of lines 27-59 and an empty history, whose index,
    documents, counts and file names are one result of the indexer
    (line 21), so that the index is built from exactly the context's
    documents. *)
Theorem main_contexts_wf K idx cfg key fuel w o w' :
  Session.main (services K idx) cfg key fuel w = (o, w') →
  ∃ t, trace w' = trace w ++ t ∧
    ∀ q c r, EvCall (CallAsk q c r) ∈ t →
      Session.main_ctx key c ∧ from_indexer idx (Session.ctx_loaded c) ∧
      index c = @build _ sort_index (documents c).
Proof.
  intros E.
  destruct (Session.main_asks_loaded (services K idx) cfg key (from_indexer idx) fuel
              (ext_load_from_indexer K idx) _ _ _ E) as (t & Ht & Hall).
  exists t. split; [done|]. intros q c r Hin. rewrite Forall_forall in Hall.
  destruct (Hall _ Hin q c r eq_refl) as [Hc Hl]. split_and!; [done | done |].
  by apply (from_indexer_index idx).
Qed.

(** C10 Composition of [main()] with the answerer's contract: in every
    run with these services, each prompt the model receives is sent
    with the parameters of line 27 and is the template rendered for
    some question [q], a context of [main()] built from the indexer's
    result for the clone, and the top [K] documents of that context by
    similarity to [q]; so it holds [q], the repository name and those
    documents numbered [1], [2], .... *)
Theorem model_prompts_top_k K idx cfg key fuel w o w' :
  Session.main (services K idx) cfg key fuel w = (o, w') →
  ∃ new, sent (ext w') = sent (ext w) ++ new ∧
         Forall (λ x, x.1 = Session.llm_params key ∧ topk_prompt K idx key x.2) new.
Proof.
  intros E. apply sent_steps.
  destruct (services_quiet K idx key (topk_prompt K idx key)) as (Hmk & Hcl & Hld & Hllm).
  refine (Session.main_rely_loaded (services K idx) cfg key _ Hmk Hcl Hld Hllm
            (from_indexer idx) fuel (ext_load_from_indexer K idx) _ w o w' E).
  intros q ctx s. apply ask_sent_topk.
Qed.

(** C7 Spec.md section 8, first property, for every run: when no file of
    the repository passes the allow-list, the size ceiling and
    decoding, [main()] prints the message and ends by [SystemExit]
    before any question: no call to the answerer, no prompt to the
    model, and the rest of standard input unread. *)
Theorem no_qualifying_files_abort K idx dcfg key fuel w url rest files :
  stdin w = Line url :: rest →
  assoc url (remote (ext w)) = Some files →
  Forall (λ f, Indexer.indexed idx f = false) files →
  ∃ w' t, Session.main (services K idx) dcfg key fuel w = (Raise system_exit, w') ∧
          stdin w' = rest ∧ trace w' = trace w ++ t ∧ sent (ext w') = sent (ext w) ∧
          EvPrint "No documents were found to index. Exiting." ∈ t ∧
          ∀ q c r, EvCall (CallAsk q c r) ∉ t.
Proof.
  intros Hs Hurl Hf.
  destruct (Indexer.load_index_none (@build _ sort_index) idx files Hf) as (counts & names & Hld).
  set (e := ext w) in *. set (p := "/tmp/tmp" +:+ pretty (next_tmp e)).
  set (s1 := mkExt (remote e) (disk e) (S (next_tmp e)) (sent e) (replies e)).
  set (s2 := mkExt (remote e) ((p, files) :: disk e) (S (next_tmp e)) (sent e) (replies e)).
  rewrite (Session.main_no_index_run (services K idx) dcfg key fuel w url rest p s1 s2 s2 []
             counts names Hs); [| reflexivity | | ].
  - eexists _, _. split_and!; [reflexivity | done | done | done | by do 5 right; left |].
    intros q c r Hin. repeat (apply elem_of_cons in Hin as [Hin|Hin]; [discriminate|]).
    by apply not_elem_of_nil in Hin.
  - cbn. unfold ext_clone. subst s1. cbn. by rewrite Hurl.
  - cbv [services Svc.load_and_index_files ext_load]. subst s2. cbn [disk assoc].
    rewrite String.eqb_refl. cbn [default id]. by rewrite Hld.
Qed.

(** C6 The scenario of spec.md section 8, for every repository of one
    qualifying file: when the user types the URL of a repository whose
    only file passes the allow-list, the size ceiling and decoding, then
    a question, then the sentinel, and the model answers [reply],
    [main()] ends normally with the rest of standard input unread; the
    indexer records the one document under the count [{ext: 1}] and the
    file's name; the answerer sends exactly one prompt, which holds the
    file's text numbered ["1. "] and the stripped question; the answer
    is printed; and the temporary directory is removed last. *)
Theorem single_file_scenario K idx dcfg key fuel w url f fext t q reply rs rest :
  1 ≤ K → 2 ≤ fuel →
  stdin w = Line url :: Line q :: Line "exit()" :: rest →
  assoc url (remote (ext w)) = Some [f] →
  Indexer.accepted idx f = Some fext → Indexer.text f = Some t →
  Str.is_exit_command q = false →
  replies (ext w) = Ok reply :: rs →
  let tmp := "/tmp/tmp" +:+ pretty (next_tmp (ext w)) in
  let doc := mkDocument t (Indexer.path f) in
  ∃ w' p, Session.main (services K idx) dcfg key fuel w = (Ret tt, w') ∧
    stdin w' = rest ∧
    EvCall (CallLoad tmp (Ok (Some (@build _ sort_index [doc]), [doc], [(fext, 1)],
                              [Indexer.path f]))) ∈ trace w' ∧
    sent (ext w') = sent (ext w) ++ [(Session.llm_params key, p)] ∧
    str_infix ("1. " +:+ t) p ∧ str_infix (format_user_question q) p ∧
    EvPrint (Session.answer_banner dcfg reply) ∈ trace w' ∧
    last (trace w') = Some (EvRmTemp tmp).
Proof.
  intros HK Hfuel Hs Hurl Hacc Htext Hq Hrep tmp doc.
  destruct (Str.repo_name_of_ok url) as [name Hn].
  set (s2 := mkExt (remote (ext w)) ((tmp, [f]) :: disk (ext w)) (S (next_tmp (ext w))) (sent (ext w)) (replies (ext w))).
  set (ctx := mkQuestionContext (@build _ sort_index [doc]) [doc]
                (mkLLMChain (mkPromptTemplate Tmpl.template Tmpl.input_variables)
                   (Session.llm_params key)) (Cfg.model_name dcfg) name url "" [(fext, 1)]
                [Indexer.path f]).
  destruct (@Answerer.ask_question_contract _ sort_index word_overlap K _ ext_complete
              (sort_index_topk word_overlap) (format_user_question q) ctx s2)
    as (docs & p & Hdocs & _ & Hask & Hqin & _ & Hnum); [reflexivity | reflexivity |].
  assert (docs = [doc]) as ->.
  { pose proof (topk_length _ _ _ _ _ Hdocs) as Hl. cbn in Hl.
    destruct docs as [|d [|]]; cbn in Hl; [lia | | lia].
    pose proof (topk_elem _ _ _ _ _ Hdocs d ltac:(set_solver)) as Hd. set_solver. }
  set (s3 := mkExt (remote (ext w)) ((tmp, [f]) :: disk (ext w)) (S (next_tmp (ext w)))
               (sent (ext w) ++ [(Session.llm_params key, p)]) rs).
  assert (Ha : ask_question (services K idx) (format_user_question q) ctx s2 = (Ok reply, s3)).
  { cbn [ask_question services]. rewrite Hask. unfold ext_complete. cbn. by rewrite Hrep. }
  destruct fuel as [|[|fuel]]; [lia | lia |].
  erewrite (Session.main_loop_run (services K idx) dcfg key _ w url _ name tmp _ s2 s2 s2);
    [| exact Hs | exact Hn | reflexivity | cbn; unfold ext_clone; cbn; by rewrite Hurl
     | cbv [services Svc.load_and_index_files ext_load]; subst s2; cbn [disk assoc];
       rewrite String.eqb_refl; cbn [default id];
       unfold Indexer.load_and_index_files; cbn [foldl];
       unfold Indexer.index_step; rewrite Hacc, Htext; reflexivity
     | reflexivity
     | cbn [Session.chat_loop]; unfold bind;
       erewrite (Session.loop_body_answer_run (services K idx) dcfg ctx "" _ q); [| reflexivity | exact Hq | exact Ha];
       cbn [Session.chat_loop]; unfold bind;
       erewrite (Session.loop_body_exit_run (services K idx) dcfg ctx _ _ "exit()"); [| reflexivity | reflexivity];
       reflexivity].
  eexists _, p. split; [reflexivity|]. cbn.
  split_and!; [reflexivity | | reflexivity | | exact Hqin | | apply last_app_singleton].
  - rewrite <- !app_assoc. apply elem_of_app; right.
    repeat (apply elem_of_cons; first [left; reflexivity | right]).
  - apply (Hnum 0 doc). reflexivity.
  - rewrite <- !app_assoc. apply elem_of_app; right.
    repeat (apply elem_of_cons; first [left; reflexivity | right]).
Qed.

Lemma single_file_scenario_witness :
  ∃ w' p, Session.main (services 3 scenario_cfg) SessionRuns.demo_cfg None 4
            (scenario_world "Hi.") = (Ret tt, w') ∧
    stdin w' = [] ∧
    EvCall (CallLoad "/tmp/tmp0" (Ok (Some (@build _ sort_index [readme_doc]), [readme_doc],
                                      [("md", 1)], ["readme.md"]))) ∈ trace w' ∧
    sent (ext w') = [] ++ [(Session.llm_params None, p)] ∧
    str_infix ("1. " +:+ "Hello world") p ∧
    str_infix (format_user_question ("  " +:+ scenario_question +:+ " ")) p ∧
    EvPrint (Session.answer_banner SessionRuns.demo_cfg "Hi.") ∈ trace w' ∧
    last (trace w') = Some (EvRmTemp "/tmp/tmp0").
Proof.
  exact (single_file_scenario 3 scenario_cfg SessionRuns.demo_cfg None 4 (scenario_world "Hi.")
           scenario_url readme "md" "Hello world" ("  " +:+ scenario_question +:+ " ") "Hi." [] []
           ltac:(lia) ltac:(lia) eq_refl eq_refl eq_refl eq_refl eq_refl eq_refl).
Defined.

Lemma model_never_sees_history_witness :
  Session.main (services 3 scenario_cfg) SessionRuns.demo_cfg None 4 (scenario_world "Hi.")
    = (fst (scenario_run "Hi."), snd (scenario_run "Hi.")) ∧
  ∃ new, sent (ext (snd (scenario_run "Hi."))) = sent (ext (scenario_world "Hi.")) ++ new ∧
         Forall (λ x, x.1 = Session.llm_params None ∧
                      ∃ q ctx, Session.main_ctx None ctx ∧ prompt_of 3 q ctx = Ok x.2) new.
Proof.
  assert (Session.main (services 3 scenario_cfg) SessionRuns.demo_cfg None 4 (scenario_world "Hi.")
    = (fst (scenario_run "Hi."), snd (scenario_run "Hi."))) as H by (vm_compute; reflexivity).
  split; [exact H|].
  exact (model_never_sees_history 3 scenario_cfg SessionRuns.demo_cfg None 4 _ _ _ H).
Defined.

(** The counts as a map do not see the walk's order, but their [repr]
    in the prompt does: the dict keeps insertion order. *)
Example counts_repr_walk_order :
  let cfg := Indexer.mkIndexConfig ["md"; "py"] 100 in
  let a := Indexer.mkSourceFile "a.md" 3 (Some "one") in
  let b := Indexer.mkSourceFile "b.py" 3 (Some "two") in
  let counts files := let '(_, _, c, _) := Indexer.load_and_index_files (λ ds, ds) cfg files in c in
  Answerer.py_repr_counts (counts [a; b]) = "{'md': 1, 'py': 1}" ∧
  Answerer.py_repr_counts (counts [b; a]) = "{'py': 1, 'md': 1}".
Proof. split; vm_compute; reflexivity. Qed.

Lemma no_qualifying_files_abort_witness :
  let w := mkWorld [Line scenario_url; Line "What?"] [] (mkExt [(scenario_url, [logo])] [] 0 [] []) in
  stdin w = Line scenario_url :: [Line "What?"] ∧
  assoc scenario_url (remote (ext w)) = Some [logo] ∧
  Forall (λ f, Indexer.indexed scenario_cfg f = false) [logo] ∧
  ∃ w' t, Session.main (services 3 scenario_cfg) SessionRuns.demo_cfg None 4 w = (Raise system_exit, w') ∧
          stdin w' = [Line "What?"] ∧ trace w' = trace w ++ t ∧ sent (ext w') = sent (ext w) ∧
          EvPrint "No documents were found to index. Exiting." ∈ t ∧
          ∀ q c r, EvCall (CallAsk q c r) ∉ t.
Proof.
  intros w.
  assert (stdin w = Line scenario_url :: [Line "What?"]) as H1 by reflexivity.
  assert (assoc scenario_url (remote (ext w)) = Some [logo]) as H2 by reflexivity.
  assert (Forall (λ f, Indexer.indexed scenario_cfg f = false) [logo]) as H3
    by (constructor; [reflexivity | constructor]).
  split_and!; [exact H1 | exact H2 | exact H3 |].
  exact (no_qualifying_files_abort 3 scenario_cfg SessionRuns.demo_cfg None 4 w scenario_url
           [Line "What?"] [logo] H1 H2 H3).
Defined.

Lemma main_contexts_wf_witness :
  Session.main (services 3 scenario_cfg) SessionRuns.demo_cfg None 4 (scenario_world "Hi.")
    = (fst (scenario_run "Hi."), snd (scenario_run "Hi.")) ∧
  ∃ t, trace (snd (scenario_run "Hi.")) = trace (scenario_world "Hi.") ++ t ∧
    ∀ q c r, EvCall (CallAsk q c r) ∈ t →
      Session.main_ctx None c ∧ from_indexer scenario_cfg (Session.ctx_loaded c) ∧
      index c = @build _ sort_index (documents c).
Proof.
  assert (Session.main (services 3 scenario_cfg) SessionRuns.demo_cfg None 4 (scenario_world "Hi.")
    = (fst (scenario_run "Hi."), snd (scenario_run "Hi."))) as H by (vm_compute; reflexivity).
  split; [exact H|].
  exact (main_contexts_wf 3 scenario_cfg SessionRuns.demo_cfg None 4 _ _ _ H).
Defined.

Lemma model_prompts_top_k_witness :
  Session.main (services 3 scenario_cfg) SessionRuns.demo_cfg None 4 (scenario_world "Hi.")
    = (fst (scenario_run "Hi."), snd (scenario_run "Hi.")) ∧
  ∃ new, sent (ext (snd (scenario_run "Hi."))) = sent (ext (scenario_world "Hi.")) ++ new ∧
         Forall (λ x, x.1 = Session.llm_params None ∧ topk_prompt 3 scenario_cfg None x.2) new.
Proof.
  assert (Session.main (services 3 scenario_cfg) SessionRuns.demo_cfg None 4 (scenario_world "Hi.")
    = (fst (scenario_run "Hi."), snd (scenario_run "Hi."))) as H by (vm_compute; reflexivity).
  split; [exact H|].
  exact (model_prompts_top_k 3 scenario_cfg SessionRuns.demo_cfg None 4 _ _ _ H).
Defined.

End EndToEnd.
